(** * TourPulseAI hotel scraper: extraction-and-enrichment pipeline

    Shallow embedding of [src/scrapers/makemytrip_scraper.py]
    (class [TourPulseAIScraper]) and the properties of its feature
    derivation, review harvester and pipeline driver.

    Conventions of the embedding.
    - A Python [str] is a list of Unicode code points ([pystr]); [len],
      slicing and [startswith] then mean what they mean in Python.
    - Python exceptions are explicit: a fallible call returns an [outcome].
    - The browser (Selenium driver) is an explicit state, a list of open
      window handles and the focused handle; what the pages answer is
      supplied by a world record, one field per call site.
    - Floats are idealised: a float is represented by the rational the
      computation denotes without rounding.  The program rounds after
      each operation, so the float it holds can differ from that
      rational in the last places, and a text beyond the range of a
      double converts to infinity.
    - Library behaviour that depends on the interpreter or the platform
      is that of CPython 3.11: [int] converts at most 4300 digits,
      [urlsplit] cleans the URL and raises on a malformed network
      location, and [strftime] leaves the padding of the year to the C
      library ([pads_year]).
    - Logging and [time.sleep] have no effect on what is computed and
      are left out. *)

From Stdlib Require Import List ZArith NArith QArith Qminmax Lia Bool.
From Stdlib Require Import Permutation.
From Stdlib Require Import Strings.String Strings.Ascii DecimalString.
From Stdlib Require DecimalNat DecimalFacts.
Import ListNotations.

Set Implicit Arguments.

(* ================================================================== *)
(** ** Python strings *)
(* ================================================================== *)

Module PyStr.

Local Open Scope N_scope.

(** A Python string: its code points. *)
Definition pystr := list N.

(** ASCII literal. *)
Definition py (s : string) : pystr :=
  List.map N_of_ascii (list_ascii_of_string s).

Fixpoint str_eqb (a b : pystr) : bool :=
  match a, b with
  | [], [] => true
  | x :: a', y :: b' => N.eqb x y && str_eqb a' b'
  | _, _ => false
  end.

(** [w in l] for a list of strings. *)
Definition str_in (w : pystr) (l : list pystr) : bool :=
  existsb (str_eqb w) l.

(** [s.startswith(p)] *)
Fixpoint startswith (s p : pystr) {struct p} : bool :=
  match p, s with
  | [], _ => true
  | y :: p', x :: s' => N.eqb x y && startswith s' p'
  | _ :: _, [] => false
  end.

(** [p in s] for strings: substring test. *)
Fixpoint contains (s p : pystr) {struct s} : bool :=
  startswith s p ||
  match s with
  | [] => false
  | _ :: s' => contains s' p
  end.

(** [s.replace(c, '')] for a one-character [c]. *)
Definition remove_char (c : N) (s : pystr) : pystr :=
  filter (fun x => negb (N.eqb x c)) s.

(** The code points on which [str.isspace] holds; [split()] and
    [strip()] without argument cut on exactly these. *)
Definition is_space (c : N) : bool :=
  ((9 <=? c) && (c <=? 13)) || ((28 <=? c) && (c <=? 32))
  || (c =? 133) || (c =? 160) || (c =? 5760)
  || ((8192 <=? c) && (c <=? 8202))
  || (c =? 8232) || (c =? 8233) || (c =? 8239) || (c =? 8287)
  || (c =? 12288).

(** The maximal runs of code points satisfying [keep], left to right.
    [cur] is the run being read, most recent code point first. *)
Fixpoint runs_from (keep : N -> bool) (cur : pystr) (s : pystr) : list pystr :=
  match s with
  | [] => match cur with [] => [] | _ => [rev cur] end
  | c :: s' =>
      if keep c
      then runs_from keep (c :: cur) s'
      else match cur with
           | [] => runs_from keep [] s'
           | _ => rev cur :: runs_from keep [] s'
           end
  end.

Definition runs (keep : N -> bool) (s : pystr) : list pystr :=
  runs_from keep [] s.

(** [s.split()]: the maximal runs of non-space code points. *)
Definition split (s : pystr) : list pystr :=
  runs (fun c => negb (is_space c)) s.

Fixpoint lstrip (s : pystr) : pystr :=
  match s with
  | c :: s' => if is_space c then lstrip s' else s
  | [] => []
  end.

(** [s.strip()] *)
Definition strip (s : pystr) : pystr := rev (lstrip (rev (lstrip s))).

Definition is_ascii (c : N) : bool := c <? 128.

Definition ascii_lower (c : N) : N :=
  if (65 <=? c) && (c <=? 90) then c + 32 else c.

Section Lower.
(** [str.lower] on a string that holds a code point outside ASCII
    follows the Unicode case tables, which are not part of the
    repository: they are a parameter. *)
Variable unicode_lower : pystr -> pystr.

(** [s.lower()] *)
Definition lower (s : pystr) : pystr :=
  if forallb is_ascii s then List.map ascii_lower s else unicode_lower s.
End Lower.

End PyStr.
Export PyStr.

(* ================================================================== *)
(** ** Feature derivation: keyword sentiment *)
(* ================================================================== *)

Module Sentiment.

Local Open Scope Z_scope.

Definition positive_words : list pystr := List.map py
  [ "excellent"; "amazing"; "wonderful"; "fantastic"; "great"; "good"; "nice";
    "clean"; "comfortable"; "friendly"; "helpful"; "recommend"; "perfect";
    "beautiful"; "spacious"; "convenient"; "professional"; "outstanding";
    "love"; "loved"; "enjoy"; "enjoyed"; "pleasant"; "satisfied" ]%string.

Definition negative_words : list pystr := List.map py
  [ "terrible"; "awful"; "bad"; "worst"; "horrible"; "dirty"; "uncomfortable";
    "rude"; "unhelpful"; "disappointing"; "poor"; "cheap"; "noisy"; "smelly";
    "broken"; "outdated"; "cramped"; "overpriced"; "hate"; "hated"; "annoying";
    "disgusting"; "unacceptable"; "nightmare"; "avoid" ]%string.

(** The two counters of the scoring loop. *)
Record counters := { total_score : Z; word_count : Z }.

(** Body of [for word in words]. *)
Definition count_word (st : counters) (word : pystr) : counters :=
  let n := word_count st + 1 in
  if str_in word positive_words
  then {| total_score := total_score st + 1; word_count := n |}
  else if str_in word negative_words
  then {| total_score := total_score st - 1; word_count := n |}
  else {| total_score := total_score st; word_count := n |}.

(** [max(-1.0, min(1.0, x))] *)
Definition clamp (x : Q) : Q := Qmax (-1) (Qmin 1 x).

Section WithLower.
Variable unicode_lower : pystr -> pystr.

(** [review.lower().split()] *)
Definition words_of (review : pystr) : list pystr :=
  split (lower unicode_lower review).

(** Body of [for review in reviews]. *)
Definition count_review (st : counters) (review : pystr) : counters :=
  fold_left count_word (words_of review) st.

Definition calculate_sentiment_score (reviews : list pystr) : Q :=
  match reviews with
  | [] => 0%Q
  | _ =>
      let st := fold_left count_review reviews
                  {| total_score := 0; word_count := 0 |} in
      if word_count st =? 0 then 0%Q
      else clamp (inject_Z (total_score st) / inject_Z (word_count st) * 10)%Q
  end.

(** *** The scoring rule in the words of the specification *)

(** All tokens of all reviews, lower-cased and whitespace-split. *)
Definition tokens (reviews : list pystr) : list pystr :=
  flat_map words_of reviews.

(** +1 for membership in the positive set, -1 for membership in the
    negative set. *)
Definition token_value (w : pystr) : Z :=
  (if str_in w positive_words then 1 else 0)
  - (if str_in w negative_words then 1 else 0).

Definition token_sum (ws : list pystr) : Z :=
  fold_right (fun w acc => token_value w + acc) 0 ws.

Definition sentiment_spec (reviews : list pystr) : Q :=
  match tokens reviews with
  | [] => 0%Q
  | ws => clamp (inject_Z (token_sum ws)
                 / inject_Z (Z.of_nat (List.length ws)) * 10)%Q
  end.
End WithLower.

End Sentiment.
Export Sentiment.

(* ================================================================== *)
(** ** Exceptions *)
(* ================================================================== *)

Module Exn.

(** The exception classes the handlers of the scraper tell apart;
    [OtherException] stands for every other subclass of [Exception]
    ([ValueError], [WebDriverException], [NameError], ...). *)
Inductive exn :=
| NoSuchElementException
| TimeoutException
| OtherException.

Inductive outcome (A : Type) :=
| Ok (a : A)
| Raise (e : exn).
Arguments Ok {A} a.
Arguments Raise {A} e.

Definition bind {A B} (m : outcome A) (k : A -> outcome B) : outcome B :=
  match m with
  | Ok a => k a
  | Raise e => Raise e
  end.

(** [except NoSuchElementException] *)
Definition is_no_such_element (e : exn) : bool :=
  match e with NoSuchElementException => true | _ => false end.

(** [except (NoSuchElementException, TimeoutException)] *)
Definition is_absent_or_timeout (e : exn) : bool :=
  match e with OtherException => false | _ => true end.

(** Computations that mutate a state [S] and may raise; what was
    mutated before the exception stays mutated. *)
Definition stateful (S A : Type) : Type := S -> S * outcome A.

Definition ret {S A} (a : A) : stateful S A := fun s => (s, Ok a).
Definition throw {S A} (e : exn) : stateful S A := fun s => (s, Raise e).
Definition lift {S A} (o : outcome A) : stateful S A := fun s => (s, o).

Definition mbind {S A B} (m : stateful S A) (k : A -> stateful S B)
  : stateful S B :=
  fun s => match m s with
           | (s', Ok a) => k a s'
           | (s', Raise e) => (s', Raise e)
           end.

(** [try: m  except Exception as e: h e] *)
Definition try_catch {S A} (m : stateful S A) (h : exn -> stateful S A)
  : stateful S A :=
  fun s => match m s with
           | (s', Raise e) => h e s'
           | r => r
           end.

(** From a state satisfying [P], the computation ends in a state
    satisfying [Q a] when it returns [a] and in one satisfying [E]
    when it raises. *)
Definition triple {S A} (P : S -> Prop) (c : stateful S A)
  (Q : A -> S -> Prop) (E : S -> Prop) : Prop :=
  forall s, P s ->
  match c s with
  | (s', Ok a) => Q a s'
  | (s', Raise _) => E s'
  end.

End Exn.
Export Exn.

Notation "x <- m ;; k" := (bind m (fun x => k))
  (at level 61, m at next level, right associativity).
Notation "x <~ m ;; k" := (mbind m (fun x => k))
  (at level 61, m at next level, right associativity).

(* ================================================================== *)
(** ** Feature derivation: numeric normalization *)
(* ================================================================== *)

Module Numeric.

Local Open Scope N_scope.

Definition comma : N := 44.
Definition dot : N := 46.

(** The most digits [int] converts from a decimal string. *)
Definition max_str_digits : nat := 4300.

Section WithDigits.
(** [\d], [int] and [float] accept every Unicode decimal digit; the
    table of those outside ASCII (category Nd) is not part of the
    repository: it is a parameter, giving the digit's value. *)
Variable nd_value : N -> option N.

Definition digit_value (c : N) : option N :=
  if (48 <=? c) && (c <=? 57) then Some (c - 48)
  else if c <? 128 then None
  else nd_value c.

(** [\d] *)
Definition is_digit (c : N) : bool :=
  match digit_value c with Some _ => true | None => false end.

(** [re.findall(r'[\d,]+', s)] *)
Definition findall_digits_commas (s : pystr) : list pystr :=
  runs (fun c => is_digit c || (c =? comma)) s.

(** [re.findall(r'\d+', s)] *)
Definition findall_digits (s : pystr) : list pystr :=
  runs is_digit s.

(** Where the matcher of [\d+\.?\d*] stands: before a match, inside
    the leading digits, or past the optional dot. *)
Inductive decimal_state :=
| Outside
| InInteger (cur : pystr)
| InFraction (cur : pystr).

Fixpoint decimals_from (st : decimal_state) (s : pystr) : list pystr :=
  match s with
  | [] =>
      match st with
      | Outside => []
      | InInteger cur | InFraction cur => [rev cur]
      end
  | c :: s' =>
      match st with
      | Outside =>
          if is_digit c then decimals_from (InInteger [c]) s'
          else decimals_from Outside s'
      | InInteger cur =>
          if is_digit c then decimals_from (InInteger (c :: cur)) s'
          else if c =? dot then decimals_from (InFraction (c :: cur)) s'
          else rev cur :: decimals_from Outside s'
      | InFraction cur =>
          if is_digit c then decimals_from (InFraction (c :: cur)) s'
          else rev cur :: decimals_from Outside s'
      end
  end.

(** [re.findall(r'\d+\.?\d*', s)] *)
Definition findall_decimals (s : pystr) : list pystr :=
  decimals_from Outside s.

(** Value of a string of decimal digits, most significant first;
    [None] when a code point is not a digit. *)
Fixpoint digits_value (acc : N) (s : pystr) : option N :=
  match s with
  | [] => Some acc
  | c :: s' =>
      match digit_value c with
      | Some d => digits_value (10 * acc + d) s'
      | None => None
      end
  end.

(** [int(s)] on the strings the patterns can hand over: one or more
    digits; anything else is a [ValueError], and so is a string of more
    digits than the interpreter converts
    ([sys.int_info.default_max_str_digits]). *)
Definition py_int (s : pystr) : outcome Z :=
  match s with
  | [] => Raise OtherException
  | _ => if Nat.ltb max_str_digits (List.length s)
         then Raise OtherException
         else match digits_value 0 s with
              | Some n => Ok (Z.of_N n)
              | None => Raise OtherException
              end
  end.

(** The text before the first dot, and the text after it if any. *)
Fixpoint cut_at_dot (s : pystr) : pystr * option pystr :=
  match s with
  | [] => ([], None)
  | c :: s' =>
      if c =? dot then ([], Some s')
      else let '(a, b) := cut_at_dot s' in (c :: a, b)
  end.

(** [float(s)] on the strings the patterns can hand over: digits,
    then possibly a dot and more digits; anything else (a comma, a
    second dot, no leading digit) is a [ValueError].  The result is the
    number written, which the float rounds (to infinity beyond the
    range of a double). *)
Definition py_float (s : pystr) : outcome Q :=
  let '(ip, fp) := cut_at_dot s in
  match ip, digits_value 0 ip with
  | _ :: _, Some i =>
      match fp with
      | None => Ok (inject_Z (Z.of_N i))
      | Some f =>
          match digits_value 0 f with
          | Some fv =>
              Ok (inject_Z (Z.of_N i)
                  + inject_Z (Z.of_N fv)
                    / inject_Z (Z.of_N (10 ^ N.of_nat (List.length f))))%Q
          | None => Raise OtherException
          end
      end
  | _, _ => Raise OtherException
  end.

(** [convert(m[0]) if m else None] *)
Definition first_match {A} (convert : pystr -> outcome A) (m : list pystr)
  : outcome (option A) :=
  match m with
  | x :: _ => v <- convert x ;; Ok (Some v)
  | [] => Ok None
  end.

Definition parse_price (price : pystr) : outcome (option Q) :=
  first_match py_float (findall_digits_commas (remove_char comma price)).

Definition parse_review_count (review_count : pystr) : outcome (option Z) :=
  first_match py_int (findall_digits (remove_char comma review_count)).

Definition parse_rating (user_rating : pystr) : outcome (option Q) :=
  first_match py_float (findall_decimals user_rating).
End WithDigits.

(** *** What the matches denote *)

(** The number a run of digits denotes. *)
Definition run_value (nd_value : N -> option N) (m : pystr) : Z :=
  match digits_value nd_value 0 m with
  | Some n => Z.of_N n
  | None => 0
  end.

(** The first run of digits of the review count, if any, is one that
    [int] converts. *)
Definition count_within_limit (nd_value : N -> option N)
    (review_count : pystr) : bool :=
  match head (findall_digits nd_value (remove_char comma review_count)) with
  | Some m => Nat.leb (List.length m) max_str_digits
  | None => true
  end.

(** The number a match of [\d+\.?\d*] denotes. *)
Definition decimal_value (nd_value : N -> option N) (m : pystr) : Q :=
  match py_float nd_value m with
  | Ok v => v
  | Raise _ => 0
  end.

(** The shape of a match of [\d+\.?\d*]. *)
Definition decimal_shape (nd_value : N -> option N) (m : pystr) : Prop :=
  exists ip, ip <> [] /\ Forall (fun c => is_digit nd_value c = true) ip
  /\ (m = ip
    \/ exists fp, Forall (fun c => is_digit nd_value c = true) fp
                  /\ m = ip ++ dot :: fp).

(** What the matcher has read so far has the shape of a match. *)
Definition state_shape (nd_value : N -> option N) (st : decimal_state) : Prop :=
  match st with
  | Outside => True
  | InInteger cur =>
    cur <> [] /\ Forall (fun c => is_digit nd_value c = true) cur
  | InFraction cur =>
    exists ip fp, ip <> [] /\ Forall (fun c => is_digit nd_value c = true) ip
                  /\ Forall (fun c => is_digit nd_value c = true) fp
                  /\ rev cur = ip ++ dot :: fp
  end.

End Numeric.
Export Numeric.

(* ================================================================== *)
(** ** Data model *)
(* ================================================================== *)

Module Data.

(** [@dataclass ReviewData] *)
Record ReviewData := {
  review_id : pystr;
  reviewer_name : pystr;
  review_text : pystr;
  review_rating : pystr;
  review_date : pystr;
  review_helpful_count : pystr;
  review_hotel_id : pystr;
  review_sentiment_score : option Q
}.

(** [@dataclass HotelData] *)
Record HotelData := {
  hotel_name : pystr;
  hotel_id : pystr;
  scrape_timestamp : pystr;
  location : pystr;
  landmark : pystr;
  distance_to_landmark : pystr;
  user_rating : pystr;
  rating_description : pystr;
  review_count : pystr;
  star_rating : pystr;
  recent_reviews : list pystr;
  review_highlights : list pystr;
  price : pystr;
  tax : pystr;
  currency : pystr;
  availability_status : pystr;
  search_date : pystr;
  checkin_date : pystr;
  checkout_date : pystr;
  days_ahead : Z;
  day_of_week : pystr;
  season : pystr;
  latitude : option Q;
  longitude : option Q;
  price_numeric : option Q;
  review_count_numeric : option Z;
  rating_numeric : option Q;
  star_rating_numeric : option Z;
  avg_sentiment_score : option Q
}.

(** Assignment to the five derived fields that
    [extract_numeric_features] writes; every other field is kept. *)
Definition with_derived (h : HotelData)
    (p : option Q) (r : option Z) (g : option Q) (s : option Z) (a : option Q)
  : HotelData :=
  {| hotel_name := hotel_name h; hotel_id := hotel_id h;
     scrape_timestamp := scrape_timestamp h; location := location h;
     landmark := landmark h; distance_to_landmark := distance_to_landmark h;
     user_rating := user_rating h; rating_description := rating_description h;
     review_count := review_count h; star_rating := star_rating h;
     recent_reviews := recent_reviews h; review_highlights := review_highlights h;
     price := price h; tax := tax h; currency := currency h;
     availability_status := availability_status h;
     search_date := search_date h; checkin_date := checkin_date h;
     checkout_date := checkout_date h; days_ahead := days_ahead h;
     day_of_week := day_of_week h; season := season h;
     latitude := latitude h; longitude := longitude h;
     price_numeric := p; review_count_numeric := r; rating_numeric := g;
     star_rating_numeric := s; avg_sentiment_score := a |}.

(** The reserved marker of a placeholder review. *)
Definition placeholder_marker : pystr := py "No review available".

(** [r.startswith("No review available")] *)
Definition is_placeholder (r : pystr) : bool := startswith r placeholder_marker.

(** [[r for r in reviews if not r.startswith("No review available")]] *)
Definition valid_reviews_of (reviews : list pystr) : list pystr :=
  filter (fun r => negb (is_placeholder r)) reviews.

(** [str(n)] for a natural number. *)
Definition str_of_nat (n : nat) : pystr :=
  py (NilZero.string_of_uint (Nat.to_uint n)).

Definition str_of_N (n : N) : pystr :=
  py (NilZero.string_of_uint (N.to_uint n)).

(** A record as the listing walker builds it, with the given texts and
    every other field empty. *)
Definition listing_record (price_text count_text rating_text : pystr)
    (reviews : list pystr) : HotelData :=
  {| hotel_name := []; hotel_id := []; scrape_timestamp := [];
     location := []; landmark := []; distance_to_landmark := [];
     user_rating := rating_text; rating_description := [];
     review_count := count_text; star_rating := [];
     recent_reviews := reviews; review_highlights := [];
     price := price_text; tax := []; currency := [];
     availability_status := py "Available";
     search_date := []; checkin_date := []; checkout_date := [];
     days_ahead := 0; day_of_week := []; season := [];
     latitude := None; longitude := None;
     price_numeric := None; review_count_numeric := None;
     rating_numeric := None; star_rating_numeric := None;
     avg_sentiment_score := None |}.

End Data.
Export Data.

Module Features.

Section WithTables.
Variable unicode_lower : pystr -> pystr.
Variable nd_value : N -> option N.

(** [extract_numeric_features]: the assignments run in order inside
    one [try]; an exception leaves the fields not yet assigned as
    they were and the record is returned all the same. *)
Definition extract_numeric_features (h : HotelData) : HotelData :=
  match parse_price nd_value (price h) with
  | Raise _ => h
  | Ok p =>
      let h1 := with_derived h p (review_count_numeric h) (rating_numeric h)
                  (star_rating_numeric h) (avg_sentiment_score h) in
      match parse_review_count nd_value (review_count h) with
      | Raise _ => h1
      | Ok r =>
          let h2 := with_derived h p r (rating_numeric h)
                      (star_rating_numeric h) (avg_sentiment_score h) in
          match parse_rating nd_value (user_rating h) with
          | Raise _ => h2
          | Ok g =>
              let s := match star_rating h with
                       | [] => star_rating_numeric h
                       | _ => Some (Z.of_nat (List.length (star_rating h)))
                       end in
              with_derived h p r g s
                (Some (calculate_sentiment_score unicode_lower
                         (valid_reviews_of (recent_reviews h))))
          end
      end
  end.
End WithTables.

End Features.
Export Features.

(* ================================================================== *)
(** ** The page controller: browsing contexts *)
(* ================================================================== *)

Module Browser.

Definition handle := nat.

(** The open windows, oldest first, and the one the driver is focused
    on.  The focused handle stays as it is when its window is closed:
    it is then a handle of no open window. *)
Record browser := { handles : list handle; current : handle }.

Definition is_open (h : handle) (b : browser) : bool :=
  existsb (Nat.eqb h) (handles b).

(** The focused window is open. *)
Definition alive (b : browser) : bool := is_open (current b) b.

(** [driver.current_window_handle]: no such window once the focused
    window is closed. *)
Definition current_window_handle (b : browser) : outcome handle :=
  if alive b then Ok (current b) else Raise OtherException.

Definition fresh_handle (b : browser) : handle := S (list_max (handles b)).

(** Effect of [window.open(url, '_blank')]: a new window, last in
    [window_handles]; the focus does not move. *)
Definition open_tab (b : browser) : browser :=
  {| handles := handles b ++ [fresh_handle b]; current := current b |}.

(** [driver.window_handles[-1]] *)
Definition last_handle (b : browser) : outcome handle :=
  match rev (handles b) with
  | h :: _ => Ok h
  | [] => Raise OtherException
  end.

(** [driver.switch_to.window(h)] *)
Definition switch_to_window (h : handle) (b : browser) : outcome browser :=
  if is_open h b then Ok {| handles := handles b; current := h |}
  else Raise OtherException.

(** [driver.close()]: closes the focused window. *)
Definition close (b : browser) : outcome browser :=
  if alive b
  then Ok {| handles := remove Nat.eq_dec (current b) (handles b);
             current := current b |}
  else Raise OtherException.

End Browser.
Export Browser.

(* ================================================================== *)
(** ** Review harvester *)
(* ================================================================== *)

Module Harvester.

Definition min_reviews : nat := 5.
Definition max_attempts : nat := 3.

(** *** Driver configuration *)

(** The arguments [_setup_driver] installs. *)
Definition setup_driver_args (headless : bool) : list pystr :=
  List.map py
    [ "--disable-gpu"; "--disable-dev-shm-usage"; "--disable-extensions";
      "--no-sandbox"; "--disable-blink-features=AutomationControlled";
      "--user-agent=Mozilla/5.0 (Windows NT 10.0; Win64; x64) AppleWebKit/537.36 (KHTML, like Gecko) Chrome/126.0.0.0 Safari/537.36";
      "--window-size=1920,1080" ]%string
  ++ (if headless then [py "--headless=new"] else []).

(** [l.count(x)] *)
Definition count (x : pystr) (l : list pystr) : nat :=
  List.length (filter (str_eqb x) l).

(** What [self.driver.options.args] evaluates to: the installed
    arguments when the driver object exposes them, an [AttributeError]
    when it does not. *)
Definition options_args (headless exposed : bool) : outcome (list pystr) :=
  if exposed then Ok (setup_driver_args headless) else Raise OtherException.

(** *** Selector lists *)

Definition review_selectors : list pystr := List.map py
  [ ".userReviewCard__text"; ".ReviewsDisplayCard__text"; ".ReviewCard__text";
    ".review-text"; "[data-cy='reviewText']"; ".review__comment";
    ".review__body"; ".user-review"; ".comment-text"; ".guest-review" ]%string.

Definition highlight_selectors : list pystr := List.map py
  [ ".tag__item"; ".highlightTag"; ".reviewHighlight"; ".review-tag";
    "[data-cy='reviewHighlight']"; ".review__tag"; ".amenity-tag";
    ".guest-review__tag" ]%string.

Definition link_selectors : list pystr := List.map py
  [ "a[href*='reviews']"; "[data-cy='reviewsButton']";
    "[data-testid='view-all-reviews']"; ".btn__review";
    "a[href*='hotel-details']"; ".hotel__link"; "[data-cy='hotelNameLink']";
    ".listing__hotel-link" ]%string.

Definition reviews_tab_selectors : list pystr := List.map py
  [ "[data-cy='reviewsTab']"; ".tab__reviews"; "a[href*='reviews']";
    ".reviews__tab"; "[data-testid='reviews-tab']"; ".btn--reviews";
    ".nav__reviews"; ".hotel-reviews__tab" ]%string.

Definition captcha_keywords : list pystr := List.map py
  [ "captcha"; "verify you are not a robot"; "recaptcha" ]%string.

(** *** What the pages answer *)

(** A link found in the row. *)
Record LinkElement := {
  is_displayed : outcome bool;
  href : outcome (option pystr)
}.

(** One navigation attempt, call site by call site.  A [_fault] flag
    makes the driver call of that line raise; a call also raises, flag
    or not, when the focused window is closed. *)
Record AttemptWorld := {
  find_link : pystr -> outcome LinkElement;   (* l.241 *)
  handle_fault : bool;                        (* l.255 *)
  open_fault : bool;                          (* l.258 *)
  switch_fault : bool;                        (* l.260 *)
  page_source : outcome pystr;                (* l.264 *)
  abort_close_fault : bool;                   (* l.271 *)
  abort_switch_fault : bool;                  (* l.272 *)
  click_tab : pystr -> outcome unit;          (* l.291-294 *)
  scroll_fault : nat -> bool;                 (* l.304 *)
  detail_texts : list pystr;                  (* l.308, texts collected *)
  detail_records : list ReviewData;           (* l.308, records appended *)
  close_fault : bool;                         (* l.312 *)
  switch_back_fault : bool;                   (* l.313 *)
  handler_handle_fault : bool;                (* l.321 *)
  handler_close_fault : bool;                 (* l.322 *)
  handler_switch_fault : bool                 (* l.323 *)
}.

(** One listing row: [find_elements] gives, for a selector, the texts
    of the elements found ([elem.text], which may raise). *)
Record RowWorld := {
  find_elements : pystr -> outcome (list (outcome pystr));
  attempt_world : nat -> AttemptWorld
}.

(** *** State of one call of [extract_hotel_reviews] *)

Record hstate := {
  st_browser : browser;
  st_all_reviews : list ReviewData;         (* self.all_reviews *)
  st_recent : list pystr;                   (* recent_reviews *)
  st_highlights : list pystr;               (* review_highlights *)
  st_main_window : option handle            (* main_window, None: unbound *)
}.

Definition set_browser (b : browser) (s : hstate) : hstate :=
  {| st_browser := b; st_all_reviews := st_all_reviews s;
     st_recent := st_recent s; st_highlights := st_highlights s;
     st_main_window := st_main_window s |}.

Definition set_all_reviews (l : list ReviewData) (s : hstate) : hstate :=
  {| st_browser := st_browser s; st_all_reviews := l;
     st_recent := st_recent s; st_highlights := st_highlights s;
     st_main_window := st_main_window s |}.

Definition set_recent (l : list pystr) (s : hstate) : hstate :=
  {| st_browser := st_browser s; st_all_reviews := st_all_reviews s;
     st_recent := l; st_highlights := st_highlights s;
     st_main_window := st_main_window s |}.

Definition set_highlights (l : list pystr) (s : hstate) : hstate :=
  {| st_browser := st_browser s; st_all_reviews := st_all_reviews s;
     st_recent := st_recent s; st_highlights := l;
     st_main_window := st_main_window s |}.

Definition set_main_window (h : handle) (s : hstate) : hstate :=
  {| st_browser := st_browser s; st_all_reviews := st_all_reviews s;
     st_recent := st_recent s; st_highlights := st_highlights s;
     st_main_window := Some h |}.

Definition M : Type -> Type := stateful hstate.

(** A driver call on the focused window that changes no window. *)
Definition driver_call (fault : bool) : M unit :=
  fun s => if fault || negb (alive (st_browser s))
           then (s, Raise OtherException) else (s, Ok tt).

(** A driver call that moves to the browser state [f] computes. *)
Definition driver_move (fault : bool) (f : browser -> outcome browser) : M unit :=
  fun s => if fault then (s, Raise OtherException)
           else match f (st_browser s) with
                | Ok b => (set_browser b s, Ok tt)
                | Raise e => (s, Raise e)
                end.

(** Reading the local variable [main_window]; a [NameError] while it
    is unbound. *)
Definition read_main_window : M handle :=
  fun s => match st_main_window s with
           | Some h => (s, Ok h)
           | None => (s, Raise OtherException)
           end.

(** [self.driver.switch_to.window(main_window)] *)
Definition switch_to_main (fault : bool) : M unit :=
  h <~ read_main_window ;; driver_move fault (switch_to_window h).

(** *** Excerpts and tags on the listing row (l.169-219) *)

(** [for elem in elements: text = elem.text.strip(); if keep text and
    text not in acc: acc.append(text)]; stops at the first exception,
    which is returned with what was appended before it. *)
Fixpoint take_texts (keep : pystr -> bool) (elems : list (outcome pystr))
    (acc : list pystr) : list pystr * option exn :=
  match elems with
  | [] => (acc, None)
  | Raise e :: _ => (acc, Some e)
  | Ok t :: rest =>
      let text := strip t in
      if keep text && negb (str_in text acc)
      then take_texts keep rest (acc ++ [text])
      else take_texts keep rest acc
  end.

(** The loop over the candidate selectors; [enough] is the test that
    breaks out of it.  The boolean tells that an exception other than
    [NoSuchElementException] left the loop. *)
Fixpoint collect (find : pystr -> outcome (list (outcome pystr)))
    (keep : pystr -> bool) (enough : list pystr -> bool)
    (selectors : list pystr) (acc : list pystr) : list pystr * bool :=
  match selectors with
  | [] => (acc, false)
  | selector :: rest =>
      match find selector with
      | Raise e =>
          if is_no_such_element e then collect find keep enough rest acc
          else (acc, true)
      | Ok elems =>
          match take_texts keep (firstn 5 elems) acc with
          | (acc', Some e) =>
              if is_no_such_element e then collect find keep enough rest acc'
              else (acc', true)
          | (acc', None) =>
              if enough acc' then (acc', false)
              else collect find keep enough rest acc'
          end
      end
  end.

(** [len(review_text) > 20] *)
Definition keep_review (text : pystr) : bool := 20 <? List.length text.

(** [highlight_text and len(highlight_text) < 50] *)
Definition keep_highlight (text : pystr) : bool :=
  match text with [] => false | _ => List.length text <? 50 end.

Definition collect_inline_reviews (R : RowWorld) : M unit :=
  fun s =>
    let '(acc, escaped) :=
      collect (find_elements R) keep_review
        (fun acc => min_reviews <=? List.length acc)
        review_selectors (st_recent s) in
    (set_recent acc s, if escaped then Raise OtherException else Ok tt).

Definition collect_highlights (R : RowWorld) : M unit :=
  fun s =>
    let '(acc, escaped) :=
      collect (find_elements R) keep_highlight
        (fun acc => match acc with [] => false | _ => true end)
        highlight_selectors (st_highlights s) in
    (set_highlights acc s, if escaped then Raise OtherException else Ok tt).

(** *** Navigation to the detail page (l.222-327) *)

(** How one pass of the attempt loop ends: [continue], [break], or the
    [return] of line 273. *)
Inductive flow := Next | Break | Return.

(** The loop over [link_selectors] (l.238-248). *)
Fixpoint find_review_url (find : pystr -> outcome LinkElement)
    (selectors : list pystr) : outcome (option pystr) :=
  match selectors with
  | [] => Ok None
  | selector :: rest =>
      match find selector with
      | Raise e =>
          if is_no_such_element e then find_review_url find rest else Raise e
      | Ok link =>
          match is_displayed link with
          | Raise e =>
              if is_no_such_element e then find_review_url find rest else Raise e
          | Ok false => find_review_url find rest
          | Ok true =>
              match href link with
              | Raise e =>
                  if is_no_such_element e then find_review_url find rest
                  else Raise e
              | Ok url => Ok url
              end
          end
      end
  end.

(** l.255: [main_window = self.driver.current_window_handle] *)
Definition store_main_window (A : AttemptWorld) : M unit :=
  fun s => if handle_fault A then (s, Raise OtherException)
           else match current_window_handle (st_browser s) with
                | Ok h => (set_main_window h s, Ok tt)
                | Raise e => (s, Raise e)
                end.

(** l.258: [execute_script("window.open(arguments[0], '_blank');", url)] *)
Definition open_detail (A : AttemptWorld) : M unit :=
  _ <~ driver_call (open_fault A) ;;
  driver_move false (fun b => Ok (open_tab b)).

(** l.260: [switch_to.window(self.driver.window_handles[-1])] *)
Definition switch_to_detail (A : AttemptWorld) : M unit :=
  driver_move (switch_fault A)
    (fun b => h <- last_handle b ;; switch_to_window h b).

Section WithLower.
Variable unicode_lower : pystr -> pystr.
(** [self.driver.options.args] *)
Variable driver_args : outcome (list pystr).

(** l.263-275.  The result tells whether line 273 returned from the
    function. *)
Definition captcha_check (A : AttemptWorld) : M bool :=
  try_catch
    (_ <~ driver_call false ;;
     source <~ lift (page_source A) ;;
     let page_source := lower unicode_lower source in
     if existsb (contains page_source) captcha_keywords
     then
       args <~ lift driver_args ;;
       if Nat.eqb (count (py "--headless") args) 0
       then ret false
       else
         _ <~ driver_move (abort_close_fault A) close ;;
         _ <~ switch_to_main (abort_switch_fault A) ;;
         ret true
     else ret false)
    (fun _ => ret false).

(** l.289-300: the loop over [reviews_tab_selectors]. *)
Fixpoint click_reviews_tab (A : AttemptWorld) (selectors : list pystr)
  : M unit :=
  match selectors with
  | [] => ret tt
  | tab_selector :: rest =>
      try_catch
        (_ <~ driver_call false ;; lift (click_tab A tab_selector))
        (fun e => if is_absent_or_timeout e
                  then click_reviews_tab A rest else throw e)
  end.

(** l.303-305: [n] scrolls, numbered from [k]. *)
Fixpoint scroll (A : AttemptWorld) (k n : nat) : M unit :=
  match n with
  | O => ret tt
  | S n' => _ <~ driver_call (scroll_fault A k) ;; scroll A (S k) n'
  end.

(** l.308: [_extract_detailed_reviews] catches every exception
    itself; on a closed window its first wait raises and it returns
    the empty list.  Otherwise it appends its records to
    [self.all_reviews] and returns [reviews[:min_reviews]]. *)
Definition extract_detailed_reviews (A : AttemptWorld) : M (list pystr) :=
  fun s =>
    if alive (st_browser s)
    then (set_all_reviews (st_all_reviews s ++ detail_records A) s,
          Ok (firstn min_reviews (detail_texts A)))
    else (s, Ok []).

(** l.309: [recent_reviews.extend([r for r in detailed_reviews
    if r not in recent_reviews])] *)
Definition extend_recent (detailed : list pystr) : M unit :=
  fun s =>
    (set_recent
       (st_recent s
        ++ filter (fun r => negb (str_in r (st_recent s))) detailed) s,
     Ok tt).

(** The body of the inner [try] (l.226-317). *)
Definition attempt_try (A : AttemptWorld) : M flow :=
  url <~ lift (find_review_url (find_link A) link_selectors) ;;
  match url with
  | None | Some [] => ret Next
  | Some review_url =>
      _ <~ store_main_window A ;;
      _ <~ open_detail A ;;
      _ <~ switch_to_detail A ;;
      returned <~ captcha_check A ;;
      if returned then ret Return
      else
        _ <~ (if contains review_url (py "hotel-details")
              then click_reviews_tab A reviews_tab_selectors
              else ret tt) ;;
        _ <~ scroll A 0 5 ;;
        detailed <~ extract_detailed_reviews A ;;
        _ <~ extend_recent detailed ;;
        _ <~ driver_move (close_fault A) close ;;
        _ <~ switch_to_main (switch_back_fault A) ;;
        fun s => (s, Ok (if min_reviews <=? List.length (st_recent s)
                         then Break else Next))
  end.

(** The handler of the inner [try] (l.319-327). *)
Definition attempt_handler (A : AttemptWorld) : M flow :=
  cur <~ (fun s => if handler_handle_fault A
                   then (s, Raise OtherException)
                   else (s, current_window_handle (st_browser s))) ;;
  main <~ read_main_window ;;
  _ <~ (if negb (Nat.eqb cur main)
        then _ <~ driver_move (handler_close_fault A) close ;;
             switch_to_main (handler_switch_fault A)
        else ret tt) ;;
  ret Next.

Definition attempt (A : AttemptWorld) : M flow :=
  try_catch (attempt_try A) (fun _ => attempt_handler A).

(** [for attempt in range(max_attempts)], [n] passes left, the next
    one numbered [k]. *)
Fixpoint attempts (W : nat -> AttemptWorld) (k n : nat) : M flow :=
  match n with
  | O => ret Next
  | S n' =>
      f <~ attempt (W k) ;;
      match f with
      | Next => attempts W (S k) n'
      | Break => ret Break
      | Return => ret Return
      end
  end.

(** The outer [try] (l.168-327). *)
Definition harvest (scrape_reviews : bool) (R : RowWorld) : M flow :=
  _ <~ collect_inline_reviews R ;;
  _ <~ collect_highlights R ;;
  fun s =>
    if scrape_reviews && (List.length (st_recent s) <? min_reviews)
    then attempts (attempt_world R) 0 max_attempts s
    else (s, Ok Next).

(** *** Finalization (l.332-355) *)

(** [f"No review available {i + 1}"] *)
Definition placeholder_text (i : nat) : pystr :=
  placeholder_marker ++ py " " ++ str_of_nat (i + 1).

Definition placeholder_record (hotel_id : pystr) (i : nat) : ReviewData :=
  {| review_id := hotel_id ++ py "_review_" ++ str_of_nat (i + 1);
     reviewer_name := py "Anonymous";
     review_text := placeholder_text i;
     review_rating := [];
     review_date := [];
     review_helpful_count := [];
     review_hotel_id := hotel_id;
     review_sentiment_score := None |}.

(** [range(len(valid_reviews), min_reviews)] *)
Definition backfill_range (valid : list pystr) : list nat :=
  seq (List.length valid) (min_reviews - List.length valid).

Definition set_sentiment (score : Q) (r : ReviewData) : ReviewData :=
  {| review_id := review_id r; reviewer_name := reviewer_name r;
     review_text := review_text r; review_rating := review_rating r;
     review_date := review_date r;
     review_helpful_count := review_helpful_count r;
     review_hotel_id := review_hotel_id r;
     review_sentiment_score := Some score |}.

Definition finalize (hotel_id : pystr) (s : hstate) : hstate :=
  let valid_reviews := valid_reviews_of (st_recent s) in
  let s1 :=
    if List.length valid_reviews <? min_reviews
    then set_all_reviews
           (st_all_reviews s
            ++ List.map (placeholder_record hotel_id)
                 (backfill_range valid_reviews))
           (set_recent
              (st_recent s
               ++ List.map placeholder_text (backfill_range valid_reviews))
              s)
    else s in
  let avg_sentiment := calculate_sentiment_score unicode_lower valid_reviews in
  set_all_reviews
    (List.map (fun review =>
                 if str_eqb (review_hotel_id review) hotel_id
                 then set_sentiment avg_sentiment review else review)
       (st_all_reviews s1))
    s1.

(** [extract_hotel_reviews]: the two returned lists, and the browser
    and the review collection as the call leaves them. *)
Definition extract_hotel_reviews (scrape_reviews : bool) (hotel_id : pystr)
    (R : RowWorld) (b : browser) (all_reviews : list ReviewData)
  : (list pystr * list pystr) * (browser * list ReviewData) :=
  let s0 := {| st_browser := b; st_all_reviews := all_reviews;
               st_recent := []; st_highlights := [];
               st_main_window := None |} in
  match harvest scrape_reviews R s0 with
  | (s, Ok Return) =>
      ((st_recent s, st_highlights s), (st_browser s, st_all_reviews s))
  | (s, _) =>
      let s' := finalize hotel_id s in
      ((firstn min_reviews (st_recent s'), st_highlights s'),
       (st_browser s', st_all_reviews s'))
  end.
End WithLower.

(** *** Assertions on the state of the harvester *)

(** The state in which the outer [try] of [extract_hotel_reviews]
    leaves the call, and the excerpts harvested by then. *)
Definition harvest_state (unicode_lower : pystr -> pystr)
    (driver_args : outcome (list pystr)) (scrape_reviews : bool)
    (R : RowWorld) (b : browser) (all_reviews : list ReviewData) : hstate :=
  fst (harvest unicode_lower driver_args scrape_reviews R
         {| st_browser := b; st_all_reviews := all_reviews; st_recent := [];
            st_highlights := []; st_main_window := None |}).

Definition harvested (unicode_lower : pystr -> pystr)
    (driver_args : outcome (list pystr)) (scrape_reviews : bool)
    (R : RowWorld) (b : browser) (all_reviews : list ReviewData) : list pystr :=
  st_recent (harvest_state unicode_lower driver_args scrape_reviews R b all_reviews).

(** The record of a row gains a backfill placeholder: one of the
    entries the backfill appends is in its excerpt sequence. *)
Definition gains_placeholder (collected reviews : list pystr) : Prop :=
  exists i, In i (backfill_range (valid_reviews_of collected))
            /\ In (placeholder_text i) reviews.

(** The driver is focused on the listing [m], and [main_window], if
    bound, names it. *)
Definition on_listing (m : handle) (s : hstate) : Prop :=
  current (st_browser s) = m /\ is_open m (st_browser s) = true
  /\ (st_main_window s = None \/ st_main_window s = Some m).

Definition on_listing_bound (m : handle) (s : hstate) : Prop :=
  current (st_browser s) = m /\ is_open m (st_browser s) = true
  /\ st_main_window s = Some m.

(** The detail tab is open, last of the windows, not yet focused. *)
Definition tab_opened (m : handle) (s : hstate) : Prop :=
  on_listing_bound m s
  /\ exists h, last_handle (st_browser s) = Ok h /\ h <> m
             /\ is_open h (st_browser s) = true.

(** The driver is focused on an open window that is not the listing. *)
Definition on_detail (m : handle) (s : hstate) : Prop :=
  is_open m (st_browser s) = true /\ current (st_browser s) <> m
  /\ alive (st_browser s) = true /\ st_main_window s = Some m.

(** The detail tab is closed and the focus not yet moved. *)
Definition tab_closed (m : handle) (s : hstate) : Prop :=
  is_open m (st_browser s) = true /\ st_main_window s = Some m.

(** The restoring calls of one attempt do not fail: the switch back
    to the listing (l.272, l.313) and the calls of the handler
    (l.321-323). *)
Definition restores (A : AttemptWorld) : Prop :=
  abort_switch_fault A = false /\ switch_back_fault A = false
  /\ handler_handle_fault A = false /\ handler_close_fault A = false
  /\ handler_switch_fault A = false.

(** An assertion about browser and [main_window] only. *)
Definition frame (P : hstate -> Prop) : Prop :=
  forall s s', st_browser s' = st_browser s ->
             st_main_window s' = st_main_window s -> P s -> P s'.

End Harvester.
Export Harvester.

(* ================================================================== *)
(** ** Feature derivation: temporal features *)
(* ================================================================== *)

Module Temporal.

Local Open Scope Z_scope.

(** *** Calendar ([datetime]) *)

Record date := { year : Z; month : Z; day : Z }.

(** A [datetime]: a date and the microseconds elapsed since its
    midnight. *)
Record datetime := { on : date; micros : Z }.

Definition midnight (d : date) : datetime := {| on := d; micros := 0 |}.

Definition is_leap (y : Z) : bool :=
  (y mod 4 =? 0) && (negb (y mod 100 =? 0) || (y mod 400 =? 0)).

Definition days_in_month (y m : Z) : Z :=
  if m =? 2 then (if is_leap y then 29 else 28)
  else if (m =? 4) || (m =? 6) || (m =? 9) || (m =? 11) then 30
  else 31.

Definition days_before_year (y : Z) : Z :=
  let p := y - 1 in p * 365 + p / 4 - p / 100 + p / 400.

Definition days_before_month (y m : Z) : Z :=
  fold_right Z.add 0
    (List.map (fun k => days_in_month y (Z.of_nat k)) (seq 1 (Z.to_nat (m - 1)))).

(** [date.toordinal()]: 1 for 0001-01-01. *)
Definition toordinal (d : date) : Z :=
  days_before_year (year d) + days_before_month (year d) (month d) + day d.

(** [date.weekday()]: 0 for Monday. *)
Definition weekday (d : date) : Z := (toordinal d + 6) mod 7.

Definition microseconds_per_day : Z := 86400 * 1000000.

(** [(a - b).days]: a [timedelta] is normalized with a day count
    rounded towards minus infinity. *)
Definition days_between (a b : datetime) : Z :=
  ((toordinal (on a) - toordinal (on b)) * microseconds_per_day
   + (micros a - micros b)) / microseconds_per_day.

(** [datetime(y, m, d)]: a [ValueError] outside the calendar. *)
Definition make_date (y m d : Z) : outcome date :=
  if (1 <=? y) && (y <=? 9999) && (1 <=? m) && (m <=? 12)
     && (1 <=? d) && (d <=? days_in_month y m)
  then Ok {| year := y; month := m; day := d |}
  else Raise OtherException.

(** The digits of [n], padded with zeros to [width]. *)
Definition zero_padded (width : nat) (n : Z) : pystr :=
  let digits := str_of_nat (Z.to_nat n) in
  repeat 48%N (width - List.length digits) ++ digits.

(** [%Y] as [strftime] writes it.  The year is formatted by the C
    library of the platform: with four digits on some, without padding
    on others (glibc), which shows below the year 1000.  [pads_year]
    tells which. *)
Definition strftime_Y (pads_year : bool) (y : Z) : pystr :=
  if pads_year then zero_padded 4 y else str_of_nat (Z.to_nat y).

(** [strftime('%Y-%m-%d')] *)
Definition strftime_ymd (pads_year : bool) (d : date) : pystr :=
  strftime_Y pads_year (year d) ++ py "-" ++ zero_padded 2 (month d)
  ++ py "-" ++ zero_padded 2 (day d).

(** [strftime('%A')] *)
Definition strftime_A (d : date) : pystr :=
  nth (Z.to_nat (weekday d))
    (List.map py [ "Monday"; "Tuesday"; "Wednesday"; "Thursday"; "Friday";
                   "Saturday"; "Sunday" ]%string) [].

(** *** [strptime] *)

(** The directives the two formats of the scraper use, and a literal
    character. *)
Inductive directive := DirY | DirM | DirD | DirLit (c : N).

Definition format_mdY : list directive := [DirM; DirD; DirY].   (* '%m%d%Y' *)
Definition format_Ymd : list directive :=                        (* '%Y-%m-%d' *)
  [DirY; DirLit 45%N; DirM; DirLit 45%N; DirD].

Record fields := { fY : Z; fM : Z; fD : Z }.

Definition put (d : directive) (v : Z) (f : fields) : fields :=
  match d with
  | DirY => {| fY := v; fM := fM f; fD := fD f |}
  | DirM => {| fY := fY f; fM := v; fD := fD f |}
  | DirD => {| fY := fY f; fM := fM f; fD := v |}
  | DirLit _ => f
  end.

Definition in_range (lo hi c : N) : bool := (N.leb lo c) && (N.leb c hi).
Definition digit_of (c : N) : Z := Z.of_N (c - 48).

Section WithDigits.
Variable nd_value : N -> option N.

(** The ways the pattern of a directive can match at the head of
    [s], in the order the regular expression tries them: the value
    read and the text left.
    - [%m]: [1[0-2]|0[1-9]|[1-9]]
    - [%d]: [3[01]|[12]\d|0[1-9]|[1-9]| [1-9]]
    - [%Y]: [\d\d\d\d] *)
Definition candidates (d : directive) (s : pystr) : list (Z * pystr) :=
  match d with
  | DirLit c =>
      match s with
      | x :: r => if N.eqb x c then [(0, r)] else []
      | [] => []
      end
  | DirM =>
      match s with
      | a :: b :: r =>
          (if N.eqb a 49 && in_range 48 50 b then [(10 + digit_of b, r)] else [])
          ++ (if N.eqb a 48 && in_range 49 57 b then [(digit_of b, r)] else [])
          ++ (if in_range 49 57 a then [(digit_of a, b :: r)] else [])
      | [a] => if in_range 49 57 a then [(digit_of a, [])] else []
      | [] => []
      end
  | DirD =>
      match s with
      | a :: b :: r =>
          (if N.eqb a 51 && in_range 48 49 b then [(30 + digit_of b, r)] else [])
          ++ (if in_range 49 50 a
              then match digit_value nd_value b with
                   | Some v => [(10 * digit_of a + Z.of_N v, r)]
                   | None => []
                   end
              else [])
          ++ (if N.eqb a 48 && in_range 49 57 b then [(digit_of b, r)] else [])
          ++ (if in_range 49 57 a then [(digit_of a, b :: r)] else [])
          ++ (if N.eqb a 32 && in_range 49 57 b then [(digit_of b, r)] else [])
      | [a] => if in_range 49 57 a then [(digit_of a, [])] else []
      | [] => []
      end
  | DirY =>
      match s with
      | a :: b :: c :: e :: r =>
          match digits_value nd_value 0 [a; b; c; e] with
          | Some v => [(Z.of_N v, r)]
          | None => []
          end
      | _ => []
      end
  end.

(** The first way, in backtracking order, to match the whole format
    at the head of [s]. *)
Fixpoint match_format (fmt : list directive) (s : pystr)
  : option (fields * pystr) :=
  match fmt with
  | [] => Some ({| fY := 1900; fM := 1; fD := 1 |}, s)
  | d :: fmt' =>
      (fix first_of (cs : list (Z * pystr)) : option (fields * pystr) :=
         match cs with
         | [] => None
         | (v, rest) :: cs' =>
             match match_format fmt' rest with
             | Some (f, remaining) => Some (put d v f, remaining)
             | None => first_of cs'
             end
         end) (candidates d s)
  end.

(** [datetime.strptime(s, fmt)]: the match must leave no text, and
    the fields must name a day of the calendar. *)
Definition strptime (fmt : list directive) (s : pystr) : outcome date :=
  match match_format fmt s with
  | Some (f, []) => make_date (fY f) (fM f) (fD f)
  | _ => Raise OtherException
  end.
End WithDigits.

(** *** The query string *)

Definition before (c : N) (s : pystr) : pystr :=
  (fix go (s : pystr) : pystr :=
     match s with
     | [] => []
     | x :: r => if N.eqb x c then [] else x :: go r
     end) s.

Definition after (c : N) (s : pystr) : option pystr :=
  (fix go (s : pystr) : option pystr :=
     match s with
     | [] => None
     | x :: r => if N.eqb x c then Some r else go r
     end) s.

(** *** [urlparse(url).query]

    [urlsplit] as CPython 3.11 has it. *)

(** Leading C0 control characters and spaces are stripped, then every
    TAB, CR and LF is deleted. *)
Fixpoint lstrip_c0 (s : pystr) : pystr :=
  match s with
  | c :: r => if N.leb c 32 then lstrip_c0 r else s
  | [] => []
  end.

Definition unsafe_byte (c : N) : bool :=
  N.eqb c 9 || N.eqb c 10 || N.eqb c 13.

Definition url_cleaned (url : pystr) : pystr :=
  filter (fun c => negb (unsafe_byte c)) (lstrip_c0 url).

Definition ascii_letter (c : N) : bool :=
  in_range 65 90 c || in_range 97 122 c.

(** [c in scheme_chars]: letters, digits and [+-.] *)
Definition scheme_char (c : N) : bool :=
  ascii_letter c || in_range 48 57 c
  || N.eqb c 43 || N.eqb c 45 || N.eqb c 46.

(** The text after the scheme and its colon, when the URL starts with
    a letter and holds only scheme characters before its first
    colon. *)
Definition after_scheme (url : pystr) : pystr :=
  match url with
  | c :: _ =>
      if ascii_letter c && forallb scheme_char (before 58 url)
      then match after 58 url with
           | Some rest => rest
           | None => url
           end
      else url
  | [] => []
  end.

(** [_splitnetloc]: the network location ends before the first [/],
    [?] or [#]. *)
Fixpoint span_netloc (s : pystr) : pystr * pystr :=
  match s with
  | [] => ([], [])
  | c :: r =>
      if N.eqb c 47 || N.eqb c 63 || N.eqb c 35 then ([], s)
      else let '(netloc, rest) := span_netloc r in (c :: netloc, rest)
  end.

Section WithNetloc.
(** What the library makes of a network location that holds a
    bracketed host or a code point outside ASCII: [true] when the host
    in brackets is no IPv6 or IPvFuture address, or when the text
    normalizes (NFKC) to one holding a separator.  The address syntax
    and the normalization tables are not part of the repository. *)
Variable netloc_rejected : pystr -> bool.

(** [urlsplit] raises [ValueError]: a bracket without its partner, or
    a network location the library rejects. *)
Definition netloc_raises (netloc : pystr) : bool :=
  let opening := existsb (N.eqb 91) netloc in
  let closing := existsb (N.eqb 93) netloc in
  xorb opening closing
  || ((opening && closing) || negb (forallb is_ascii netloc))
     && netloc_rejected netloc.

(** [urlparse(url).query]: the text between the first [?] and the
    fragment of what follows the network location. *)
Definition url_query (url : pystr) : outcome pystr :=
  let url := after_scheme (url_cleaned url) in
  let '(netloc, rest) :=
    if startswith url (py "//") then span_netloc (skipn 2 url)
    else ([], url) in
  if netloc_raises netloc then Raise OtherException
  else Ok (match after 63%N (before 35%N rest) with
           | Some q => q
           | None => []
           end).
End WithNetloc.

(** [s.split(c)] *)
Fixpoint split_on (c : N) (cur : pystr) (s : pystr) : list pystr :=
  match s with
  | [] => [rev cur]
  | x :: r => if N.eqb x c then rev cur :: split_on c [] r
              else split_on c (x :: cur) r
  end.

Section WithUnquote.
(** Percent-decoding of a field that holds a [%]; the decoding of
    escaped bytes into text is the library's and is a parameter. *)
Variable percent_decode : pystr -> pystr.

(** [unquote(s.replace('+', ' '))] *)
Definition unquote_plus (s : pystr) : pystr :=
  let s' := List.map (fun c => if N.eqb c 43 then 32%N else c) s in
  if existsb (N.eqb 37) s' then percent_decode s' else s'.

(** [parse_qs(query)] as the list of its name/value pairs in order:
    fields are cut at [&], a field without [=] or with an empty
    value is dropped. *)
Definition parse_qsl (query : pystr) : list (pystr * pystr) :=
  flat_map
    (fun field =>
       match after 61%N field with
       | Some ((_ :: _) as value) =>
           [(unquote_plus (before 61%N field), unquote_plus value)]
       | _ => []
       end)
    (split_on 38%N [] query).

(** [params.get(name, [''])[0]] *)
Definition first_value (name : pystr) (params : list (pystr * pystr)) : pystr :=
  match filter (fun p => str_eqb (fst p) name) params with
  | (_, v) :: _ => v
  | [] => []
  end.
End WithUnquote.

(** *** [extract_temporal_features] *)

Definition season_of (month : Z) : pystr :=
  if (month =? 12) || (month =? 1) || (month =? 2) then py "Winter"
  else if (month =? 3) || (month =? 4) || (month =? 5) then py "Spring"
  else if (month =? 6) || (month =? 7) || (month =? 8) then py "Summer"
  else py "Autumn".

(** The tuple returned. *)
Record temporal := {
  t_search_date : pystr;
  t_checkin_date : pystr;
  t_checkout_date : pystr;
  t_days_ahead : Z;
  t_day_of_week : pystr;
  t_season : pystr
}.

Section WithTables.
Variable nd_value : N -> option N.
Variable percent_decode : pystr -> pystr.
Variable netloc_rejected : pystr -> bool.
Variable pads_year : bool.

(** The body of the [try]; [now] is what [datetime.now()] reads. *)
Definition temporal_try (now : datetime) (url : pystr) : outcome temporal :=
  query <- url_query netloc_rejected url ;;
  let params := parse_qsl percent_decode query in
  let checkin := first_value (py "checkin") params in
  let checkout := first_value (py "checkout") params in
  dates <- match checkin, checkout with
           | _ :: _, _ :: _ =>
               ci <- strptime nd_value format_mdY checkin ;;
               co <- strptime nd_value format_mdY checkout ;;
               Ok (strftime_ymd pads_year ci, strftime_ymd pads_year co)
           | _, _ => Ok ([], [])
           end ;;
  let '(checkin_date, checkout_date) := dates in
  let current_date := now in
  let search_date := strftime_ymd pads_year (on current_date) in
  match checkin_date with
  | _ :: _ =>
      checkin_dt <- strptime nd_value format_Ymd checkin_date ;;
      Ok {| t_search_date := search_date;
            t_checkin_date := checkin_date;
            t_checkout_date := checkout_date;
            t_days_ahead := days_between (midnight checkin_dt) current_date;
            t_day_of_week := strftime_A checkin_dt;
            t_season := season_of (month checkin_dt) |}
  | [] =>
      Ok {| t_search_date := search_date;
            t_checkin_date := checkin_date;
            t_checkout_date := checkout_date;
            t_days_ahead := 0;
            t_day_of_week := [];
            t_season := [] |}
  end.

(** [now] and [later] are the readings of the clock in the body and
    in the handler. *)
Definition extract_temporal_features (now later : datetime) (url : pystr)
  : temporal :=
  match temporal_try now url with
  | Ok t => t
  | Raise _ =>
      {| t_search_date := strftime_ymd pads_year (on later);
         t_checkin_date := []; t_checkout_date := [];
         t_days_ahead := 0; t_day_of_week := []; t_season := [] |}
  end.
End WithTables.

End Temporal.
Export Temporal.

(* ================================================================== *)
(** ** Listing walker and pipeline driver *)
(* ================================================================== *)

Module Driver.

(** The literal of line 618, code point by code point: U+00E2, U+201A,
    U+00B9. *)
Definition currency_prefix : pystr := [226; 8218; 185]%N.

(** The rupee sign, U+20B9. *)
Definition rupee_sign : N := 8377%N.

(** l.618-622: the price text kept and the currency code. *)
Definition price_and_currency (price : pystr) : pystr * pystr :=
  if startswith price currency_prefix
  then (skipn 1 price, py "INR")
  else (price, []).

(** [_safe_extract]: the stripped text, the empty string when the
    element is absent. *)
Definition safe_extract (found : outcome pystr) : outcome pystr :=
  match found with
  | Ok text => Ok (strip text)
  | Raise e => if is_no_such_element e then Ok [] else Raise e
  end.

(** l.609-615 *)
Fixpoint first_found (find : nat -> outcome pystr) (k n : nat) : outcome pystr :=
  match n with
  | O => Ok []
  | S n' =>
      match find k with
      | Ok text => Ok text
      | Raise e => if is_no_such_element e then first_found find (S k) n'
                   else Raise e
      end
  end.

(** l.623-630 *)
Definition tax_of (found : outcome pystr) : outcome pystr :=
  match found with
  | Ok text => Ok (nth 2 (split_on 32%N [] text) [])
  | Raise e => if is_no_such_element e then Ok [] else Raise e
  end.

(** l.631-636 *)
Definition star_rating_of (found : outcome (option pystr)) : outcome pystr :=
  match found with
  | Ok (Some content) => Ok content
  | Ok None => Ok []
  | Raise e => if is_no_such_element e then Ok [] else Raise e
  end.

(** One position of the listing page. *)
Record ListingRow := {
  locate : outcome unit;                          (* l.594 *)
  text_by_id : pystr -> outcome pystr;            (* find_element(By.ID, id).text *)
  rating_desc_text : nat -> outcome pystr;        (* l.611-612, per xpath *)
  location_info : outcome (pystr * pystr * pystr);(* l.616 *)
  tax_text : outcome pystr;                       (* l.626 *)
  star_content : outcome (option pystr);          (* l.633-634 *)
  epoch : N;                                      (* int(time.time()) *)
  timestamp : pystr;                              (* datetime.now().isoformat() *)
  reviews_world : RowWorld;                       (* l.637 *)
  row_scroll_fault : bool                         (* l.666 *)
}.

Record PageWorld := {
  load : outcome unit;                            (* l.586 *)
  now : datetime;
  later : datetime;
  rows : nat -> ListingRow
}.

Record dstate := {
  d_browser : browser;
  d_all_reviews : list ReviewData;
  hotels_data : list HotelData
}.

(** [break] or the end of the pass. *)
Inductive row_flow := RowNext | RowBreak.

Section WithTables.
Variable unicode_lower : pystr -> pystr.
Variable nd_value : N -> option N.
Variable percent_decode : pystr -> pystr.
Variable netloc_rejected : pystr -> bool.
Variable pads_year : bool.
Variable driver_args : outcome (list pystr).
Variable scrape_reviews : bool.

(** l.600-663: the record of row [i] and the state the harvester
    leaves. *)
Definition assemble (i : nat) (row : ListingRow) (T : temporal) (s : dstate)
  : dstate * outcome HotelData :=
  match
    (name <- safe_extract (text_by_id row (py "hlistpg_hotel_name")) ;;
     rating <- safe_extract (text_by_id row (py "hlistpg_hotel_user_rating")) ;;
     reviews <- safe_extract (text_by_id row (py "hlistpg_hotel_reviews_count")) ;;
     rating_desc <- first_found (rating_desc_text row) 0 2 ;;
     loc <- location_info row ;;
     shown <- safe_extract (text_by_id row (py "hlistpg_hotel_shown_price")) ;;
     tax <- tax_of (tax_text row) ;;
     star <- star_rating_of (star_content row) ;;
     Ok (name, rating, reviews, rating_desc, loc, shown, tax, star))
  with
  | Raise e => (s, Raise e)
  | Ok (name, rating, reviews, rating_desc, loc, shown, tax_v, star) =>
      let '(location_v, landmark_v, distance_v) := loc in
      let '(price_v, currency_v) := price_and_currency shown in
      let id := py "hotel_" ++ str_of_nat i ++ py "_" ++ str_of_N (epoch row) in
      let '((recent, highlights), (b, all)) :=
        extract_hotel_reviews unicode_lower driver_args scrape_reviews id
          (reviews_world row) (d_browser s) (d_all_reviews s) in
      ({| d_browser := b; d_all_reviews := all; hotels_data := hotels_data s |},
       Ok {| hotel_name := name; hotel_id := id;
             scrape_timestamp := timestamp row;
             location := location_v; landmark := landmark_v;
             distance_to_landmark := distance_v;
             user_rating := rating; rating_description := rating_desc;
             review_count := reviews; star_rating := star;
             recent_reviews := recent; review_highlights := highlights;
             price := price_v; tax := tax_v; currency := currency_v;
             availability_status := py "Available";
             search_date := t_search_date T;
             checkin_date := t_checkin_date T;
             checkout_date := t_checkout_date T;
             days_ahead := t_days_ahead T;
             day_of_week := t_day_of_week T;
             season := t_season T;
             latitude := None; longitude := None;
             price_numeric := None; review_count_numeric := None;
             rating_numeric := None; star_rating_numeric := None;
             avg_sentiment_score := None |})
  end.

(** The body of the [try] of one pass (l.591-667). *)
Definition row_try (i : nat) (row : ListingRow) (T : temporal)
  : stateful dstate row_flow :=
  fun s =>
    match (if alive (d_browser s) then locate row else Raise OtherException) with
    | Raise TimeoutException => (s, Ok RowBreak)
    | Raise e => (s, Raise e)
    | Ok _ =>
        match assemble i row T s with
        | (s1, Raise e) => (s1, Raise e)
        | (s1, Ok hotel_data) =>
            let s2 :=
              {| d_browser := d_browser s1;
                 d_all_reviews := d_all_reviews s1;
                 hotels_data :=
                   hotels_data s1
                   ++ [extract_numeric_features unicode_lower nd_value hotel_data] |} in
            if row_scroll_fault row || negb (alive (d_browser s2))
            then (s2, Raise OtherException)
            else (s2, Ok RowNext)
        end
    end.

(** One pass: the [try] and its [except Exception: continue]. *)
Definition row_pass (i : nat) (row : ListingRow) (T : temporal)
  : stateful dstate row_flow :=
  try_catch (row_try i row T) (fun _ => ret RowNext).

(** [for i in range(max_hotels)], [n] positions left from [i]. *)
Fixpoint walk (P : PageWorld) (T : temporal) (i n : nat)
  : stateful dstate unit :=
  match n with
  | O => ret tt
  | S n' =>
      f <~ row_pass i (rows P i) T ;;
      match f with
      | RowNext => walk P T (S i) n'
      | RowBreak => ret tt
      end
  end.

(** The body of the outer [try] (l.585-670). *)
Definition scrape_try (P : PageWorld) (mmt_url : pystr) (max_hotels : nat)
  : stateful dstate unit :=
  _ <~ (fun s => (s, if alive (d_browser s) then load P
                     else Raise OtherException)) ;;
  walk P (extract_temporal_features nd_value percent_decode netloc_rejected
            pads_year
            (now P) (later P) mmt_url) 0 max_hotels.

(** [scrape_hotel_data]: what the call returns, or the exception it
    lets through, and the state it leaves. *)
Definition scrape_hotel_data (P : PageWorld) (mmt_url : pystr)
    (max_hotels : nat) (b : browser) (all_reviews : list ReviewData)
  : dstate * outcome (list HotelData) :=
  let s0 := {| d_browser := b; d_all_reviews := all_reviews;
               hotels_data := [] |} in
  (_ <~ try_catch (scrape_try P mmt_url max_hotels) (fun _ => ret tt) ;;
   fun s => (s, Ok (hotels_data s))) s0.
End WithTables.

End Driver.
Export Driver.

(* ================================================================== *)
(** ** Location text of a listing row *)
(* ================================================================== *)

Module Location.

Definition bar : N := 124%N.
Definition from_word : pystr := py "from".

(** [s.split(sep)] for a separator of one character or more: the
    pieces between the occurrences of [sep], found left to right
    without overlap.  [skip] counts the characters of an occurrence
    just found that are still to be passed, [cur] is the piece being
    read, most recent character first. *)
Fixpoint split_by (sep : pystr) (skip : nat) (cur : pystr) (s : pystr)
  : list pystr :=
  match s with
  | [] => [rev cur]
  | c :: r =>
      match skip with
      | S k => split_by sep k cur r
      | O =>
          if startswith s sep
          then rev cur :: split_by sep (List.length sep - 1) [] r
          else split_by sep 0 (c :: cur) r
      end
  end.

Definition split_str (sep s : pystr) : list pystr := split_by sep 0 [] s.

(** l.688-702 of [_extract_location_info], on the stripped text: the
    location, the landmark and the distance. *)
Definition location_of_text (location_text : pystr) : pystr * pystr * pystr :=
  if contains location_text [bar]
  then
    let parts := split_on bar [] location_text in
    let location := strip (nth 0 parts []) in
    match nth_error parts 1 with
    | Some second =>
        if contains second from_word
        then
          let landmark_parts := split_str from_word second in
          (location,
           match nth_error landmark_parts 1 with
           | Some l => strip l
           | None => []
           end,
           strip (nth 0 landmark_parts []))
        else (location, strip second, [])
    | None => (location, [], [])
    end
  else (location_text, [], []).

(** [_extract_location_info]: [found] is the text of the element of
    class [pc__html], or the exception its lookup raises. *)
Definition extract_location_info (found : outcome pystr)
  : outcome (pystr * pystr * pystr) :=
  match found with
  | Ok text => Ok (location_of_text (strip text))
  | Raise e => if is_no_such_element e then Ok ([], [], []) else Raise e
  end.

End Location.
Export Location.

(* ================================================================== *)
(** ** Excerpts of the detail page *)
(* ================================================================== *)

Module DetailPage.

(** The selectors of l.365-377: those of the listing row and one more. *)
Definition detail_review_selectors : list pystr :=
  review_selectors ++ [py ".review-content"].

Definition rating_selectors : list pystr := List.map py
  [ ".rating"; ".star-rating"; "[data-cy='rating']"; ".review__rating";
    "[data-testid='rating']"; ".rating__value"; ".review-score";
    ".guest-rating" ]%string.

Definition date_selectors : list pystr := List.map py
  [ ".date"; ".review-date"; "[data-cy='review-date']"; ".review__date";
    "[data-testid='review-date']"; ".posted__date"; ".review-posted-date" ]%string.

Definition name_selectors : list pystr := List.map py
  [ ".reviewer-name"; ".user-name"; "[data-cy='reviewer-name']";
    ".review__author"; "[data-testid='reviewer-name']"; ".author__name";
    ".guest-name" ]%string.

Definition helpful_selectors : list pystr := List.map py
  [ ".helpful-count"; ".vote-count"; "[data-cy='helpful-count']";
    ".review__helpful"; "[data-testid='helpful-count']"; ".helpful__count";
    ".helpful-votes" ]%string.

Definition show_more_selectors : list pystr := List.map py
  [ ".show-more-reviews"; "[data-cy='showMoreReviews']"; ".load-more";
    ".btn--load-more"; "[data-testid='load-more-reviews']"; ".more-reviews";
    ".showMoreReviews"; ".loadMoreReviews" ]%string.

(** A review element of the detail page: its text, the lookup of its
    parent, and for a selector the text of the element found under the
    parent. *)
Record DetailElement := {
  el_text : outcome pystr;                  (* elem.text *)
  el_parent : outcome unit;                 (* elem.find_element(By.XPATH, "./..") *)
  el_meta : pystr -> outcome pystr          (* parent.find_element(..., sel).text *)
}.

(** The detail page.  The elements found depend on how many rounds of
    "Show More" were run: 0 for the first pass. *)
Record DetailPage := {
  body_wait : outcome unit;                                     (* l.362 *)
  page_elements : nat -> pystr -> outcome (list DetailElement); (* l.381, l.501 *)
  show_more : nat -> pystr -> outcome unit                      (* l.489-492 *)
}.

(** The list [reviews] and [self.all_reviews]. *)
Record pstate := {
  dp_reviews : list pystr;
  dp_all_reviews : list ReviewData
}.

(** The loops over the selectors of one piece of metadata
    (l.408-414 and the three after it): the stripped text of the first
    element found, [default] when none is. *)
Fixpoint first_text (find : pystr -> outcome pystr) (selectors : list pystr)
    (default : pystr) : outcome pystr :=
  match selectors with
  | [] => Ok default
  | selector :: rest =>
      match find selector with
      | Ok text => Ok (strip text)
      | Raise e =>
          if is_no_such_element e then first_text find rest default
          else Raise e
      end
  end.

(** The record of l.387-395 and l.507-515 for the [n]-th excerpt. *)
Definition detail_record (hotel_id : pystr) (n : nat) (text : pystr)
  : ReviewData :=
  {| review_id := hotel_id ++ py "_review_" ++ str_of_nat n;
     reviewer_name := py "Anonymous";
     review_text := text;
     review_rating := [];
     review_date := [];
     review_helpful_count := [];
     review_hotel_id := hotel_id;
     review_sentiment_score := None |}.

(** l.396-464: rating, date, reviewer and helpfulness looked up under
    the parent of the element. *)
Definition with_metadata (elem : DetailElement) (r : ReviewData)
  : outcome ReviewData :=
  match el_parent elem with
  | Raise e => if is_no_such_element e then Ok r else Raise e
  | Ok _ =>
      rating <- first_text (el_meta elem) rating_selectors (review_rating r) ;;
      date <- first_text (el_meta elem) date_selectors (review_date r) ;;
      name <- first_text (el_meta elem) name_selectors (reviewer_name r) ;;
      helpful <- first_text (el_meta elem) helpful_selectors
                   (review_helpful_count r) ;;
      Ok {| review_id := review_id r;
            reviewer_name := name;
            review_text := review_text r;
            review_rating := rating;
            review_date := date;
            review_helpful_count := helpful;
            review_hotel_id := review_hotel_id r;
            review_sentiment_score := review_sentiment_score r |}
  end.

(** The body of the loop over the elements (l.384-465, l.504-516);
    the first pass looks up the metadata, the later ones do not. *)
Definition collect_element (metadata : bool) (hotel_id : pystr)
    (elem : DetailElement) : stateful pstate unit :=
  fun s =>
    match el_text elem with
    | Raise e => (s, Raise e)
    | Ok text =>
        let review_text := strip text in
        if keep_review review_text && negb (str_in review_text (dp_reviews s))
        then
          let reviews := dp_reviews s ++ [review_text] in
          let review_data :=
            detail_record hotel_id (List.length reviews) review_text in
          match (if metadata then with_metadata elem review_data
                 else Ok review_data) with
          | Ok r =>
              ({| dp_reviews := reviews;
                  dp_all_reviews := dp_all_reviews s ++ [r] |}, Ok tt)
          | Raise e =>
              ({| dp_reviews := reviews;
                  dp_all_reviews := dp_all_reviews s |}, Raise e)
          end
        else (s, Ok tt)
    end.

Fixpoint collect_elements (metadata : bool) (hotel_id : pystr)
    (elems : list DetailElement) : stateful pstate unit :=
  match elems with
  | [] => ret tt
  | elem :: rest =>
      _ <~ collect_element metadata hotel_id elem ;;
      collect_elements metadata hotel_id rest
  end.

(** The loop over the review selectors (l.379-470, l.499-520).  [first]
    tells the first pass, which reads [review_elements[:10]]; a later
    pass reads [review_elements[len(reviews):10]]. *)
Fixpoint collect_selectors (first : bool) (hotel_id : pystr)
    (find : pystr -> outcome (list DetailElement)) (selectors : list pystr)
  : stateful pstate unit :=
  match selectors with
  | [] => ret tt
  | selector :: rest =>
      fun s =>
        match
          (review_elements <~ lift (find selector) ;;
           fun s' =>
             collect_elements first hotel_id
               (if first then firstn (min_reviews * 2) review_elements
                else skipn (List.length (dp_reviews s'))
                       (firstn (min_reviews * 2) review_elements)) s') s
        with
        | (s', Ok _) =>
            if min_reviews <=? List.length (dp_reviews s') then (s', Ok tt)
            else collect_selectors first hotel_id find rest s'
        | (s', Raise e) =>
            if is_no_such_element e
            then collect_selectors first hotel_id find rest s'
            else (s', Raise e)
        end
  end.

(** The loop over [show_more_selectors] (l.487-497). *)
Fixpoint click_show_more (click : pystr -> outcome unit)
    (selectors : list pystr) : outcome unit :=
  match selectors with
  | [] => Ok tt
  | selector :: rest =>
      match click selector with
      | Ok _ => Ok tt
      | Raise e =>
          if is_absent_or_timeout e then click_show_more click rest
          else Raise e
      end
  end.

(** [for attempt in range(5)] (l.473-523), [n] rounds left, the next
    one numbered [k]. *)
Fixpoint show_more_rounds (hotel_id : pystr) (P : DetailPage) (k n : nat)
  : stateful pstate unit :=
  match n with
  | O => ret tt
  | S n' =>
      fun s =>
        if min_reviews <=? List.length (dp_reviews s) then (s, Ok tt)
        else
          match
            (_ <~ lift (click_show_more (show_more P k) show_more_selectors) ;;
             collect_selectors false hotel_id (page_elements P (S k))
               detail_review_selectors) s
          with
          | (s', Ok _) => show_more_rounds hotel_id P (S k) n' s'
          | (s', Raise e) =>
              if is_absent_or_timeout e then (s', Ok tt) else (s', Raise e)
          end
  end.

(** The body of the [try] of [_extract_detailed_reviews] (l.362-523). *)
Definition detailed_try (hotel_id : pystr) (P : DetailPage)
  : stateful pstate unit :=
  _ <~ lift (body_wait P) ;;
  _ <~ collect_selectors true hotel_id (page_elements P 0)
         detail_review_selectors ;;
  show_more_rounds hotel_id P 0 5.

(** The state in which the call ends, from the collection it finds. *)
Definition detailed_state (hotel_id : pystr) (P : DetailPage)
    (all_reviews : list ReviewData) : pstate :=
  fst (detailed_try hotel_id P
         {| dp_reviews := []; dp_all_reviews := all_reviews |}).

(** [_extract_detailed_reviews]: the list returned and
    [self.all_reviews] as the call leaves it. *)
Definition _extract_detailed_reviews (hotel_id : pystr) (P : DetailPage)
    (all_reviews : list ReviewData) : list pystr * list ReviewData :=
  let s := detailed_state hotel_id P all_reviews in
  (firstn min_reviews (dp_reviews s), dp_all_reviews s).

End DetailPage.
Export DetailPage.

(* ================================================================== *)
(** ** Assertions kept by the loops *)
(* ================================================================== *)

Module Invariants.

(** [c] keeps [I]: from a state satisfying [I] it ends, whether it
    returns or raises, in a state satisfying [I]. *)
Definition keeps {S A : Type} (I : S -> Prop) (c : stateful S A) : Prop :=
  forall s, I s -> I (fst (c s)).

(** The record [r] of hotel [hotel_id] is numbered by the position of
    its text in [reviews], counted from 1. *)
Definition numbered (hotel_id : pystr) (reviews : list pystr) (r : ReviewData)
  : Prop :=
  review_hotel_id r = hotel_id
  /\ exists n, review_id r = hotel_id ++ py "_review_" ++ str_of_nat (S n)
               /\ nth_error reviews n = Some (review_text r).

(** What the loops of [_extract_detailed_reviews] keep true of the
    excerpts and of the records appended to an empty collection. *)
Definition collected_ok (hotel_id : pystr) (s : pstate) : Prop :=
  NoDup (dp_reviews s)
  /\ Forall (fun t => (20 < List.length t)%nat) (dp_reviews s)
  /\ NoDup (List.map review_text (dp_all_reviews s))
  /\ Forall (numbered hotel_id (dp_reviews s)) (dp_all_reviews s).

(** The state [s] with [all_reviews] put before its records. *)
Definition shift (all_reviews : list ReviewData) (s : pstate) : pstate :=
  {| dp_reviews := dp_reviews s;
     dp_all_reviews := all_reviews ++ dp_all_reviews s |}.

(** [c] treats the records already collected as a frame: it runs the
    same with them and without, and leaves them in place. *)
Definition framed {A : Type} (c : stateful pstate A) : Prop :=
  forall all_reviews s,
    c (shift all_reviews s) = (shift all_reviews (fst (c s)), snd (c s)).

(** The review collection of the harvester holds [all_reviews] as a
    prefix. *)
Definition grown (all_reviews : list ReviewData) (s : hstate) : Prop :=
  exists added, st_all_reviews s = all_reviews ++ added.

(** An assertion on the state of the harvester that moving between
    windows, appending records and appending excerpts cannot break. *)
Definition stable (I : hstate -> Prop) : Prop :=
  (forall s b, I s -> I (set_browser b s))
  /\ (forall s h, I s -> I (set_main_window h s))
  /\ (forall s l, I s -> I (set_all_reviews (st_all_reviews s ++ l) s))
  /\ (forall s l, I s -> I (set_recent (st_recent s ++ l) s)).

(** The tags gathered so far are pairwise distinct, not empty and
    shorter than fifty characters. *)
Definition tags_ok (s : hstate) : Prop :=
  NoDup (st_highlights s)
  /\ Forall (fun t => keep_highlight t = true) (st_highlights s).

(** The record [r'] is [r], or [r] of hotel [hotel_id] with another
    sentiment score. *)
Definition kept_or_stamped (hotel_id : pystr) (r r' : ReviewData) : Prop :=
  r' = r
  \/ (review_hotel_id r = hotel_id /\ exists q, r' = set_sentiment q r).

(** The browser of the harvester is exactly [b], focused on the
    listing, and [main_window], if bound, names the focused window. *)
Definition listing_at (b : browser) (s : hstate) : Prop :=
  st_browser s = b
  /\ (st_main_window s = None \/ st_main_window s = Some (current b)).

Definition listing_bound_at (b : browser) (s : hstate) : Prop :=
  st_browser s = b /\ st_main_window s = Some (current b).

(** The detail tab was opened from [b] and is not focused yet. *)
Definition opened_at (b : browser) (s : hstate) : Prop :=
  st_browser s = open_tab b /\ st_main_window s = Some (current b).

(** The detail tab opened from [b] is focused. *)
Definition detail_at (b : browser) (s : hstate) : Prop :=
  st_browser s = {| handles := handles b ++ [fresh_handle b];
                    current := fresh_handle b |}
  /\ st_main_window s = Some (current b).

(** The detail tab is closed again and the focus not yet moved. *)
Definition closed_at (b : browser) (s : hstate) : Prop :=
  st_browser s = {| handles := handles b; current := fresh_handle b |}
  /\ st_main_window s = Some (current b).

(** [f"hotel_{i}_{int(time.time())}"] (l.601) *)
Definition position_id (i : nat) (e : N) : pystr :=
  py "hotel_" ++ str_of_nat i ++ py "_" ++ str_of_N e.

(** The records hold pairwise distinct ids, each made at a position
    below [i]. *)
Definition ids_below (i : nat) (l : list HotelData) : Prop :=
  NoDup (List.map hotel_id l)
  /\ Forall (fun h => exists j e, (j < i)%nat /\ hotel_id h = position_id j e) l.

(** A record as the walker appends it: five excerpts; a sentiment
    score within [-1, 1], or no review count, rating, star count and
    sentiment at all when the numeric pass stopped at a review count
    [int] does not convert; derived fields that the numeric pass would
    compute again; and the temporal fields of the run. *)
Definition finished_record (unicode_lower : pystr -> pystr)
    (nd_value : N -> option N) (T : temporal) (h : HotelData) : Prop :=
  List.length (recent_reviews h) = min_reviews
  /\ (if count_within_limit nd_value (review_count h)
      then exists q, avg_sentiment_score h = Some q /\ (-1 <= q /\ q <= 1)%Q
      else review_count_numeric h = None /\ rating_numeric h = None
           /\ star_rating_numeric h = None /\ avg_sentiment_score h = None)
  /\ extract_numeric_features unicode_lower nd_value h = h
  /\ availability_status h = py "Available"
  /\ (currency h = py "INR" \/ currency h = [])
  /\ search_date h = t_search_date T
  /\ checkin_date h = t_checkin_date T
  /\ checkout_date h = t_checkout_date T
  /\ days_ahead h = t_days_ahead T
  /\ day_of_week h = t_day_of_week T
  /\ season h = t_season T.

End Invariants.
Export Invariants.

(* ================================================================== *)
(** * Example rows and pages *)
(* ================================================================== *)

(** No case table, no digit outside ASCII: the tables at which the
    examples are evaluated. *)
Definition ascii_only_lower : pystr -> pystr := fun s => s.

Definition ascii_only_digits : N -> option N := fun _ => None.

(** No network location is rejected: the verdict the examples give the
    library, whose hosts are ASCII without brackets. *)
Definition every_host_accepted : pystr -> bool := fun _ => false.

(** The C library writes years without padding (glibc). *)
Definition unpadded_years : bool := false.

(** A link to the review page, displayed. *)
Definition reviews_link : LinkElement :=
  {| is_displayed := Ok true;
     href := Ok (Some (py "https://www.makemytrip.com/hotels/reviews?id=42")) |}.

(** An attempt that finds the link and opens a detail page with the
    given source, on which the given excerpts are collected; only the
    switch back of line 313 may fail. *)
Definition detail_attempt (source : pystr) (texts : list pystr)
    (back_fault : bool) : AttemptWorld :=
  {| find_link := fun _ => Ok reviews_link;
     handle_fault := false; open_fault := false; switch_fault := false;
     page_source := Ok source;
     abort_close_fault := false; abort_switch_fault := false;
     click_tab := fun _ => Raise NoSuchElementException;
     scroll_fault := fun _ => false;
     detail_texts := texts; detail_records := [];
     close_fault := false; switch_back_fault := back_fault;
     handler_handle_fault := false; handler_close_fault := false;
     handler_switch_fault := false |}.

(** A row showing the given excerpts under the first review selector
    and nothing else, every attempt behaving as [A]. *)
Definition row_of (inline : list pystr) (A : AttemptWorld) : RowWorld :=
  {| find_elements :=
       fun selector =>
         if str_eqb selector (py ".userReviewCard__text")
         then Ok (List.map Ok inline) else Ok [];
     attempt_world := fun _ => A |}.

(** One window, the listing, focused. *)
Definition listing_only : browser := {| handles := [0%nat]; current := 0%nat |}.

Definition five_reviews : list pystr := List.map py
  [ "The room was clean and the staff were friendly";
    "Great location close to the metro station";
    "Breakfast was good but the lift was noisy";
    "Comfortable beds and a helpful front desk";
    "Would recommend this hotel to families" ]%string.

(** Five harvested excerpts, the last of which happens to begin with the
    reserved marker. *)
Definition marked_reviews : list pystr := List.map py
  [ "The room was clean and the staff were friendly";
    "Great location close to the metro station";
    "Breakfast was good but the lift was noisy";
    "Comfortable beds and a helpful front desk";
    "No review available in English for this stay" ]%string.

Definition captcha_page : pystr :=
  py "<html><body>Please complete the CAPTCHA to continue</body></html>".

Definition plain_page : pystr := py "<html><body>Guest reviews</body></html>".

(** The listing URL of the scenario, check-in 08022025 and check-out
    08032025. *)
Definition scenario_url : pystr :=
  py "https://www.makemytrip.com/hotels/hotel-listing/?checkin=08022025&city=CTCCU&checkout=08032025&roomStayQualifier=2e0e&locusId=CTCCU&country=IN&locusType=city&searchText=Kolkata".

Definition july_first : date := {| year := 2025; month := 7; day := 1 |}.

Definition august_second : date := {| year := 2025; month := 8; day := 2 |}.

(** A located row on which only the shown price and what the review
    harvester sees are present. *)
Definition priced_row (shown : pystr) (R : RowWorld) : ListingRow :=
  {| locate := Ok tt;
     text_by_id :=
       fun id => if str_eqb id (py "hlistpg_hotel_shown_price") then Ok shown
                 else Raise NoSuchElementException;
     rating_desc_text := fun _ => Raise NoSuchElementException;
     location_info := Ok ([], [], []);
     tax_text := Raise NoSuchElementException;
     star_content := Raise NoSuchElementException;
     epoch := 1762160000%N;
     timestamp := py "2025-07-01T12:00:00";
     reviews_world := R;
     row_scroll_fault := false |}.

(** A position at which no row is found within the wait. *)
Definition absent_row : ListingRow :=
  {| locate := Raise TimeoutException;
     text_by_id := fun _ => Raise NoSuchElementException;
     rating_desc_text := fun _ => Raise NoSuchElementException;
     location_info := Ok ([], [], []);
     tax_text := Raise NoSuchElementException;
     star_content := Raise NoSuchElementException;
     epoch := 1762160000%N;
     timestamp := py "2025-07-01T12:00:00";
     reviews_world := row_of [] (detail_attempt plain_page [] false);
     row_scroll_fault := false |}.

(** A page that loads and lists [shown] rows. *)
Definition page_of (shown : nat) (row : ListingRow) : PageWorld :=
  {| load := Ok tt;
     now := {| on := july_first; micros := 12 * 3600 * 1000000 |};
     later := {| on := july_first; micros := 12 * 3600 * 1000000 |};
     rows := fun i => if Nat.ltb i shown then row else absent_row |}.

Definition rupee_price : pystr := rupee_sign :: py "5,499".

(** The first row of a page showing the rupee price, as assembled. *)
Definition rupee_row_assembled : dstate * outcome HotelData :=
  assemble ascii_only_lower (options_args false true) true 0
    (priced_row rupee_price (row_of five_reviews (detail_attempt plain_page [] false)))
    (extract_temporal_features ascii_only_digits ascii_only_lower
       every_host_accepted unpadded_years
       {| on := july_first; micros := 0 |} {| on := july_first; micros := 0 |}
       scenario_url)
    {| d_browser := listing_only; d_all_reviews := []; hotels_data := [] |}.

Definition rupee_record : HotelData :=
  match snd rupee_row_assembled with
  | Ok h => h
  | Raise _ => listing_record [] [] [] []
  end.

(** A record whose price is written with decimals and whose star
    marker is the digit 5. *)
Definition decimal_price_record : HotelData :=
  {| hotel_name := py "Hotel Lindsay"; hotel_id := py "hotel_0_1762160000";
     scrape_timestamp := py "2025-07-01T12:00:00";
     location := py "Park Street"; landmark := []; distance_to_landmark := [];
     user_rating := py "4.3"; rating_description := py "Very Good";
     review_count := py "(2,048 Ratings)"; star_rating := py "5";
     recent_reviews := five_reviews; review_highlights := [];
     price := py "5499.50"; tax := []; currency := [];
     availability_status := py "Available";
     search_date := py "2025-07-01"; checkin_date := []; checkout_date := [];
     days_ahead := 0; day_of_week := []; season := [];
     latitude := None; longitude := None;
     price_numeric := None; review_count_numeric := None;
     rating_numeric := None; star_rating_numeric := None;
     avg_sentiment_score := None |}.

(** The same record with a review count of 4301 digits, one more than
    [int] converts. *)
Definition overlong_count_record : HotelData :=
  {| hotel_name := py "Hotel Lindsay"; hotel_id := py "hotel_0_1762160000";
     scrape_timestamp := py "2025-07-01T12:00:00";
     location := py "Park Street"; landmark := []; distance_to_landmark := [];
     user_rating := py "4.3"; rating_description := py "Very Good";
     review_count := repeat 49%N 4301; star_rating := py "5";
     recent_reviews := five_reviews; review_highlights := [];
     price := py "5499.50"; tax := []; currency := [];
     availability_status := py "Available";
     search_date := py "2025-07-01"; checkin_date := []; checkout_date := [];
     days_ahead := 0; day_of_week := []; season := [];
     latitude := None; longitude := None;
     price_numeric := None; review_count_numeric := None;
     rating_numeric := None; star_rating_numeric := None;
     avg_sentiment_score := None |}.

Definition august_third : date := {| year := 2025; month := 8; day := 3 |}.

(** A detail page whose body never appears. *)
Definition no_body_page : DetailPage :=
  {| body_wait := Raise TimeoutException;
     page_elements := fun _ _ => Ok [];
     show_more := fun _ _ => Raise NoSuchElementException |}.

(** An element of the detail page with the given text and nothing
    under its parent. *)
Definition bare_element (text : pystr) : DetailElement :=
  {| el_text := Ok text;
     el_parent := Ok tt;
     el_meta := fun _ => Raise NoSuchElementException |}.

(** A detail page showing the given excerpts under the first review
    selector, with no "Show More" button. *)
Definition detail_page_of (texts : list pystr) : DetailPage :=
  {| body_wait := Ok tt;
     page_elements :=
       fun _ selector =>
         if str_eqb selector (py ".userReviewCard__text")
         then Ok (List.map bare_element texts) else Ok [];
     show_more := fun _ _ => Raise NoSuchElementException |}.

(** An attempt in which the tab opens and the switch to it fails. *)
Definition failing_switch : AttemptWorld :=
  {| find_link := fun _ => Ok reviews_link;
     handle_fault := false; open_fault := false; switch_fault := true;
     page_source := Ok plain_page;
     abort_close_fault := false; abort_switch_fault := false;
     click_tab := fun _ => Raise NoSuchElementException;
     scroll_fault := fun _ => false;
     detail_texts := []; detail_records := [];
     close_fault := false; switch_back_fault := false;
     handler_handle_fault := false; handler_close_fault := false;
     handler_switch_fault := false |}.

(** The state in which a call of the harvester starts on the listing. *)
Definition listing_state : hstate :=
  {| st_browser := listing_only; st_all_reviews := [];
     st_recent := []; st_highlights := []; st_main_window := None |}.

(* ================================================================== *)
(** * Properties *)
(* ================================================================== *)

(** ** Strings *)

Section StringFacts.

Lemma str_eqb_eq (a b : pystr) : str_eqb a b = true <-> a = b.
Proof.
  revert b; induction a as [|x a IH]; intros [|y b]; simpl;
    try (split; [discriminate | congruence]); try tauto.
  rewrite andb_true_iff, N.eqb_eq, IH. split.
  - intros [-> ->]; reflexivity.
  - intros E; inversion E; auto.
Qed.

Lemma str_eqb_refl (a : pystr) : str_eqb a a = true.
Proof. apply str_eqb_eq; reflexivity. Qed.

Lemma str_in_In (w : pystr) (l : list pystr) : str_in w l = true <-> In w l.
Proof.
  unfold str_in. rewrite existsb_exists. split.
  - intros (x & Hx & E). apply str_eqb_eq in E. subst; assumption.
  - intros H. exists w. split; [assumption | apply str_eqb_refl].
Qed.

End StringFacts.

(** ** Sentiment scoring *)

Section SentimentFacts.
Variable unicode_lower : pystr -> pystr.

Local Open Scope Z_scope.

(** The two word sets share no word, so the [if]/[elif] of the loop
    and the two independent memberships of the rule agree. *)
Lemma positive_not_negative (w : pystr) :
  str_in w positive_words = true -> str_in w negative_words = false.
Proof.
  intros H. apply str_in_In in H. unfold positive_words in H.
  cbn [List.map In] in H.
  repeat (destruct H as [<- | H]; [vm_compute; reflexivity|]).
  contradiction.
Qed.

Lemma count_word_value (st : counters) (w : pystr) :
  count_word st w =
  {| total_score := total_score st + token_value w;
     word_count := word_count st + 1 |}.
Proof.
  unfold count_word, token_value.
  destruct (str_in w positive_words) eqn:P.
  - rewrite (positive_not_negative w P). f_equal; lia.
  - destruct (str_in w negative_words); f_equal; lia.
Qed.

Lemma count_words_fold (ws : list pystr) (st : counters) :
  fold_left count_word ws st =
  {| total_score := total_score st + token_sum ws;
     word_count := word_count st + Z.of_nat (List.length ws) |}.
Proof.
  revert st; induction ws as [|w ws IH]; intros st.
  - destruct st; cbn. f_equal; lia.
  - cbn [fold_left]. rewrite IH, count_word_value. cbn [total_score word_count].
    unfold token_sum at 2. cbn [fold_right List.length]. fold (token_sum ws).
    f_equal; lia.
Qed.

Lemma token_sum_app (a b : list pystr) :
  token_sum (a ++ b) = token_sum a + token_sum b.
Proof.
  induction a as [|w a IH]; [reflexivity|].
  unfold token_sum in *. cbn [app fold_right]. rewrite IH. lia.
Qed.

Lemma count_reviews_fold (reviews : list pystr) (st : counters) :
  fold_left (count_review unicode_lower) reviews st =
  {| total_score := total_score st + token_sum (tokens unicode_lower reviews);
     word_count := word_count st
                   + Z.of_nat (List.length (tokens unicode_lower reviews)) |}.
Proof.
  revert st; induction reviews as [|r reviews IH]; intros st.
  - destruct st; cbn. f_equal; lia.
  - cbn [fold_left]. rewrite IH. unfold count_review at 1 2.
    rewrite count_words_fold. cbn [total_score word_count tokens flat_map].
    fold (tokens unicode_lower reviews).
    rewrite token_sum_app, length_app, Nat2Z.inj_add. f_equal; lia.
Qed.

(** The score in closed form: the counters are the token sum and the
    token count. *)
Lemma calculate_sentiment_score_tokens (reviews : list pystr) :
  calculate_sentiment_score unicode_lower reviews =
  match tokens unicode_lower reviews with
  | [] => 0%Q
  | ws => clamp (inject_Z (token_sum ws)
                 / inject_Z (Z.of_nat (List.length ws)) * 10)%Q
  end.
Proof.
  destruct reviews as [|r reviews]; [reflexivity|].
  unfold calculate_sentiment_score.
  rewrite count_reviews_fold. cbn [total_score word_count].
  destruct (tokens unicode_lower (r :: reviews)) as [|w ws] eqn:T.
  - reflexivity.
  - replace (0 + Z.of_nat (List.length (w :: ws)) =? 0) with false.
    + reflexivity.
    + symmetry. apply Z.eqb_neq. cbn [List.length]. lia.
Qed.

Lemma clamp_bounds (x : Q) : (-1 <= clamp x /\ clamp x <= 1)%Q.
Proof.
  unfold clamp. split.
  - apply Q.le_max_l.
  - apply Q.max_lub; [discriminate | apply Q.le_min_l].
Qed.

Lemma clamp_pos (x : Q) : (0 < x)%Q -> (0 < clamp x)%Q.
Proof.
  intros H. unfold clamp.
  apply Qlt_le_trans with (Qmin 1 x); [|apply Q.le_max_r].
  apply Q.min_glb_lt; [reflexivity | assumption].
Qed.

Lemma token_sum_all_positive (ws : list pystr) :
  Forall (fun w => In w positive_words) ws ->
  token_sum ws = Z.of_nat (List.length ws).
Proof.
  induction 1 as [|w ws Hw _ IH]; [reflexivity|].
  unfold token_sum in *. cbn [fold_right List.length]. rewrite IH.
  unfold token_value. apply str_in_In in Hw. rewrite Hw.
  rewrite (positive_not_negative w Hw). lia.
Qed.

Lemma calculate_sentiment_score_bounds (reviews : list pystr) :
  (-1 <= calculate_sentiment_score unicode_lower reviews
   /\ calculate_sentiment_score unicode_lower reviews <= 1)%Q.
Proof.
  rewrite calculate_sentiment_score_tokens.
  destruct (tokens unicode_lower reviews).
  - split; discriminate.
  - apply clamp_bounds.
Qed.

End SentimentFacts.

(** ** Numeric normalization *)

Section NumericFacts.
Variable nd_value : N -> option N.

Lemma is_digit_not_dot (c : N) : is_digit nd_value c = true -> c <> dot.
Proof. intros H ->. vm_compute in H. discriminate. Qed.

(** *** Runs *)

Lemma runs_from_ext (keep keep' : N -> bool) (s cur : pystr) :
  (forall c, In c s -> keep c = keep' c) ->
  runs_from keep cur s = runs_from keep' cur s.
Proof.
  revert cur; induction s as [|c s IH]; intros cur H; [reflexivity|].
  cbn [runs_from]. rewrite <- (H c (or_introl eq_refl)).
  assert (H' : forall x, In x s -> keep x = keep' x)
    by (intros x Hx; apply H; right; exact Hx).
  destruct (keep c); [apply IH; exact H'|].
  destruct cur; rewrite IH by exact H'; reflexivity.
Qed.

Lemma runs_from_shape (keep : N -> bool) (s cur : pystr) :
  Forall (fun c => keep c = true) cur ->
  Forall (fun m => m <> [] /\ Forall (fun c => keep c = true) m)
    (runs_from keep cur s).
Proof.
  assert (R : forall cur, cur <> [] -> Forall (fun c => keep c = true) cur ->
              rev cur <> [] /\ Forall (fun c => keep c = true) (rev cur)).
  { intros k Hk Hf. split.
    - intros E. apply (f_equal (@rev N)) in E. rewrite rev_involutive in E.
      exact (Hk E).
    - apply Forall_rev; exact Hf. }
  revert cur; induction s as [|c s IH]; intros cur Hcur; cbn [runs_from].
  - destruct cur as [|x cur]; constructor; [|constructor].
    apply R; [discriminate | exact Hcur].
  - destruct (keep c) eqn:K.
    + apply IH. constructor; assumption.
    + destruct cur as [|x cur]; [apply IH; constructor|].
      constructor; [apply R; [discriminate | exact Hcur] | apply IH; constructor].
Qed.

(** After the commas are deleted, [[\d,]+] finds the runs of digits. *)
Lemma findall_digits_commas_stripped (text : pystr) :
  findall_digits_commas nd_value (remove_char comma text)
  = findall_digits nd_value (remove_char comma text).
Proof.
  unfold findall_digits_commas, findall_digits, runs.
  apply runs_from_ext. intros c Hc.
  unfold remove_char in Hc. apply filter_In in Hc. destruct Hc as [_ Hc].
  apply negb_true_iff in Hc. rewrite Hc. apply orb_false_r.
Qed.

(** *** Conversions never fail on what the patterns match *)

Lemma digits_value_total (m : pystr) (acc : N) :
  Forall (fun c => is_digit nd_value c = true) m ->
  exists n, digits_value nd_value acc m = Some n.
Proof.
  revert acc; induction m as [|c m IH]; intros acc H; cbn [digits_value].
  - now exists acc.
  - inversion H as [|? ? Hc Hm]; subst. unfold Numeric.is_digit in Hc.
    destruct (digit_value nd_value c); [apply IH; exact Hm | discriminate].
Qed.

Lemma cut_at_dot_digits (ip rest : pystr) :
  Forall (fun c => is_digit nd_value c = true) ip ->
  cut_at_dot (ip ++ rest) = (ip ++ fst (cut_at_dot rest), snd (cut_at_dot rest)).
Proof.
  induction 1 as [|c ip Hc _ IH]; cbn [app].
  - destruct (cut_at_dot rest); reflexivity.
  - cbn [cut_at_dot]. apply is_digit_not_dot in Hc.
    apply N.eqb_neq in Hc. rewrite Hc, IH. reflexivity.
Qed.

Lemma py_int_run (m : pystr) :
  m <> [] -> Forall (fun c => is_digit nd_value c = true) m ->
  py_int nd_value m
  = if Nat.leb (List.length m) max_str_digits
    then Ok (run_value nd_value m) else Raise OtherException.
Proof.
  intros Hne H. unfold py_int, run_value.
  destruct m as [|c m]; [contradiction|].
  rewrite Nat.ltb_antisym.
  destruct (Nat.leb (List.length (c :: m)) max_str_digits); cbn [negb];
    [|reflexivity].
  destruct (digits_value_total 0 H) as [n ->]. reflexivity.
Qed.

Lemma py_float_run (m : pystr) :
  m <> [] -> Forall (fun c => is_digit nd_value c = true) m ->
  py_float nd_value m = Ok (inject_Z (run_value nd_value m)).
Proof.
  intros Hne H. unfold py_float, run_value.
  pose proof (cut_at_dot_digits [] H) as E.
  cbn [cut_at_dot fst snd] in E. rewrite !app_nil_r in E. rewrite E.
  cbv beta iota.
  destruct m as [|c m]; [contradiction|].
  destruct (digits_value_total 0 H) as [n ->]. reflexivity.
Qed.

Lemma state_shape_emit (st : decimal_state) (cur : pystr) :
  state_shape nd_value st -> (st = InInteger cur \/ st = InFraction cur) ->
  decimal_shape nd_value (rev cur).
Proof.
  intros H [-> | ->]; cbn in H.
  - destruct H as [Hne Hd]. exists (rev cur). split; [|split].
    + intros E. apply (f_equal (@rev N)) in E. rewrite rev_involutive in E.
      exact (Hne E).
    + apply Forall_rev; exact Hd.
    + left; reflexivity.
  - destruct H as (ip & fp & Hne & Hi & Hf & E). exists ip.
    split; [exact Hne | split; [exact Hi|]]. right. exists fp. auto.
Qed.

Lemma decimals_from_shape (s : pystr) (st : decimal_state) :
  state_shape nd_value st -> Forall (decimal_shape nd_value) (decimals_from nd_value st s).
Proof.
  revert st; induction s as [|c s IH]; intros st H; cbn [decimals_from].
  - destruct st as [|cur|cur]; [constructor| |];
      (constructor; [eapply state_shape_emit; eauto | constructor]).
  - destruct st as [|cur|cur].
    + destruct (is_digit nd_value c) eqn:D; apply IH; cbn; auto.
      split; [discriminate | repeat constructor; exact D].
    + destruct (is_digit nd_value c) eqn:D.
      * apply IH. cbn in *. destruct H. split; [discriminate|].
        constructor; assumption.
      * destruct (N.eqb c dot) eqn:E.
        -- apply IH. apply N.eqb_eq in E. subst c. cbn in *.
           destruct H as [Hne Hd]. exists (rev cur), []. repeat split.
           ++ intros E. apply (f_equal (@rev N)) in E.
              rewrite rev_involutive in E. exact (Hne E).
           ++ apply Forall_rev; exact Hd.
           ++ constructor.
        -- constructor; [eapply state_shape_emit; eauto | apply IH; exact I].
    + destruct (is_digit nd_value c) eqn:D.
      * apply IH. cbn in *. destruct H as (ip & fp & Hne & Hi & Hf & E).
        exists ip, (fp ++ [c]). repeat split; auto.
        -- apply Forall_app; split; [exact Hf | repeat constructor; exact D].
        -- rewrite E, <- app_assoc. reflexivity.
      * constructor; [eapply state_shape_emit; eauto | apply IH; exact I].
Qed.

Lemma py_float_decimal (m : pystr) :
  decimal_shape nd_value m -> exists v, py_float nd_value m = Ok v.
Proof.
  intros (ip & Hne & Hi & [-> | (fp & Hf & ->)]).
  - eexists. apply py_float_run; assumption.
  - unfold py_float. rewrite (cut_at_dot_digits (dot :: fp) Hi).
    cbn [cut_at_dot]. rewrite N.eqb_refl. cbn [fst snd]. rewrite app_nil_r.
    cbv beta iota.
    destruct ip as [|c ip]; [contradiction|].
    destruct (digits_value_total 0 Hi) as [i ->].
    destruct (digits_value_total 0 Hf) as [f ->].
    eexists; reflexivity.
Qed.

(** *** The three parsers in closed form *)

Lemma parse_price_run (text : pystr) :
  parse_price nd_value text
  = Ok (option_map (fun m => inject_Z (run_value nd_value m))
          (head (findall_digits nd_value (remove_char comma text)))).
Proof.
  unfold parse_price. rewrite findall_digits_commas_stripped.
  pose proof (@runs_from_shape (is_digit nd_value) (remove_char comma text) []
                (Forall_nil _)) as S.
  unfold findall_digits, runs in *.
  destruct (runs_from (is_digit nd_value) [] (remove_char comma text)) as [|m ms];
    [reflexivity|].
  inversion S as [|? ? [Hne Hd] _]; subst. cbn [first_match head option_map].
  rewrite py_float_run by assumption. reflexivity.
Qed.

(** The count is read unless its first run of digits is longer than
    [int] converts. *)
Lemma parse_review_count_run (text : pystr) :
  parse_review_count nd_value text
  = if count_within_limit nd_value text
    then Ok (option_map (run_value nd_value)
               (head (findall_digits nd_value (remove_char comma text))))
    else Raise OtherException.
Proof.
  unfold parse_review_count, count_within_limit.
  pose proof (@runs_from_shape (is_digit nd_value) (remove_char comma text) []
                (Forall_nil _)) as S.
  unfold findall_digits, runs in *.
  destruct (runs_from (is_digit nd_value) [] (remove_char comma text)) as [|m ms];
    [reflexivity|].
  inversion S as [|? ? [Hne Hd] _]; subst. cbn [first_match head option_map].
  rewrite py_int_run by assumption.
  destruct (Nat.leb (List.length m) max_str_digits); reflexivity.
Qed.

Lemma parse_rating_decimal (text : pystr) :
  parse_rating nd_value text
  = Ok (option_map (decimal_value nd_value) (head (findall_decimals nd_value text))).
Proof.
  unfold parse_rating, findall_decimals.
  pose proof (@decimals_from_shape text Outside I) as S.
  destruct (decimals_from nd_value Outside text) as [|m ms]; [reflexivity|].
  inversion S as [|? ? Hm _]; subst. cbn [first_match head option_map].
  unfold decimal_value. destruct (py_float_decimal Hm) as [v ->]. reflexivity.
Qed.

(** *** Texts without a digit, and the first run of digits *)

Lemma runs_from_nil_iff (keep : N -> bool) (s cur : pystr) :
  runs_from keep cur s = [] <-> cur = [] /\ Forall (fun c => keep c = false) s.
Proof.
  revert cur; induction s as [|c s IH]; intros cur; cbn [runs_from].
  - destruct cur; split; try discriminate; auto.
    intros [E _]; discriminate.
  - destruct (keep c) eqn:K.
    + rewrite IH. split; [intros [E _]; discriminate|].
      intros [_ H]. inversion H; congruence.
    + destruct cur as [|x cur].
      * rewrite IH. split; intros [E H]; split; auto.
        now inversion H.
      * split; [discriminate | intros [E _]; discriminate].
Qed.

Lemma decimals_from_nil_iff (s : pystr) (st : decimal_state) :
  decimals_from nd_value st s = []
  <-> st = Outside /\ Forall (fun c => is_digit nd_value c = false) s.
Proof.
  revert st; induction s as [|c s IH]; intros st; cbn [decimals_from].
  - destruct st; split; try discriminate; auto; intros [E _]; discriminate.
  - destruct st as [|cur|cur].
    + destruct (is_digit nd_value c) eqn:D; rewrite IH.
      * split; [intros [E _]; discriminate|].
        intros [_ H]. inversion H; congruence.
      * split; intros [E H]; split; auto. now inversion H.
    + destruct (is_digit nd_value c); [|destruct (N.eqb c dot)];
        try rewrite IH; split; try discriminate; intros [E _]; discriminate.
    + destruct (is_digit nd_value c); try rewrite IH;
        split; try discriminate; intros [E _]; discriminate.
Qed.

Lemma no_digit_stripped (text : pystr) :
  Forall (fun c => is_digit nd_value c = false) text ->
  Forall (fun c => is_digit nd_value c = false) (remove_char comma text).
Proof.
  intros H. apply Forall_forall. intros c Hc.
  apply filter_In in Hc. destruct Hc as [Hc _].
  rewrite Forall_forall in H. exact (H c Hc).
Qed.

Lemma decimals_from_fraction (s cur : pystr) :
  exists t rest, decimals_from nd_value (InFraction cur) s = (rev cur ++ t) :: rest.
Proof.
  revert cur; induction s as [|c s IH]; intros cur; cbn [decimals_from].
  - exists [], []. now rewrite app_nil_r.
  - destruct (is_digit nd_value c).
    + destruct (IH (c :: cur)) as (t & rest & ->). exists (c :: t), rest.
      cbn [rev]. now rewrite <- app_assoc.
    + exists [], (decimals_from nd_value Outside s). now rewrite app_nil_r.
Qed.

Lemma integer_part_digits (ip : pystr) :
  Forall (fun c => is_digit nd_value c = true) ip ->
  fst (cut_at_dot ip) = ip.
Proof.
  intros H. pose proof (cut_at_dot_digits [] H) as E.
  cbn [cut_at_dot fst snd] in E. rewrite !app_nil_r in E. now rewrite E.
Qed.

Lemma decimals_from_integer_head (s cur : pystr) :
  cur <> [] -> Forall (fun c => is_digit nd_value c = true) cur ->
  option_map (fun m => fst (cut_at_dot m))
    (head (decimals_from nd_value (InInteger cur) s))
  = head (runs_from (is_digit nd_value) cur s).
Proof.
  revert cur; induction s as [|c s IH]; intros cur Hne Hd;
    cbn [decimals_from runs_from].
  - destruct cur as [|x cur]; [contradiction|]. cbn [head option_map].
    now rewrite integer_part_digits by (apply Forall_rev; exact Hd).
  - destruct (is_digit nd_value c) eqn:D.
    + apply IH; [discriminate | constructor; assumption].
    + destruct cur as [|x cur]; [contradiction|].
      assert (R : Forall (fun c => is_digit nd_value c = true) (rev (x :: cur)))
        by (apply Forall_rev; exact Hd).
      destruct (N.eqb c dot) eqn:E.
      * destruct (decimals_from_fraction s (c :: x :: cur)) as (t & rest & ->).
        cbn [head option_map]. apply N.eqb_eq in E. subst c.
        change (rev (dot :: x :: cur)) with (rev (x :: cur) ++ [dot]).
        rewrite <- app_assoc. rewrite (cut_at_dot_digits _ R).
        cbn [app cut_at_dot]. rewrite N.eqb_refl. cbn [fst].
        now rewrite app_nil_r.
      * cbn [head option_map]. now rewrite integer_part_digits.
Qed.

(** The integer part of the first match of [\d+\.?\d*] is the first
    run of digits of the text. *)
Lemma first_decimal_first_run (text : pystr) :
  option_map (fun m => fst (cut_at_dot m)) (head (findall_decimals nd_value text))
  = head (findall_digits nd_value text).
Proof.
  unfold findall_decimals, findall_digits, runs.
  induction text as [|c s IH]; [reflexivity|].
  cbn [decimals_from runs_from].
  destruct (is_digit nd_value c) eqn:D; [|exact IH].
  apply decimals_from_integer_head; [discriminate|].
  repeat constructor; exact D.
Qed.

End NumericFacts.

(** ** Derived fields of a record *)

Section FeatureFacts.
Variable unicode_lower : pystr -> pystr.
Variable nd_value : N -> option N.

(** The one assignment of the [try] that can raise is that of the
    review count, on a run of digits longer than [int] converts: the
    price is then assigned and the four later fields are left as they
    were.  Otherwise every assignment runs. *)
Lemma extract_numeric_features_eq (h : HotelData) :
  extract_numeric_features unicode_lower nd_value h
  = if count_within_limit nd_value (review_count h)
    then
      with_derived h
        (option_map (fun m => inject_Z (run_value nd_value m))
           (head (findall_digits nd_value (remove_char comma (price h)))))
        (option_map (run_value nd_value)
           (head (findall_digits nd_value
                    (remove_char comma (review_count h)))))
        (option_map (decimal_value nd_value)
           (head (findall_decimals nd_value (user_rating h))))
        (match star_rating h with
         | [] => star_rating_numeric h
         | _ => Some (Z.of_nat (List.length (star_rating h)))
         end)
        (Some (calculate_sentiment_score unicode_lower
                 (valid_reviews_of (recent_reviews h))))
    else
      with_derived h
        (option_map (fun m => inject_Z (run_value nd_value m))
           (head (findall_digits nd_value (remove_char comma (price h)))))
        (review_count_numeric h) (rating_numeric h)
        (star_rating_numeric h) (avg_sentiment_score h).
Proof.
  unfold extract_numeric_features.
  rewrite parse_price_run, parse_review_count_run, parse_rating_decimal.
  destruct (count_within_limit nd_value (review_count h)); reflexivity.
Qed.

Lemma no_digit_stripped_iff (text : pystr) :
  Forall (fun c => is_digit nd_value c = false) (remove_char comma text)
  <-> Forall (fun c => is_digit nd_value c = false) text.
Proof.
  split; [|apply no_digit_stripped].
  rewrite !Forall_forall. intros H c Hc.
  destruct (N.eqb c comma) eqn:E.
  - apply N.eqb_eq in E. subst c. reflexivity.
  - apply H. apply filter_In. split; [exact Hc | now rewrite E].
Qed.

Lemma head_runs_none_iff (text : pystr) :
  head (findall_digits nd_value text) = None
  <-> Forall (fun c => is_digit nd_value c = false) text.
Proof.
  unfold findall_digits, runs.
  pose proof (runs_from_nil_iff (is_digit nd_value) text []) as H.
  destruct (runs_from (is_digit nd_value) [] text); cbn; split.
  - intros _. apply H; reflexivity.
  - reflexivity.
  - discriminate.
  - intros F. destruct H as [_ H]. discriminate (H (conj eq_refl F)).
Qed.

Lemma head_decimals_none_iff (text : pystr) :
  head (findall_decimals nd_value text) = None
  <-> Forall (fun c => is_digit nd_value c = false) text.
Proof.
  unfold findall_decimals.
  pose proof (decimals_from_nil_iff nd_value text Outside) as H.
  destruct (decimals_from nd_value Outside text); cbn; split.
  - intros _. apply H; reflexivity.
  - reflexivity.
  - discriminate.
  - intros F. destruct H as [_ H]. discriminate (H (conj eq_refl F)).
Qed.

Lemma option_map_none_iff {A B} (f : A -> B) (o : option A) :
  option_map f o = None <-> o = None.
Proof. destruct o; cbn; split; congruence. Qed.

End FeatureFacts.

(** ** Reasoning about stateful code: pre- and postconditions *)

Section Triples.
Variable S : Type.

Lemma triple_ret {A} (P : S -> Prop) (a : A) (Q : A -> S -> Prop) (E : S -> Prop) :
  (forall s, P s -> Q a s) -> triple P (ret a) Q E.
Proof. intros H s Hs. cbn. auto. Qed.

Lemma triple_throw {A} (P : S -> Prop) (e : exn) (Q : A -> S -> Prop)
    (E : S -> Prop) :
  (forall s, P s -> E s) -> triple P (throw e) Q E.
Proof. intros H s Hs. cbn. auto. Qed.

Lemma triple_lift {A} (P : S -> Prop) (o : outcome A) (Q : A -> S -> Prop)
    (E : S -> Prop) :
  (forall s a, P s -> Q a s) -> (forall s, P s -> E s) -> triple P (lift o) Q E.
Proof. intros HQ HE s Hs. unfold lift. destruct o; auto. Qed.

Lemma triple_bind {A B} (P : S -> Prop) (c : stateful S A)
    (R : A -> S -> Prop) (k : A -> stateful S B) (Q : B -> S -> Prop)
    (E : S -> Prop) :
  triple P c R E -> (forall a, triple (R a) (k a) Q E) ->
  triple P (mbind c k) Q E.
Proof.
  intros Hc Hk s Hs. unfold mbind. specialize (Hc s Hs).
  destruct (c s) as [s' [a|e]]; [apply (Hk a s' Hc) | exact Hc].
Qed.

Lemma triple_try {A} (P : S -> Prop) (c : stateful S A) (h : exn -> stateful S A)
    (Q : A -> S -> Prop) (E' E : S -> Prop) :
  triple P c Q E' -> (forall e, triple E' (h e) Q E) ->
  triple P (try_catch c h) Q E.
Proof.
  intros Hc Hh s Hs. unfold try_catch. specialize (Hc s Hs).
  destruct (c s) as [s' [a|e]]; [exact Hc | apply (Hh e s' Hc)].
Qed.

Lemma triple_weaken {A} (P P' : S -> Prop) (c : stateful S A)
    (Q Q' : A -> S -> Prop) (E E' : S -> Prop) :
  triple P' c Q' E' ->
  (forall s, P s -> P' s) -> (forall a s, Q' a s -> Q a s) ->
  (forall s, E' s -> E s) ->
  triple P c Q E.
Proof.
  intros Hc HP HQ HE s Hs. specialize (Hc s (HP s Hs)).
  destruct (c s) as [s' [a|e]]; auto.
Qed.

Lemma triple_exn {A} (P : S -> Prop) (c : stateful S A)
    (Q : A -> S -> Prop) (E E' : S -> Prop) :
  triple P c Q E' -> (forall s, E' s -> E s) -> triple P c Q E.
Proof. intros Hc HE. eapply triple_weaken; eauto. Qed.

End Triples.

(** ** Browsing contexts *)

Section BrowserFacts.

Lemma is_open_In (h : handle) (b : browser) :
  is_open h b = true <-> In h (handles b).
Proof.
  unfold is_open. rewrite existsb_exists. split.
  - intros (x & Hx & E). apply Nat.eqb_eq in E. now subst.
  - intros H. exists h. split; [exact H | apply Nat.eqb_refl].
Qed.

Lemma fresh_handle_closed (b : browser) : ~ In (fresh_handle b) (handles b).
Proof.
  unfold fresh_handle. intros H.
  pose proof (proj1 (list_max_le (handles b) (list_max (handles b)))
                (Nat.le_refl _)) as F.
  rewrite Forall_forall in F. specialize (F _ H). lia.
Qed.

Lemma open_tab_keeps (h : handle) (b : browser) :
  is_open h b = true -> is_open h (open_tab b) = true.
Proof.
  rewrite !is_open_In. cbn. intros H. apply in_or_app. now left.
Qed.

Lemma open_tab_last (b : browser) :
  last_handle (open_tab b) = Ok (fresh_handle b).
Proof. unfold last_handle, open_tab. cbn. now rewrite rev_app_distr. Qed.

Lemma open_tab_fresh_open (b : browser) :
  is_open (fresh_handle b) (open_tab b) = true.
Proof. apply is_open_In. cbn. apply in_or_app. right. now left. Qed.

Lemma close_keeps (h : handle) (b b' : browser) :
  close b = Ok b' -> is_open h b = true -> h <> current b ->
  is_open h b' = true.
Proof.
  unfold close. destruct (alive b); [|discriminate].
  intros E; inversion E; subst; clear E. rewrite !is_open_In. cbn.
  intros H N. apply in_in_remove; assumption.
Qed.

Lemma close_alive (b : browser) :
  alive b = true -> exists b', close b = Ok b' /\ current b' = current b.
Proof. intros H. unfold close. rewrite H. eexists; split; reflexivity. Qed.

Lemma switch_open (h : handle) (b : browser) :
  is_open h b = true ->
  switch_to_window h b = Ok {| handles := handles b; current := h |}.
Proof. intros H. unfold switch_to_window. now rewrite H. Qed.

End BrowserFacts.

(** ** The harvester and the browsing contexts *)

Section NavigationFacts.
Variable unicode_lower : pystr -> pystr.
Variable driver_args : outcome (list pystr).
(** The handle of the listing window. *)
Variable m : handle.

Lemma bound_listing (s : hstate) : on_listing_bound m s -> on_listing m s.
Proof. intros (A & B & C). repeat split; auto. Qed.

Lemma frame_on_listing : frame (on_listing m).
Proof. intros s s' B W. unfold on_listing. now rewrite B, W. Qed.

Lemma frame_on_detail : frame (on_detail m).
Proof. intros s s' B W. unfold on_detail. now rewrite B, W. Qed.

Lemma triple_driver_call (P : hstate -> Prop) (fault : bool) :
  triple P (driver_call fault) (fun _ => P) P.
Proof.
  intros s Hs. unfold driver_call.
  destruct (fault || negb (alive (st_browser s))); exact Hs.
Qed.

Lemma triple_store_main_window (A : AttemptWorld) :
  triple (on_listing m) (store_main_window A)
    (fun _ => on_listing_bound m) (on_listing m).
Proof.
  intros s H. unfold store_main_window.
  destruct (handle_fault A); [exact H|].
  destruct H as (Hc & Ho & Hm). unfold current_window_handle, alive.
  rewrite Hc, Ho. cbn. repeat split; auto.
Qed.

Lemma triple_open_detail (A : AttemptWorld) :
  triple (on_listing_bound m) (open_detail A) (fun _ => tab_opened m) (on_listing m).
Proof.
  intros s H. unfold open_detail, mbind, driver_call, driver_move.
  destruct (open_fault A || negb (alive (st_browser s)));
    [apply bound_listing; exact H|].
  destruct H as (Hc & Ho & Hm). cbn. split; [|exists (fresh_handle (st_browser s))].
  - repeat split; auto. now apply open_tab_keeps.
  - split; [apply open_tab_last|]. split; [|apply open_tab_fresh_open].
    intros E. apply (fresh_handle_closed (st_browser s)).
    rewrite E. now apply is_open_In.
Qed.

Lemma triple_switch_to_detail (A : AttemptWorld) :
  triple (tab_opened m) (switch_to_detail A) (fun _ => on_detail m) (on_listing m).
Proof.
  intros s [H (h & Hl & Hn & Hh)]. unfold switch_to_detail, driver_move.
  destruct (switch_fault A); [apply bound_listing; exact H|].
  rewrite Hl. cbn [bind]. rewrite (switch_open _ _ Hh).
  destruct H as (Hc & Ho & Hm). cbn. unfold on_detail. cbn.
  repeat split; auto.
Qed.

Lemma triple_close (fault : bool) :
  triple (on_detail m) (driver_move fault close) (fun _ => tab_closed m) (on_detail m).
Proof.
  intros s H. unfold driver_move. destruct fault; [exact H|].
  destruct H as (Ho & Hn & Ha & Hm).
  destruct (close_alive _ Ha) as (b' & E & Hc). rewrite E.
  split; cbn; [|exact Hm].
  eapply close_keeps; eauto.
Qed.

Lemma triple_switch_to_main :
  triple (tab_closed m) (switch_to_main false) (fun _ => on_listing_bound m)
    (fun _ => False).
Proof.
  intros s (Ho & Hm). unfold switch_to_main, mbind, read_main_window, driver_move.
  rewrite Hm. rewrite (switch_open _ _ Ho). cbn. repeat split; auto.
Qed.

Lemma triple_captcha_check (A : AttemptWorld) :
  abort_switch_fault A = false ->
  triple (on_detail m) (captcha_check unicode_lower driver_args A)
    (fun returned s => if returned then (on_listing m) s else (on_detail m) s)
    (fun _ => False).
Proof.
  intros NF. unfold captcha_check.
  apply triple_try with (E' := (on_detail m));
    [|intros e; apply triple_ret; auto].
  eapply triple_bind with (R := fun _ => on_detail m);
    [apply triple_driver_call|]. intros _.
  eapply triple_bind with (R := fun _ => on_detail m);
    [apply triple_lift; auto|]. intros source.
  cbv zeta.
  destruct (existsb _ captcha_keywords); [|apply triple_ret; auto].
  eapply triple_bind with (R := fun _ => on_detail m);
    [apply triple_lift; auto|]. intros args.
  destruct (Nat.eqb _ 0); [apply triple_ret; auto|].
  eapply triple_bind with (R := fun _ => tab_closed m);
    [apply triple_close|]. intros _.
  rewrite NF.
  eapply triple_bind with (R := fun _ => on_listing m).
  - eapply triple_weaken with (P' := (tab_closed m));
      [apply triple_switch_to_main | auto | | intros s []].
    intros a s H. apply bound_listing; exact H.
  - intros _. apply triple_ret. auto.
Qed.

Lemma triple_click_reviews_tab (P : hstate -> Prop) (A : AttemptWorld)
    (selectors : list pystr) :
  triple P (click_reviews_tab A selectors) (fun _ => P) P.
Proof.
  induction selectors as [|sel rest IH]; cbn [click_reviews_tab].
  - apply triple_ret; auto.
  - apply triple_try with (E' := P).
    + eapply triple_bind with (R := fun _ => P);
        [apply triple_driver_call|]. intros _.
      apply triple_lift; auto.
    + intros e. destruct (is_absent_or_timeout e); [exact IH|].
      apply triple_throw; auto.
Qed.

Lemma triple_scroll (P : hstate -> Prop) (A : AttemptWorld) (k n : nat) :
  triple P (scroll A k n) (fun _ => P) P.
Proof.
  revert k; induction n as [|n IH]; intros k; cbn [scroll].
  - apply triple_ret; auto.
  - eapply triple_bind with (R := fun _ => P);
      [apply triple_driver_call|]. intros _. apply IH.
Qed.

Lemma triple_extract_detailed_reviews (P : hstate -> Prop) (A : AttemptWorld) :
  frame P -> triple P (extract_detailed_reviews A) (fun _ => P) P.
Proof.
  intros F s H. unfold extract_detailed_reviews.
  destruct (alive (st_browser s)); [|exact H].
  eapply F; [| |exact H]; reflexivity.
Qed.

Lemma triple_extend_recent (P : hstate -> Prop) (detailed : list pystr) :
  frame P -> triple P (extend_recent detailed) (fun _ => P) P.
Proof. intros F s H. cbn. eapply F; [| |exact H]; reflexivity. Qed.

(** The body of the inner [try] ends on the listing, or raises on the
    listing or on the detail tab. *)
Lemma triple_attempt_try (A : AttemptWorld) :
  restores A ->
  triple (on_listing m) (attempt_try unicode_lower driver_args A)
    (fun _ => on_listing m) (fun s => (on_listing m) s \/ (on_detail m) s).
Proof.
  intros (N272 & N313 & _). unfold attempt_try.
  pose (E := fun s => (on_listing m) s \/ (on_detail m) s).
  assert (EL : forall s, (on_listing m) s -> E s) by (intros s H; now left).
  assert (ED : forall s, (on_detail m) s -> E s) by (intros s H; now right).
  fold E.
  eapply triple_bind with (R := fun _ => on_listing m);
    [apply triple_lift; auto|].
  intros [[|c url]|]; try (apply triple_ret; auto).
  eapply triple_bind with (R := fun _ => on_listing_bound m).
  { eapply triple_exn; [apply triple_store_main_window | auto]. }
  intros _. eapply triple_bind with (R := fun _ => tab_opened m).
  { eapply triple_exn; [apply triple_open_detail | auto]. }
  intros _. eapply triple_bind with (R := fun _ => on_detail m).
  { eapply triple_exn; [apply triple_switch_to_detail | auto]. }
  intros _.
  eapply triple_bind
    with (R := fun (returned : bool) s =>
                 if returned then (on_listing m) s else (on_detail m) s).
  { eapply triple_exn; [apply (triple_captcha_check A N272) | intros s []]. }
  intros [|]; [apply triple_ret; auto|].
  eapply triple_bind with (R := fun _ => on_detail m).
  { eapply triple_exn with (E' := (on_detail m)); [|auto].
    destruct (contains _ _);
      [apply triple_click_reviews_tab | apply triple_ret; auto]. }
  intros _. eapply triple_bind with (R := fun _ => on_detail m).
  { eapply triple_exn; [apply triple_scroll | auto]. }
  intros _. eapply triple_bind with (R := fun _ => on_detail m).
  { eapply triple_exn;
      [apply (triple_extract_detailed_reviews A frame_on_detail) | auto]. }
  intros detailed. eapply triple_bind with (R := fun _ => on_detail m).
  { eapply triple_exn;
      [apply (triple_extend_recent detailed frame_on_detail) | auto]. }
  intros _. eapply triple_bind with (R := fun _ => tab_closed m).
  { eapply triple_exn; [apply triple_close | auto]. }
  intros _. rewrite N313. eapply triple_bind with (R := fun _ => on_listing m).
  { eapply triple_weaken with (P' := (tab_closed m));
      [apply triple_switch_to_main | auto | | intros s []].
    intros a s H; apply bound_listing; exact H. }
  intros _ s H. exact H.
Qed.

(** The handler brings the driver back from wherever the body raised. *)
Lemma triple_attempt_handler (A : AttemptWorld) :
  restores A ->
  triple (fun s => (on_listing m) s \/ (on_detail m) s) (attempt_handler A)
    (fun _ => on_listing m) (on_listing m).
Proof.
  intros (_ & _ & N321 & N322 & N323). unfold attempt_handler.
  rewrite N321, N322, N323.
  intros s H. unfold mbind, read_main_window, current_window_handle.
  destruct H as [(Hc & Ho & Hm) | (Ho & Hn & Ha & Hm)].
  - unfold alive. rewrite Hc, Ho.
    destruct Hm as [Hm|Hm]; rewrite Hm.
    + repeat split; auto.
    + rewrite Nat.eqb_refl. cbn. repeat split; auto.
  - rewrite Ha, Hm.
    replace (Nat.eqb (current (st_browser s)) m) with false
      by (symmetry; now apply Nat.eqb_neq).
    cbn [negb].
    destruct (close_alive _ Ha) as (b' & E & Hb').
    unfold driver_move at 1. rewrite E.
    assert (C : (tab_closed m) (set_browser b' s))
      by (split; cbn; [eapply close_keeps; eauto | exact Hm]).
    pose proof (@triple_switch_to_main _ C) as R.
    destruct (switch_to_main false (set_browser b' s)) as [s2 [[]|e]];
      [|contradiction].
    cbn. apply bound_listing; exact R.
Qed.

Lemma triple_attempt (A : AttemptWorld) :
  restores A ->
  triple (on_listing m) (attempt unicode_lower driver_args A)
    (fun _ => on_listing m) (on_listing m).
Proof.
  intros R. unfold attempt. eapply triple_try.
  - apply triple_attempt_try; exact R.
  - intros _. apply triple_attempt_handler; exact R.
Qed.

Lemma triple_attempts (W : nat -> AttemptWorld) (n k : nat) :
  (forall i, restores (W i)) ->
  triple (on_listing m) (attempts unicode_lower driver_args W k n)
    (fun _ => on_listing m) (on_listing m).
Proof.
  intros R. revert k; induction n as [|n IH]; intros k; cbn [attempts].
  - apply triple_ret; auto.
  - eapply triple_bind; [apply triple_attempt; apply R|].
    intros [| |]; [apply IH | apply triple_ret; auto | apply triple_ret; auto].
Qed.

Lemma triple_harvest (scrape_reviews : bool) (R : RowWorld) :
  (forall i, restores (attempt_world R i)) ->
  triple (on_listing m) (harvest unicode_lower driver_args scrape_reviews R)
    (fun _ => on_listing m) (on_listing m).
Proof.
  intros HR. unfold harvest.
  eapply triple_bind with (R := fun _ => on_listing m).
  { intros s H. unfold collect_inline_reviews.
    destruct (collect _ _ _ _ _) as [acc [|]];
      (eapply frame_on_listing; [| |exact H]; reflexivity). }
  intros _. eapply triple_bind with (R := fun _ => on_listing m).
  { intros s H. unfold collect_highlights.
    destruct (collect _ _ _ _ _) as [acc [|]];
      (eapply frame_on_listing; [| |exact H]; reflexivity). }
  intros _ s H.
  destruct (scrape_reviews && _); [|exact H].
  apply (@triple_attempts (attempt_world R) max_attempts 0 HR s H).
Qed.

Lemma finalize_browser (hotel_id : pystr) (s : hstate) :
  st_browser (finalize unicode_lower hotel_id s) = st_browser s.
Proof.
  unfold finalize. destruct (_ <? min_reviews); reflexivity.
Qed.

End NavigationFacts.

(** ** The harvester and the excerpt list *)

Section HarvestFacts.
Variable unicode_lower : pystr -> pystr.

Local Open Scope nat_scope.

(** *** The headless test of line 267 *)

(** No argument installed by [_setup_driver] equals ["--headless"]:
    the flag it installs is ["--headless=new"]. *)
Lemma count_headless_setup (headless : bool) :
  count (py "--headless") (setup_driver_args headless) = 0.
Proof. destruct headless; vm_compute; reflexivity. Qed.

(** So line 273 is never reached with the driver the scraper builds,
    headless or not. *)
Lemma captcha_check_never_returns (headless exposed : bool)
    (A : AttemptWorld) (s : hstate) :
  snd (captcha_check unicode_lower (options_args headless exposed) A s)
  = Ok false.
Proof.
  unfold captcha_check, try_catch, mbind, driver_call, lift, ret. cbn [orb].
  destruct (negb (alive (st_browser s))); [reflexivity|].
  destruct (page_source A) as [source|e]; [|reflexivity].
  destruct (existsb _ captcha_keywords); [|reflexivity].
  unfold options_args. destruct exposed; [|reflexivity].
  rewrite count_headless_setup. reflexivity.
Qed.

Lemma triple_true {A} (c : M A) :
  triple (fun _ => True) c (fun _ _ => True) (fun _ => True).
Proof. intros s _. destruct (c s) as [s' [a|e]]; exact I. Qed.

Lemma attempt_never_returns (headless exposed : bool) (A : AttemptWorld) :
  triple (fun _ => True)
    (attempt unicode_lower (options_args headless exposed) A)
    (fun f _ => f <> Return) (fun _ => True).
Proof.
  unfold attempt. apply triple_try with (E' := fun _ => True).
  - unfold attempt_try.
    eapply triple_bind with (R := fun _ _ => True); [apply triple_true|].
    intros [[|c url]|]; try (apply triple_ret; discriminate).
    eapply triple_bind with (R := fun _ _ => True); [apply triple_true|].
    intros _.
    eapply triple_bind with (R := fun _ _ => True); [apply triple_true|].
    intros _.
    eapply triple_bind with (R := fun _ _ => True); [apply triple_true|].
    intros _.
    eapply triple_bind with (R := fun (returned : bool) _ => returned = false).
    { intros s _. pose proof (captcha_check_never_returns headless exposed A s) as H.
      destruct (captcha_check _ _ A s) as [s' [r|e]]; cbn in H;
        [congruence | exact I]. }
    intros returned.
    destruct returned; [intros s H; discriminate H|].
    eapply triple_weaken with (P' := fun _ => True) (E' := fun _ => True);
      [|auto | intros a s H; exact H | auto].
    repeat (eapply triple_bind with (R := fun _ _ => True);
            [apply triple_true | intros ?]).
    intros s _. destruct (min_reviews <=? _); discriminate.
  - intros _. unfold attempt_handler.
    repeat (eapply triple_bind with (R := fun _ _ => True);
            [apply triple_true | intros ?]).
    apply triple_ret. discriminate.
Qed.

Lemma attempts_never_return (headless exposed : bool)
    (W : nat -> AttemptWorld) (n k : nat) :
  triple (fun _ => True)
    (attempts unicode_lower (options_args headless exposed) W k n)
    (fun f _ => f <> Return) (fun _ => True).
Proof.
  revert k; induction n as [|n IH]; intros k; cbn [attempts].
  - apply triple_ret. discriminate.
  - eapply triple_bind; [apply attempt_never_returns|].
    intros [| |].
    + eapply triple_weaken with (P' := fun _ => True); [apply IH | | |]; auto.
    + apply triple_ret. discriminate.
    + intros s H. now contradiction H.
Qed.

Lemma harvest_never_returns (headless exposed scrape_reviews : bool)
    (R : RowWorld) (s : hstate) :
  snd (harvest unicode_lower (options_args headless exposed) scrape_reviews R s)
  <> Ok Return.
Proof.
  assert (T : triple (fun _ => True)
                (harvest unicode_lower (options_args headless exposed)
                   scrape_reviews R)
                (fun f _ => f <> Return) (fun _ => True)).
  { unfold harvest.
    eapply triple_bind with (R := fun _ _ => True); [apply triple_true|].
    intros _.
    eapply triple_bind with (R := fun _ _ => True); [apply triple_true|].
    intros _ s0 _.
    destruct (scrape_reviews && _); [|discriminate].
    apply (@attempts_never_return headless exposed (attempt_world R)
             max_attempts 0 s0 I). }
  specialize (T s I).
  destruct (harvest _ _ _ R s) as [s' [f|e]]; cbn; congruence.
Qed.

(** With the driver the scraper builds, every call ends in the
    finalization. *)
Lemma extract_hotel_reviews_finalized (headless exposed scrape_reviews : bool)
    (hotel_id : pystr) (R : RowWorld) (b : browser)
    (all_reviews : list ReviewData) :
  extract_hotel_reviews unicode_lower (options_args headless exposed)
    scrape_reviews hotel_id R b all_reviews
  = let s' := finalize unicode_lower hotel_id
                (harvest_state unicode_lower (options_args headless exposed)
                   scrape_reviews R b all_reviews) in
    ((firstn min_reviews (st_recent s'), st_highlights s'),
     (st_browser s', st_all_reviews s')).
Proof.
  unfold extract_hotel_reviews, harvest_state.
  pose proof (@harvest_never_returns headless exposed scrape_reviews R
                {| st_browser := b; st_all_reviews := all_reviews;
                   st_recent := []; st_highlights := [];
                   st_main_window := None |}) as N.
  destruct (harvest _ _ _ R _) as [s [[| |]|e]]; cbn in *;
    try reflexivity. congruence.
Qed.

(** *** Finalization *)

Lemma valid_reviews_of_length (reviews : list pystr) :
  List.length (valid_reviews_of reviews) <= List.length reviews.
Proof. apply filter_length_le. Qed.

Lemma backfill_range_nil (valid : list pystr) :
  min_reviews <= List.length valid -> backfill_range valid = [].
Proof.
  intros H. unfold backfill_range.
  replace (min_reviews - List.length valid) with 0 by lia. reflexivity.
Qed.

(** The working list after the backfill. *)
Lemma finalize_recent (hotel_id : pystr) (s : hstate) :
  st_recent (finalize unicode_lower hotel_id s)
  = st_recent s
    ++ List.map placeholder_text (backfill_range (valid_reviews_of (st_recent s))).
Proof.
  unfold finalize.
  destruct (_ <? min_reviews) eqn:L;
    cbn [st_recent st_all_reviews set_all_reviews set_recent]; [reflexivity|].
  apply Nat.ltb_ge in L. rewrite backfill_range_nil by exact L.
  now rewrite app_nil_r.
Qed.

(** The review collection after the backfill. *)
Lemma finalize_all_reviews (hotel_id : pystr) (s : hstate) :
  st_all_reviews (finalize unicode_lower hotel_id s)
  = List.map
      (fun review =>
         if str_eqb (review_hotel_id review) hotel_id
         then set_sentiment
                (calculate_sentiment_score unicode_lower
                   (valid_reviews_of (st_recent s))) review
         else review)
      (st_all_reviews s
       ++ List.map (placeholder_record hotel_id)
            (backfill_range (valid_reviews_of (st_recent s)))).
Proof.
  unfold finalize.
  destruct (_ <? min_reviews) eqn:L;
    cbn [st_recent st_all_reviews set_all_reviews set_recent]; [reflexivity|].
  apply Nat.ltb_ge in L. rewrite backfill_range_nil by exact L.
  now rewrite app_nil_r.
Qed.

Lemma firstn_of_seq (n start len : nat) :
  firstn n (seq start len) = seq start (Nat.min n len).
Proof.
  revert start len; induction n as [|n IH]; intros start [|len];
    cbn; try reflexivity. now rewrite IH.
Qed.

(** The five entries handed to the record: the harvested excerpts
    first, placeholders only in the slots they leave. *)
Lemma finalize_firstn (hotel_id : pystr) (s : hstate) :
  firstn min_reviews (st_recent (finalize unicode_lower hotel_id s))
  = firstn min_reviews (st_recent s)
    ++ List.map placeholder_text
         (seq (List.length (valid_reviews_of (st_recent s)))
            (min_reviews - List.length (st_recent s))).
Proof.
  rewrite finalize_recent, firstn_app. f_equal.
  unfold backfill_range. rewrite firstn_map, firstn_of_seq. do 2 f_equal.
  pose proof (valid_reviews_of_length (st_recent s)). lia.
Qed.

Lemma finalize_length (hotel_id : pystr) (s : hstate) :
  List.length (firstn min_reviews (st_recent (finalize unicode_lower hotel_id s)))
  = min_reviews.
Proof.
  rewrite finalize_firstn, length_app, length_firstn, length_map, length_seq.
  lia.
Qed.

(** Every record of the hotel carries the score of the valid
    excerpts. *)
Lemma finalize_sentiment (hotel_id : pystr) (s : hstate) (x : ReviewData) :
  In x (st_all_reviews (finalize unicode_lower hotel_id s)) ->
  review_hotel_id x = hotel_id ->
  review_sentiment_score x
  = Some (calculate_sentiment_score unicode_lower
            (valid_reviews_of (st_recent s))).
Proof.
  rewrite finalize_all_reviews. intros H E. apply in_map_iff in H.
  destruct H as (y & Hy & _).
  destruct (str_eqb (review_hotel_id y) hotel_id) eqn:B.
  - subst x. reflexivity.
  - subst x. apply str_eqb_eq in E. congruence.
Qed.

End HarvestFacts.

(** ** Listing walker and pipeline driver *)

Section DriverFacts.
Variable unicode_lower : pystr -> pystr.
Variable nd_value : N -> option N.
Variable percent_decode : pystr -> pystr.
Variable netloc_rejected : pystr -> bool.
Variable pads_year : bool.
Variable driver_args : outcome (list pystr).
Variable scrape_reviews : bool.

Local Open Scope nat_scope.

(** A pass of the walker lets no exception through. *)
Lemma row_pass_ok (i : nat) (row : ListingRow) (T : temporal) (s : dstate) :
  exists f,
    snd (row_pass unicode_lower nd_value driver_args scrape_reviews i row T s)
    = Ok f.
Proof.
  unfold row_pass, try_catch.
  destruct (row_try _ _ _ _ i row T s) as [s' [f|e]]; cbn; eauto.
Qed.

Lemma walk_ok (P : PageWorld) (T : temporal) (n i : nat) (s : dstate) :
  snd (walk unicode_lower nd_value driver_args scrape_reviews P T i n s)
  = Ok tt.
Proof.
  revert i s; induction n as [|n IH]; intros i s; cbn [walk];
    [reflexivity|].
  unfold mbind. destruct (row_pass_ok i (rows P i) T s) as [f Hf].
  destruct (row_pass _ _ _ _ i (rows P i) T s) as [s' o].
  cbn in Hf. subst o.
  destruct f; [apply IH | reflexivity].
Qed.

(** On a closed window every pass fails at once and changes nothing. *)
Lemma row_pass_dead (i : nat) (row : ListingRow) (T : temporal) (s : dstate) :
  alive (d_browser s) = false ->
  row_pass unicode_lower nd_value driver_args scrape_reviews i row T s
  = (s, Ok RowNext).
Proof.
  intros H. unfold row_pass, try_catch, row_try. now rewrite H.
Qed.

Lemma walk_dead (P : PageWorld) (T : temporal) (n i : nat) (s : dstate) :
  alive (d_browser s) = false ->
  walk unicode_lower nd_value driver_args scrape_reviews P T i n s
  = (s, Ok tt).
Proof.
  intros H. revert i; induction n as [|n IH]; intros i; cbn [walk];
    [reflexivity|].
  unfold mbind. rewrite (row_pass_dead i (rows P i) T s H). apply IH.
Qed.

(** A row that cannot be located ends the walk. *)
Lemma row_pass_timeout (i : nat) (row : ListingRow) (T : temporal) (s : dstate) :
  locate row = Raise TimeoutException -> alive (d_browser s) = true ->
  row_pass unicode_lower nd_value driver_args scrape_reviews i row T s
  = (s, Ok RowBreak).
Proof.
  intros L H. unfold row_pass, try_catch, row_try. now rewrite H, L.
Qed.

Lemma walk_timeout (P : PageWorld) (T : temporal) (n i : nat) (s : dstate) :
  locate (rows P i) = Raise TimeoutException ->
  fst (walk unicode_lower nd_value driver_args scrape_reviews P T i n s) = s.
Proof.
  intros L. destruct (alive (d_browser s)) eqn:H.
  - destruct n; [reflexivity|]. cbn [walk]. unfold mbind.
    now rewrite (row_pass_timeout i (rows P i) T s L H).
  - now rewrite walk_dead.
Qed.

(** The walk over [k + n] positions is the walk over [k] when
    position [i + k] cannot be located. *)
Lemma walk_stops (P : PageWorld) (T : temporal) (k n i : nat) (s : dstate) :
  locate (rows P (i + k)) = Raise TimeoutException ->
  walk unicode_lower nd_value driver_args scrape_reviews P T i (k + n) s
  = walk unicode_lower nd_value driver_args scrape_reviews P T i k s.
Proof.
  revert i s; induction k as [|k IH]; intros i s L.
  - rewrite Nat.add_0_r in L. cbn [Nat.add walk].
    pose proof (walk_timeout P T n i s L) as F.
    pose proof (walk_ok P T n i s) as O.
    destruct (walk _ _ _ _ P T i n s) as [s' o]. cbn in *. now subst.
  - cbn [Nat.add walk]. unfold mbind.
    destruct (row_pass _ _ _ _ i (rows P i) T s) as [s' [[|]|e]];
      try reflexivity.
    apply IH. now rewrite Nat.add_succ_comm.
Qed.

(** A pass only appends to the collection. *)
Lemma row_pass_appends (i : nat) (row : ListingRow) (T : temporal) (s : dstate) :
  exists l,
    hotels_data
      (fst (row_pass unicode_lower nd_value driver_args scrape_reviews i row T s))
    = hotels_data s ++ l.
Proof.
  unfold row_pass, try_catch, row_try.
  destruct (if alive (d_browser s) then locate row else Raise OtherException)
    as [[]|[| |]]; cbn; try (exists []; now rewrite app_nil_r).
  unfold assemble.
  destruct (bind _ _)
    as [[[[[[[[name rating] reviews] desc] [[lo la] di]] shown] tax_v] star]|e];
    cbn; [|exists []; now rewrite app_nil_r].
  destruct (price_and_currency shown) as [pv cv].
  destruct (extract_hotel_reviews _ _ _ _ _ _ _) as [[recent highlights] [b all]].
  cbn. match goal with
       | |- context [if ?c then _ else _] => destruct c
       end; cbn; eexists; reflexivity.
Qed.

Lemma walk_appends (P : PageWorld) (T : temporal) (n i : nat) (s : dstate) :
  exists l,
    hotels_data
      (fst (walk unicode_lower nd_value driver_args scrape_reviews P T i n s))
    = hotels_data s ++ l.
Proof.
  revert i s; induction n as [|n IH]; intros i s; cbn [walk].
  - exists []. now rewrite app_nil_r.
  - unfold mbind. destruct (row_pass_appends i (rows P i) T s) as [l1 E1].
    destruct (row_pass _ _ _ _ i (rows P i) T s) as [s' [[|]|e]]; cbn in *.
    + destruct (IH (S i) s') as [l2 E2]. exists (l1 ++ l2).
      now rewrite E2, E1, app_assoc.
    + now exists l1.
    + now exists l1.
Qed.

(** What the first [k] positions gave is kept, whatever the positions
    after them do. *)
Lemma walk_keeps (P : PageWorld) (T : temporal) (k n i : nat) (s : dstate) :
  exists l,
    hotels_data
      (fst (walk unicode_lower nd_value driver_args scrape_reviews P T i (k + n) s))
    = hotels_data
        (fst (walk unicode_lower nd_value driver_args scrape_reviews P T i k s))
      ++ l.
Proof.
  revert i s; induction k as [|k IH]; intros i s.
  - cbn [Nat.add]. apply walk_appends.
  - cbn [Nat.add walk]. unfold mbind.
    destruct (row_pass _ _ _ _ i (rows P i) T s) as [s' [[|]|e]].
    + apply IH.
    + exists []. now rewrite app_nil_r.
    + exists []. now rewrite app_nil_r.
Qed.

End DriverFacts.

(* ================================================================== *)
(** * The specified properties *)
(* ================================================================== *)

Section HarvesterProperties.
Variable unicode_lower : pystr -> pystr.

Local Open Scope nat_scope.

(** C1: for every harvesting outcome of one listing row, with the
    driver the scraper builds (headless or not), the excerpt list
    returned by the harvester has length exactly 5; it consists of the
    harvested excerpts, in order and up to five of them, followed by
    placeholders only in the slots the harvested excerpts leave free;
    the backfill appends [5 - valid] placeholders, so none once five
    valid excerpts were harvested, and no harvested excerpt among the
    first five gives way to a placeholder. *)
Theorem C1_excerpts_always_five (headless exposed scrape_reviews : bool)
    (hotel_id : pystr) (R : RowWorld) (b : browser)
    (all_reviews : list ReviewData) :
  let args := options_args headless exposed in
  let collected := harvested unicode_lower args scrape_reviews R b all_reviews in
  let valid := valid_reviews_of collected in
  let reviews :=
    fst (fst (extract_hotel_reviews unicode_lower args scrape_reviews
                hotel_id R b all_reviews)) in
  List.length reviews = 5
  /\ reviews = firstn 5 collected
               ++ List.map placeholder_text
                    (seq (List.length valid) (5 - List.length collected))
  /\ List.length (backfill_range valid) = 5 - List.length valid
  /\ (5 <= List.length valid -> reviews = firstn 5 collected)
  /\ (forall i r, i < 5 -> nth_error collected i = Some r ->
                  nth_error reviews i = Some r).
Proof.
  intros args collected valid reviews.
  assert (E : reviews = firstn 5 collected
                        ++ List.map placeholder_text
                             (seq (List.length valid) (5 - List.length collected))).
  { unfold reviews, args. rewrite extract_hotel_reviews_finalized.
    cbn [fst snd]. apply finalize_firstn. }
  split; [|split; [exact E | split; [|split]]].
  - unfold reviews, args. rewrite extract_hotel_reviews_finalized.
    cbn [fst snd]. apply finalize_length.
  - unfold backfill_range. apply length_seq.
  - intros H. rewrite E.
    pose proof (valid_reviews_of_length collected). fold valid in H0.
    replace (5 - List.length collected) with 0 by lia.
    apply app_nil_r.
  - intros i r Hi Hr. rewrite E.
    rewrite nth_error_app1.
    + rewrite nth_error_firstn.
      replace (i <? 5) with true by (symmetry; now apply Nat.ltb_lt).
      exact Hr.
    + rewrite length_firstn.
      assert (i < List.length collected)
        by (apply nth_error_Some; congruence).
      lia.
Qed.

(** C2 (amended): on every exit path of the detail-page navigation --
    no link, success, CAPTCHA abort, or an exception raised by any call
    other than the restoring calls themselves (the switch back to the
    listing of lines 272 and 313 and the three calls of the cleanup
    handler) -- the driver is focused on the open listing window when
    the harvester returns. *)
Theorem C2_control_returns_to_listing (driver_args : outcome (list pystr))
    (scrape_reviews : bool) (hotel_id : pystr) (R : RowWorld) (b : browser)
    (all_reviews : list ReviewData) :
  alive b = true ->
  (forall i, restores (attempt_world R i)) ->
  let b' := fst (snd (extract_hotel_reviews unicode_lower driver_args
                        scrape_reviews hotel_id R b all_reviews)) in
  current b' = current b /\ alive b' = true.
Proof.
  intros Ha HR. cbv zeta. unfold extract_hotel_reviews.
  set (s0 := {| st_browser := b; st_all_reviews := all_reviews;
                st_recent := []; st_highlights := [];
                st_main_window := None |}).
  assert (H0 : on_listing (current b) s0)
    by (repeat split; [exact Ha | now left]).
  pose proof (@triple_harvest unicode_lower driver_args (current b)
                scrape_reviews R HR s0 H0) as T.
  assert (F : forall s, on_listing (current b) s ->
                current (st_browser s) = current b
                /\ alive (st_browser s) = true).
  { intros s (Hc & Ho & _). split; [exact Hc|]. unfold alive. now rewrite Hc. }
  destruct (harvest unicode_lower driver_args scrape_reviews R s0)
    as [s [[| |]|e]]; cbn [fst snd]; rewrite ?finalize_browser; apply F; exact T.
Qed.

End HarvesterProperties.

(** C1, at a row that shows two excerpts and whose detail page adds
    none. *)
Lemma C1_excerpts_always_five_witness :
  List.length
    (fst (fst (extract_hotel_reviews ascii_only_lower (options_args true true)
                 true (py "hotel_0_1762160000")
                 (row_of (firstn 2 five_reviews)
                    (detail_attempt plain_page [] false))
                 listing_only []))) = 5%nat.
Proof.
  exact (proj1 (C1_excerpts_always_five ascii_only_lower true true true
                  (py "hotel_0_1762160000")
                  (row_of (firstn 2 five_reviews)
                     (detail_attempt plain_page [] false))
                  listing_only [])).
Defined.

(** C2 as stated fails: the detail tab is closed, the switch back of
    line 313 raises, the handler's test asks for the handle of the
    closed window and raises in turn; the harvester returns with the
    driver focused on no open window. *)
Lemma C2_switch_back_failure_leaves_listing :
  let b' := fst (snd (extract_hotel_reviews ascii_only_lower
                        (options_args false true) true (py "hotel_0_1762160000")
                        (row_of [] (detail_attempt plain_page five_reviews true))
                        listing_only [])) in
  ~ (current b' = current listing_only /\ alive b' = true).
Proof. vm_compute. intros [H _]. discriminate H. Qed.

(** C2 (amended), at a row whose detail page is harvested without a
    fault. *)
Lemma C2_control_returns_to_listing_witness :
  let b' := fst (snd (extract_hotel_reviews ascii_only_lower
                        (options_args false true) true (py "hotel_0_1762160000")
                        (row_of [] (detail_attempt plain_page five_reviews false))
                        listing_only [])) in
  current b' = current listing_only /\ alive b' = true.
Proof.
  apply (C2_control_returns_to_listing ascii_only_lower (options_args false true)
           true (py "hotel_0_1762160000")
           (row_of [] (detail_attempt plain_page five_reviews false))
           listing_only []).
  - reflexivity.
  - intros i. repeat split; reflexivity.
Defined.

(** C3 (what the code does): in a headless session whose detail page
    shows a CAPTCHA marker the harvester does not abort.  The test of
    line 267 counts the arguments equal to ["--headless"], the driver
    was given ["--headless=new"], so the count is 0 (and reading the
    arguments raises when the driver does not expose them): the branch
    for interactive sessions runs and the excerpts of the detail page
    are harvested, here five of them, where an abort would have left the
    row with five placeholders. *)
Theorem C3_headless_captcha_is_not_aborted (exposed : bool) :
  let reviews :=
    fst (fst (extract_hotel_reviews ascii_only_lower (options_args true exposed)
                true (py "hotel_0_1762160000")
                (row_of [] (detail_attempt captcha_page five_reviews false))
                listing_only [])) in
  existsb (contains (lower ascii_only_lower captcha_page)) captcha_keywords = true
  /\ reviews = five_reviews
  /\ reviews <> List.map placeholder_text (seq 0 5).
Proof.
  destruct exposed; vm_compute; repeat split; try reflexivity; discriminate.
Qed.

(** The abort of lines 271-273, reached only by a driver whose
    arguments hold the literal ["--headless"], returns the working list
    as it is: the backfill of lines 332-347 is skipped and the row keeps
    fewer than five excerpts. *)
Lemma abort_path_skips_backfill :
  fst (fst (extract_hotel_reviews ascii_only_lower (Ok [py "--headless"])
              true (py "hotel_0_1762160000")
              (row_of (firstn 2 five_reviews)
                 (detail_attempt captcha_page five_reviews false))
              listing_only []))
  = firstn 2 five_reviews.
Proof. vm_compute. reflexivity. Qed.

(** C10 as stated fails: five excerpts are harvested, the last begins
    with the marker, so only four count as valid and one placeholder is
    appended to the working list; the record's sequence is the first
    five entries of that list, the five harvested excerpts, and holds no
    placeholder. *)
Lemma C10_record_gains_no_placeholder :
  let R := row_of marked_reviews (detail_attempt plain_page [] false) in
  let collected :=
    harvested ascii_only_lower (options_args false true) true R listing_only [] in
  let reviews :=
    fst (fst (extract_hotel_reviews ascii_only_lower (options_args false true)
                true (py "hotel_0_1762160000") R listing_only [])) in
  collected = marked_reviews
  /\ List.length (valid_reviews_of collected) = 4%nat
  /\ reviews = marked_reviews
  /\ ~ gains_placeholder collected reviews.
Proof.
  cbv zeta. repeat split; try (vm_compute; reflexivity).
  intros (i & Hi & Hin). vm_compute in Hi.
  destruct Hi as [<- | []]. vm_compute in Hin.
  repeat (destruct Hin as [Hin | Hin]; [discriminate Hin|]). exact Hin.
Qed.

Section PlaceholderProperties.
Variable unicode_lower : pystr -> pystr.
Variable nd_value : N -> option N.

Local Open Scope nat_scope.

(** C4: placeholder reviews are excluded from the hotel-level
    sentiment.  For every record the average sentiment score the
    numeric pass computes is the score of exactly the excerpts that do
    not begin with the marker "No review available"; a record with two
    valid excerpts and three placeholders gets the score of the two
    valid ones; and the score the harvester writes into the review
    records of the hotel is computed from the excerpts without the
    marker as well.  The pass computes the score unless [int] stops it
    before, at a review count whose first run of digits is longer than
    4300: the score is then left as it was, computed from no excerpt at
    all. *)
Theorem C4_placeholders_excluded_from_sentiment (h : HotelData)
    (v1 v2 p1 p2 p3 : pystr) (hotel_id : pystr) (s : hstate) :
  avg_sentiment_score (extract_numeric_features unicode_lower nd_value h)
  = (if count_within_limit nd_value (review_count h)
     then Some (calculate_sentiment_score unicode_lower
                  (valid_reviews_of (recent_reviews h)))
     else avg_sentiment_score h)
  /\ (forall r, In r (valid_reviews_of (recent_reviews h))
                <-> In r (recent_reviews h)
                    /\ startswith r placeholder_marker = false)
  /\ (count_within_limit nd_value (review_count h) = true ->
      recent_reviews h = [v1; v2; p1; p2; p3] ->
      is_placeholder v1 = false -> is_placeholder v2 = false ->
      is_placeholder p1 = true -> is_placeholder p2 = true ->
      is_placeholder p3 = true ->
      avg_sentiment_score (extract_numeric_features unicode_lower nd_value h)
      = Some (calculate_sentiment_score unicode_lower [v1; v2]))
  /\ (forall x, In x (st_all_reviews (finalize unicode_lower hotel_id s)) ->
                review_hotel_id x = hotel_id ->
                review_sentiment_score x
                = Some (calculate_sentiment_score unicode_lower
                          (valid_reviews_of (st_recent s)))).
Proof.
  assert (A : avg_sentiment_score
                (extract_numeric_features unicode_lower nd_value h)
              = if count_within_limit nd_value (review_count h)
                then Some (calculate_sentiment_score unicode_lower
                             (valid_reviews_of (recent_reviews h)))
                else avg_sentiment_score h)
    by (rewrite extract_numeric_features_eq;
        destruct (count_within_limit nd_value (review_count h)); reflexivity).
  split; [exact A | split; [|split]].
  - intros r. unfold valid_reviews_of, is_placeholder.
    rewrite filter_In, negb_true_iff. reflexivity.
  - intros W E V1 V2 P1 P2 P3. rewrite A, W, E. unfold valid_reviews_of.
    cbn [filter]. now rewrite V1, V2, P1, P2, P3.
  - intros x. apply finalize_sentiment.
Qed.

(** C10 (amended): placeholder detection is a text-prefix test.  The
    excerpts counted as valid are exactly the harvested ones that do
    not begin with "No review available", whether harvested or
    synthetic; they alone enter the sentiment of the review records and
    of the listing record (which the numeric pass computes unless
    [int] stops it before, at a review count of more than 4300 digits,
    and then leaves as it was); and their number alone decides the
    backfill: [5 - valid] placeholders are appended to the working
    list and as many placeholder records to the review collection,
    also when five or more excerpts were harvested.  The record's
    excerpt sequence is the first five entries of the working list: it
    shows a placeholder only in a slot no harvested excerpt fills, and
    none once five excerpts were harvested. *)
Theorem C10_marker_prefix_decides_validity (headless exposed scrape_reviews : bool)
    (hotel_id : pystr) (R : RowWorld) (b : browser)
    (all_reviews : list ReviewData) (h : HotelData) :
  let args := options_args headless exposed in
  let s := harvest_state unicode_lower args scrape_reviews R b all_reviews in
  let collected := harvested unicode_lower args scrape_reviews R b all_reviews in
  let valid := valid_reviews_of collected in
  let score := calculate_sentiment_score unicode_lower valid in
  let result := extract_hotel_reviews unicode_lower args scrape_reviews
                  hotel_id R b all_reviews in
  (forall r, In r valid
             <-> In r collected /\ startswith r placeholder_marker = false)
  /\ (forall x, In x (snd (snd result)) -> review_hotel_id x = hotel_id ->
                review_sentiment_score x = Some score)
  /\ avg_sentiment_score (extract_numeric_features unicode_lower nd_value h)
     = (if count_within_limit nd_value (review_count h)
        then Some (calculate_sentiment_score unicode_lower
                     (valid_reviews_of (recent_reviews h)))
        else avg_sentiment_score h)
  /\ st_recent (finalize unicode_lower hotel_id s)
     = collected
       ++ List.map placeholder_text
            (seq (List.length valid) (5 - List.length valid))
  /\ (exists before,
        snd (snd result)
        = before
          ++ List.map (fun i => set_sentiment score (placeholder_record hotel_id i))
               (seq (List.length valid) (5 - List.length valid)))
  /\ fst (fst result)
     = firstn 5 collected
       ++ List.map placeholder_text
            (seq (List.length valid) (5 - List.length collected))
  /\ (5 <= List.length collected -> fst (fst result) = firstn 5 collected).
Proof.
  intros args s collected valid score result.
  assert (E : result
              = ((firstn min_reviews (st_recent (finalize unicode_lower hotel_id s)),
                  st_highlights (finalize unicode_lower hotel_id s)),
                 (st_browser (finalize unicode_lower hotel_id s),
                  st_all_reviews (finalize unicode_lower hotel_id s))))
    by apply extract_hotel_reviews_finalized.
  assert (F : fst (fst result)
              = firstn 5 collected
                ++ List.map placeholder_text
                     (seq (List.length valid) (5 - List.length collected)))
    by (rewrite E; apply finalize_firstn).
  repeat split.
  - unfold valid, valid_reviews_of, is_placeholder in H.
    apply filter_In in H. tauto.
  - unfold valid, valid_reviews_of, is_placeholder in H.
    apply filter_In in H. destruct H as [_ H]. now apply negb_true_iff in H.
  - intros [H1 H2]. unfold valid, valid_reviews_of, is_placeholder.
    apply filter_In. split; [exact H1 | now rewrite H2].
  - intros x. rewrite E. cbn [snd]. apply finalize_sentiment.
  - rewrite extract_numeric_features_eq.
    destruct (count_within_limit nd_value (review_count h)); reflexivity.
  - apply finalize_recent.
  - rewrite E. cbn [snd]. rewrite finalize_all_reviews, map_app. eexists.
    f_equal. rewrite map_map. apply map_ext. intros i.
    cbn [review_hotel_id placeholder_record]. now rewrite str_eqb_refl.
  - exact F.
  - intros L. rewrite F. replace (5 - List.length collected) with 0 by lia.
    apply app_nil_r.
Qed.

End PlaceholderProperties.

(** C4, at a record with two valid excerpts and three placeholders. *)
Lemma C4_placeholders_excluded_from_sentiment_witness :
  let reviews := firstn 2 five_reviews ++ List.map placeholder_text [2; 3; 4]%nat in
  avg_sentiment_score
    (extract_numeric_features ascii_only_lower ascii_only_digits
       (listing_record (py "5,499") (py "2,048 reviews") (py "4.3") reviews))
  = Some (calculate_sentiment_score ascii_only_lower (firstn 2 five_reviews)).
Proof.
  cbv zeta.
  apply (proj1 (proj2 (proj2
           (C4_placeholders_excluded_from_sentiment ascii_only_lower
              ascii_only_digits
              (listing_record (py "5,499") (py "2,048 reviews") (py "4.3")
                 (firstn 2 five_reviews ++ List.map placeholder_text [2; 3; 4]%nat))
              (nth 0 five_reviews []) (nth 1 five_reviews [])
              (placeholder_text 2) (placeholder_text 3) (placeholder_text 4)
              [] {| st_browser := listing_only; st_all_reviews := [];
                    st_recent := []; st_highlights := [];
                    st_main_window := None |}))));
    reflexivity.
Defined.

(** C10 (amended), at the row of five excerpts of which one begins with
    the marker: one placeholder joins the working list, none the
    record. *)
Lemma C10_marker_prefix_decides_validity_witness :
  let R := row_of marked_reviews (detail_attempt plain_page [] false) in
  fst (fst (extract_hotel_reviews ascii_only_lower (options_args false true)
              true (py "hotel_0_1762160000") R listing_only []))
  = firstn 5 (harvested ascii_only_lower (options_args false true) true R
                listing_only []).
Proof.
  cbv zeta.
  apply (proj2 (proj2 (proj2 (proj2 (proj2 (proj2
           (C10_marker_prefix_decides_validity ascii_only_lower ascii_only_digits
              false true true (py "hotel_0_1762160000")
              (row_of marked_reviews (detail_attempt plain_page [] false))
              listing_only []
              (listing_record [] [] [] []))))))));
    vm_compute; lia.
Defined.

Section FeatureProperties.
Variable unicode_lower : pystr -> pystr.
Variable nd_value : N -> option N.

(** C5: for every list of review texts the sentiment score is the sum
    over all tokens of all reviews (tokens lower-cased and
    whitespace-split; +1 for a token of the positive set, -1 for a
    token of the negative set) divided by the number of tokens, times
    10, clamped to [-1, 1] -- and 0 when there is no token; it lies in
    [-1, 1]; the empty list scores exactly 0; and a single review
    whose tokens are all positive-set words, at least one of them,
    scores strictly more than 0. *)
Theorem C5_sentiment_score (reviews : list pystr) (review : pystr) :
  calculate_sentiment_score unicode_lower reviews
  = sentiment_spec unicode_lower reviews
  /\ (tokens unicode_lower reviews <> [] ->
      calculate_sentiment_score unicode_lower reviews
      = clamp (inject_Z (token_sum (tokens unicode_lower reviews))
               / inject_Z (Z.of_nat (List.length (tokens unicode_lower reviews)))
               * 10))
  /\ (-1 <= calculate_sentiment_score unicode_lower reviews
      /\ calculate_sentiment_score unicode_lower reviews <= 1)
  /\ calculate_sentiment_score unicode_lower [] = 0
  /\ (words_of unicode_lower review <> [] ->
      Forall (fun w => In w positive_words) (words_of unicode_lower review) ->
      0 < calculate_sentiment_score unicode_lower [review]).
Proof.
  split; [apply calculate_sentiment_score_tokens|].
  split; [|split; [apply calculate_sentiment_score_bounds | split; [reflexivity|]]].
  - intros H. rewrite calculate_sentiment_score_tokens.
    destruct (tokens unicode_lower reviews); [contradiction | reflexivity].
  - intros Hne Hpos. rewrite calculate_sentiment_score_tokens.
    cbn [tokens flat_map]. rewrite app_nil_r.
    destruct (words_of unicode_lower review) as [|w ws] eqn:W; [contradiction|].
    rewrite (token_sum_all_positive Hpos). apply clamp_pos.
    set (n := Z.of_nat (List.length (w :: ws))).
    assert (Hn : (0 < n)%Z) by (unfold n; cbn [List.length]; lia).
    assert (Hq : inject_Z 0 < inject_Z n) by (rewrite <- Zlt_Qlt; exact Hn).
    change (inject_Z 0) with 0 in Hq.
    apply Qmult_lt_0_compat; [|reflexivity].
    apply Qlt_shift_div_l; [exact Hq|]. now rewrite Qmult_0_l.
Qed.

(** C7: numeric normalization takes the first run of digits.  The
    numeric price and the numeric review count are the value of the
    first run of digits of the text once its commas are deleted, the
    numeric rating is the value of the first match of digits with an
    optional decimal part, whose integer part is the first run of
    digits of the text.  So "1,234" gives 1234.0, "2,048 reviews"
    gives 2048, "4.3 out of 5" gives 4.3; and a numeric field is absent
    exactly when its text holds no digit, never a made-up zero.  The
    count and the rating are assigned when [int] converts the run of
    the count, that is unless the run has more than 4300 digits: they
    then keep the value they had.  So a count without a digit is absent
    in every case, and so is a rating without a digit that was absent
    before the pass, as it is in the record the walker builds. *)
Theorem C7_numeric_normalization (h : HotelData) :
  let h' := extract_numeric_features unicode_lower nd_value h in
  let fits := count_within_limit nd_value (review_count h) in
  (price_numeric h'
   = option_map (fun run => inject_Z (run_value nd_value run))
       (head (findall_digits nd_value (remove_char comma (price h))))
   /\ review_count_numeric h'
      = (if fits
         then option_map (run_value nd_value)
                (head (findall_digits nd_value
                         (remove_char comma (review_count h))))
         else review_count_numeric h)
   /\ rating_numeric h'
      = (if fits
         then option_map (decimal_value nd_value)
                (head (findall_decimals nd_value (user_rating h)))
         else rating_numeric h)
   /\ option_map (fun run => fst (cut_at_dot run))
        (head (findall_decimals nd_value (user_rating h)))
      = head (findall_digits nd_value (user_rating h)))
  /\ ((price h = py "1,234" -> price_numeric h' = Some 1234)
      /\ (review_count h = py "2,048 reviews" ->
          review_count_numeric h' = Some 2048%Z)
      /\ (fits = true -> user_rating h = py "4.3 out of 5" ->
          rating_numeric h' = Some 4.3))
  /\ ((price_numeric h' = None
       <-> Forall (fun c => is_digit nd_value c = false) (price h))
      /\ (fits = true ->
          (review_count_numeric h' = None
           <-> Forall (fun c => is_digit nd_value c = false) (review_count h)))
      /\ (fits = true ->
          (rating_numeric h' = None
           <-> Forall (fun c => is_digit nd_value c = false) (user_rating h))))
  /\ ((Forall (fun c => is_digit nd_value c = false) (review_count h) ->
       review_count_numeric h' = None)
      /\ (rating_numeric h = None ->
          Forall (fun c => is_digit nd_value c = false) (user_rating h) ->
          rating_numeric h' = None)).
Proof.
  cbv zeta. rewrite extract_numeric_features_eq.
  split; [|split; [|split]]; cycle 3.
  - split.
    + intros H.
      assert (E : head (findall_digits nd_value
                          (remove_char comma (review_count h))) = None)
        by (apply head_runs_none_iff; now apply no_digit_stripped_iff).
      unfold count_within_limit. rewrite E. reflexivity.
    + intros N H. destruct (count_within_limit nd_value (review_count h));
        cbn [rating_numeric with_derived]; [|exact N].
      apply option_map_none_iff. now apply head_decimals_none_iff.
  - destruct (count_within_limit nd_value (review_count h));
      cbn [price_numeric review_count_numeric rating_numeric with_derived];
      repeat split; try reflexivity; apply first_decimal_first_run.
  - split; [|split].
    + intros E. destruct (count_within_limit nd_value (review_count h));
        cbn [price_numeric with_derived]; rewrite E; vm_compute; reflexivity.
    + intros E. rewrite E.
      replace (count_within_limit nd_value (py "2,048 reviews")) with true
        by (vm_compute; reflexivity).
      cbn [review_count_numeric with_derived]. vm_compute. reflexivity.
    + intros W E. rewrite W. cbn [rating_numeric with_derived]. rewrite E.
      vm_compute. reflexivity.
  - split; [|split; intros W; rewrite W];
      cbn [price_numeric review_count_numeric rating_numeric with_derived];
      [destruct (count_within_limit nd_value (review_count h));
       cbn [price_numeric with_derived]| |];
      split; intros H.
    + apply option_map_none_iff in H. apply head_runs_none_iff in H.
      now apply no_digit_stripped_iff.
    + apply option_map_none_iff. apply head_runs_none_iff.
      now apply no_digit_stripped_iff.
    + apply option_map_none_iff in H. apply head_runs_none_iff in H.
      now apply no_digit_stripped_iff.
    + apply option_map_none_iff. apply head_runs_none_iff.
      now apply no_digit_stripped_iff.
    + apply option_map_none_iff in H. apply head_runs_none_iff in H.
      now apply no_digit_stripped_iff.
    + apply option_map_none_iff. apply head_runs_none_iff.
      now apply no_digit_stripped_iff.
    + apply option_map_none_iff in H. now apply head_decimals_none_iff.
    + apply option_map_none_iff. now apply head_decimals_none_iff.
Qed.

End FeatureProperties.

(** C5, at a review made of two positive-set words in mixed case. *)
Lemma C5_sentiment_score_witness :
  0 < calculate_sentiment_score ascii_only_lower [py "Great  CLEAN"].
Proof.
  apply (proj2 (proj2 (proj2 (proj2
           (C5_sentiment_score ascii_only_lower [] (py "Great  CLEAN")))))).
  - vm_compute. discriminate.
  - repeat constructor; apply str_in_In; vm_compute; reflexivity.
Defined.

(** C7, at the three texts of the specification. *)
Lemma C7_numeric_normalization_witness :
  let h' := extract_numeric_features ascii_only_lower ascii_only_digits
              (listing_record (py "1,234") (py "2,048 reviews")
                 (py "4.3 out of 5") []) in
  price_numeric h' = Some 1234
  /\ review_count_numeric h' = Some 2048%Z
  /\ rating_numeric h' = Some 4.3.
Proof.
  cbv zeta.
  pose proof (proj1 (proj2
                (C7_numeric_normalization ascii_only_lower ascii_only_digits
                   (listing_record (py "1,234") (py "2,048 reviews")
                      (py "4.3 out of 5") [])))) as (P & C & G).
  split; [apply P | split; [apply C | apply G]]; reflexivity.
Defined.

Section TemporalProperties.
Variable nd_value : N -> option N.
Variable percent_decode : pystr -> pystr.
Variable netloc_rejected : pystr -> bool.
Variable pads_year : bool.

Local Open Scope Z_scope.

Lemma temporal_try_scenario (now : datetime) :
  on now = july_first ->
  temporal_try nd_value percent_decode netloc_rejected pads_year now scenario_url
  = Ok {| t_search_date := py "2025-07-01";
          t_checkin_date := py "2025-08-02";
          t_checkout_date := py "2025-08-03";
          t_days_ahead := days_between (midnight august_second) now;
          t_day_of_week := py "Saturday";
          t_season := py "Summer" |}.
Proof.
  destruct now as [d us]. cbn [on]. intros ->.
  unfold temporal_try. destruct pads_year; lazy -[days_between]; reflexivity.
Qed.

Lemma days_between_scenario (us : Z) :
  0 <= us < microseconds_per_day ->
  days_between (midnight august_second) {| on := july_first; micros := us |}
  = if us =? 0 then 32 else 31.
Proof.
  intros H. unfold days_between. cbn [on micros midnight].
  replace (toordinal august_second - toordinal july_first) with 32
    by (vm_compute; reflexivity).
  unfold microseconds_per_day in *.
  destruct (us =? 0) eqn:E.
  - apply Z.eqb_eq in E. subst us. vm_compute. reflexivity.
  - apply Z.eqb_neq in E. symmetry.
    apply Z.div_unique with (r := 86400 * 1000000 - us); lia.
Qed.

(** C6 (what the code does): for the URL with checkin=08022025 and
    checkout=08032025 read on 2025-07-01, the check-in date is
    "2025-08-02", the weekday "Saturday" and the season "Summer"; the
    lead time is 32 only when the clock reads midnight exactly and 31
    at every other instant of that day, because the clock reading
    keeps its time of day and the difference is cut down to whole
    days. *)
Theorem C6_lead_time_depends_on_time_of_day (us : Z) (later : datetime) :
  0 <= us < microseconds_per_day ->
  extract_temporal_features nd_value percent_decode netloc_rejected
    pads_year
    {| on := july_first; micros := us |} later scenario_url
  = {| t_search_date := py "2025-07-01";
       t_checkin_date := py "2025-08-02";
       t_checkout_date := py "2025-08-03";
       t_days_ahead := if us =? 0 then 32 else 31;
       t_day_of_week := py "Saturday";
       t_season := py "Summer" |}.
Proof.
  intros H. unfold extract_temporal_features.
  rewrite temporal_try_scenario by reflexivity.
  now rewrite days_between_scenario.
Qed.

End TemporalProperties.

(** C6 at noon of 2025-07-01: the lead time is 31 days. *)
Lemma C6_lead_time_depends_on_time_of_day_witness :
  t_days_ahead
    (extract_temporal_features ascii_only_digits ascii_only_lower
       every_host_accepted unpadded_years
       {| on := july_first; micros := 12 * 3600 * 1000000 |}
       {| on := july_first; micros := 12 * 3600 * 1000000 |} scenario_url)
  = 31%Z.
Proof.
  rewrite (C6_lead_time_depends_on_time_of_day ascii_only_digits ascii_only_lower
             every_host_accepted unpadded_years
             (us := 12 * 3600 * 1000000)
             {| on := july_first; micros := 12 * 3600 * 1000000 |}).
  - reflexivity.
  - vm_compute. split; [discriminate | reflexivity].
Defined.

Section DriverProperties.
Variable unicode_lower : pystr -> pystr.
Variable nd_value : N -> option N.
Variable percent_decode : pystr -> pystr.
Variable netloc_rejected : pystr -> bool.
Variable pads_year : bool.
Variable driver_args : outcome (list pystr).
Variable scrape_reviews : bool.

Local Open Scope nat_scope.

(** C8 (what the code does): for a row whose shown price is the rupee
    sign followed by "5,499", the record keeps the price text with its
    sign, its currency code is the empty string, not "INR", and its
    numeric price is 5499.0 (the rupee sign being no decimal digit).
    The prefix line 618 compares with is not the rupee sign but the
    three characters its UTF-8 bytes give when read as
    Windows-1252. *)
Theorem C8_rupee_price_gets_no_currency (i : nat) (row : ListingRow)
    (T : temporal) (s s' : dstate) (h : HotelData) :
  nd_value rupee_sign = None ->
  text_by_id row (py "hlistpg_hotel_shown_price") = Ok rupee_price ->
  assemble unicode_lower driver_args scrape_reviews i row T s = (s', Ok h) ->
  currency h = []
  /\ price h = rupee_price
  /\ price_numeric (extract_numeric_features unicode_lower nd_value h)
     = Some 5499%Q.
Proof.
  intros Hr Hp Ha. unfold assemble in Ha. rewrite Hp in Ha.
  destruct (safe_extract (text_by_id row (py "hlistpg_hotel_name")));
    [|discriminate Ha].
  destruct (safe_extract (text_by_id row (py "hlistpg_hotel_user_rating")));
    [|discriminate Ha].
  destruct (safe_extract (text_by_id row (py "hlistpg_hotel_reviews_count")));
    [|discriminate Ha].
  destruct (first_found (rating_desc_text row) 0 2); [|discriminate Ha].
  destruct (location_info row) as [[[lo la] di]|]; [|discriminate Ha].
  replace (safe_extract (Ok rupee_price)) with (Ok rupee_price) in Ha
    by (vm_compute; reflexivity).
  destruct (tax_of (tax_text row)); [|discriminate Ha].
  destruct (star_rating_of (star_content row)); [|discriminate Ha].
  cbn [bind] in Ha.
  replace (price_and_currency rupee_price) with (rupee_price, @nil N) in Ha
    by (vm_compute; reflexivity).
  destruct (extract_hotel_reviews _ _ _ _ _ _ _) as [[recent highlights] [b all]].
  inversion Ha; subst; clear Ha.
  rewrite extract_numeric_features_eq.
  destruct (count_within_limit nd_value _);
    cbn [currency price price_numeric with_derived];
    repeat split; unfold rupee_price, rupee_sign in *;
    cbv; rewrite Hr; reflexivity.
Qed.

(** The driver in closed form: the walk runs when the page loads, and
    the collection is returned in either case. *)
Lemma scrape_hotel_data_eq (P : PageWorld) (mmt_url : pystr) (max_hotels : nat)
    (b : browser) (all_reviews : list ReviewData) :
  let s0 := {| d_browser := b; d_all_reviews := all_reviews;
               hotels_data := [] |} in
  let s := match (if alive b then load P else Raise OtherException) with
           | Ok _ =>
               fst (walk unicode_lower nd_value driver_args scrape_reviews P
                      (extract_temporal_features nd_value percent_decode netloc_rejected
                         pads_year
                         (now P) (later P) mmt_url) 0 max_hotels s0)
           | Raise _ => s0
           end in
  scrape_hotel_data unicode_lower nd_value percent_decode netloc_rejected
    pads_year driver_args
    scrape_reviews P mmt_url max_hotels b all_reviews
  = (s, Ok (hotels_data s)).
Proof.
  cbv zeta. unfold scrape_hotel_data, scrape_try, mbind, try_catch, ret.
  cbn [d_browser].
  destruct (if alive b then load P else Raise OtherException) as [[]|e];
    [|reflexivity].
  pose proof (walk_ok unicode_lower nd_value driver_args scrape_reviews P
                (extract_temporal_features nd_value percent_decode netloc_rejected
                   pads_year
                   (now P) (later P) mmt_url) max_hotels 0
                {| d_browser := b; d_all_reviews := all_reviews;
                   hotels_data := [] |}) as O.
  destruct (walk _ _ _ _ P _ 0 max_hotels _) as [s o]. cbn in O. subst o.
  reflexivity.
Qed.

(** C9: the pipeline driver never raises and returns the collection as
    it stands.  When no row is located at position 0 the walk stops at
    once and the empty collection is returned; when the page load
    fails the empty collection is returned; and a position that cannot
    be located ends the walk, whatever the row budget: the records of
    the positions before it are returned and nothing else.  What the
    first positions gave is part of what is returned, whatever the
    later positions do. *)
Theorem C9_driver_returns_the_collection (P : PageWorld) (mmt_url : pystr)
    (max_hotels : nat) (b : browser) (all_reviews : list ReviewData)
    (k n : nat) :
  let run := fun budget =>
    scrape_hotel_data unicode_lower nd_value percent_decode netloc_rejected
      pads_year driver_args
      scrape_reviews P mmt_url budget b all_reviews in
  snd (run max_hotels) = Ok (hotels_data (fst (run max_hotels)))
  /\ (locate (rows P 0) = Raise TimeoutException ->
      snd (run max_hotels) = Ok [])
  /\ (forall e, load P = Raise e -> snd (run max_hotels) = Ok [])
  /\ (locate (rows P k) = Raise TimeoutException -> run (k + n) = run k)
  /\ (exists more,
        snd (run (k + n)) = Ok (hotels_data (fst (run k)) ++ more)).
Proof.
  cbv beta zeta. rewrite !scrape_hotel_data_eq. cbv zeta. cbn [fst snd].
  split; [reflexivity|].
  split.
  { intros L.
    destruct (if alive b then load P else Raise OtherException) as [[]|e];
      [|reflexivity].
    now rewrite walk_timeout. }
  split.
  { intros e L. rewrite L. destruct (alive b); reflexivity. }
  split.
  { intros L.
    destruct (if alive b then load P else Raise OtherException) as [[]|e];
      [|reflexivity].
    now rewrite walk_stops. }
  destruct (if alive b then load P else Raise OtherException) as [[]|e];
    [|exists []; reflexivity].
  destruct (walk_keeps unicode_lower nd_value driver_args scrape_reviews P
              (extract_temporal_features nd_value percent_decode netloc_rejected
                 pads_year
                 (now P) (later P) mmt_url) k n 0
              {| d_browser := b; d_all_reviews := all_reviews;
                 hotels_data := [] |}) as [more E].
  exists more. now rewrite E.
Qed.

End DriverProperties.

(** C8, at the first row of a page: the record is assembled with an
    empty currency code. *)
Lemma C8_rupee_price_gets_no_currency_witness :
  snd rupee_row_assembled = Ok rupee_record
  /\ currency rupee_record = []
  /\ price rupee_record = rupee_price
  /\ price_numeric
       (extract_numeric_features ascii_only_lower ascii_only_digits rupee_record)
     = Some 5499%Q.
Proof.
  split; [vm_compute; reflexivity|].
  apply (C8_rupee_price_gets_no_currency ascii_only_lower ascii_only_digits
           (options_args false true) true 0
           (priced_row rupee_price
              (row_of five_reviews (detail_attempt plain_page [] false)))
           (extract_temporal_features ascii_only_digits ascii_only_lower
              every_host_accepted unpadded_years
              {| on := july_first; micros := 0 |}
              {| on := july_first; micros := 0 |} scenario_url)
           {| d_browser := listing_only; d_all_reviews := []; hotels_data := [] |}
           (s' := fst rupee_row_assembled)).
  - reflexivity.
  - reflexivity.
  - vm_compute. reflexivity.
Defined.

(** C9, at a page on which no row is located at position 0. *)
Lemma C9_driver_returns_the_collection_witness :
  snd (scrape_hotel_data ascii_only_lower ascii_only_digits ascii_only_lower
         every_host_accepted unpadded_years
         (options_args false true) true (page_of 0 absent_row) scenario_url 50
         listing_only [])
  = Ok [].
Proof.
  apply (proj1 (proj2
           (C9_driver_returns_the_collection ascii_only_lower ascii_only_digits
              ascii_only_lower every_host_accepted unpadded_years
              (options_args false true) true
              (page_of 0 absent_row) scenario_url 50 listing_only [] 0 0))).
  reflexivity.
Defined.

(* ================================================================== *)
(** * Further properties of the code *)
(* ================================================================== *)

(** ** Sentiment scoring: what the score depends on *)

Section SentimentLaws.
Variable unicode_lower : pystr -> pystr.

Local Open Scope Z_scope.

Lemma token_sum_permutation (a b : list pystr) :
  Permutation a b -> token_sum a = token_sum b.
Proof.
  unfold token_sum. induction 1; cbn [fold_right]; lia.
Qed.

(** The score as a function of the token list alone. *)
Lemma score_of_tokens (reviews : list pystr) :
  calculate_sentiment_score unicode_lower reviews
  = if Z.of_nat (List.length (tokens unicode_lower reviews)) =? 0 then 0%Q
    else clamp (inject_Z (token_sum (tokens unicode_lower reviews))
                / inject_Z (Z.of_nat (List.length (tokens unicode_lower reviews)))
                * 10)%Q.
Proof.
  rewrite calculate_sentiment_score_tokens.
  destruct (tokens unicode_lower reviews); reflexivity.
Qed.

Lemma tokens_app (a b : list pystr) :
  tokens unicode_lower (a ++ b)
  = tokens unicode_lower a ++ tokens unicode_lower b.
Proof. unfold tokens. apply flat_map_app. Qed.

Lemma tokens_permutation (a b : list pystr) :
  Permutation a b ->
  Permutation (tokens unicode_lower a) (tokens unicode_lower b).
Proof.
  induction 1; cbn [tokens flat_map].
  - constructor.
  - now apply Permutation_app_head.
  - rewrite !app_assoc. apply Permutation_app_tail. apply Permutation_app_comm.
  - eapply perm_trans; eassumption.
Qed.

(** X1: the score depends on the reviews only through the tokens they
    hold, whatever their order: two inputs with the same tokens up to
    order score the same.  So the order of the reviews does not matter,
    and a review without a word (empty or blank) changes nothing. *)
Theorem X1_score_depends_on_tokens_only (reviews reviews' : list pystr)
    (before after : list pystr) (blank : pystr) :
  (Permutation (tokens unicode_lower reviews) (tokens unicode_lower reviews') ->
   calculate_sentiment_score unicode_lower reviews
   = calculate_sentiment_score unicode_lower reviews')
  /\ (Permutation reviews reviews' ->
      calculate_sentiment_score unicode_lower reviews
      = calculate_sentiment_score unicode_lower reviews')
  /\ (words_of unicode_lower blank = [] ->
      calculate_sentiment_score unicode_lower (before ++ blank :: after)
      = calculate_sentiment_score unicode_lower (before ++ after)).
Proof.
  assert (T : forall a b,
             Permutation (tokens unicode_lower a) (tokens unicode_lower b) ->
             calculate_sentiment_score unicode_lower a
             = calculate_sentiment_score unicode_lower b).
  { intros a b H. rewrite !score_of_tokens.
    rewrite (token_sum_permutation H), (Permutation_length H). reflexivity. }
  split; [apply T | split].
  - intros H. apply T. now apply tokens_permutation.
  - intros H. apply T. rewrite !tokens_app. cbn [tokens flat_map].
    rewrite H. reflexivity.
Qed.

Lemma scaled_ratio (s n : Z) :
  (0 < n)%Z ->
  (inject_Z s / inject_Z n * 10 == inject_Z (10 * s) / inject_Z n)%Q.
Proof.
  intros H. rewrite inject_Z_mult. field.
  intros E. unfold Qeq in E. cbn in E. lia.
Qed.

Lemma clamp_high (x : Q) : (1 <= x)%Q -> (clamp x == 1)%Q.
Proof.
  intros H. unfold clamp.
  rewrite (Q.min_l 1 x H). apply Q.max_r. discriminate.
Qed.

Lemma clamp_low (x : Q) : (x <= -1)%Q -> (clamp x == -1)%Q.
Proof.
  intros H. unfold clamp.
  assert (L : (x <= 1)%Q) by (eapply Qle_trans; [exact H | discriminate]).
  rewrite (Q.min_r 1 x L). apply Q.max_l. exact H.
Qed.

Lemma clamp_inside (x : Q) : (-1 <= x)%Q -> (x <= 1)%Q -> (clamp x == x)%Q.
Proof.
  intros L H. unfold clamp. rewrite (Q.min_r 1 x H). apply Q.max_r. exact L.
Qed.

(** X2: the scale factor 10 saturates the score early.  With [n] tokens
    of which the positive ones outnumber the negative ones by [s] (or
    the reverse, [s] negative): the score is 1 as soon as [10 * s >= n]
    (one net positive word in ten), -1 as soon as [10 * s <= -n], and
    exactly [10 * s / n] in between. *)
Theorem X2_score_saturates (reviews : list pystr) :
  let ws := tokens unicode_lower reviews in
  let n := Z.of_nat (List.length ws) in
  let s := token_sum ws in
  ws <> [] ->
  (n <= 10 * s ->
   (calculate_sentiment_score unicode_lower reviews == 1)%Q)
  /\ (10 * s <= - n ->
      (calculate_sentiment_score unicode_lower reviews == -1)%Q)
  /\ (- n <= 10 * s <= n ->
      (calculate_sentiment_score unicode_lower reviews
       == inject_Z (10 * s) / inject_Z n)%Q).
Proof.
  intros ws n s Hne. rewrite score_of_tokens. fold ws. fold n. fold s.
  assert (Hn : 0 < n).
  { unfold n. destruct ws; [contradiction | cbn [List.length]; lia]. }
  replace (n =? 0) with false by (symmetry; apply Z.eqb_neq; lia).
  assert (Hq : (0 < inject_Z n)%Q)
    by (change 0%Q with (inject_Z 0); rewrite <- Zlt_Qlt; exact Hn).
  pose proof (scaled_ratio s Hn) as R.
  split; [|split].
  - intros H. apply clamp_high. rewrite R.
    apply Qle_shift_div_l; [exact Hq|]. rewrite Qmult_1_l.
    rewrite <- Zle_Qle. exact H.
  - intros H. apply clamp_low. rewrite R.
    apply Qle_shift_div_r; [exact Hq|].
    change (-1)%Q with (inject_Z (-1)). rewrite <- inject_Z_mult.
    rewrite <- Zle_Qle. lia.
  - intros [L H]. rewrite <- R. apply clamp_inside; rewrite R.
    + apply Qle_shift_div_l; [exact Hq|].
      change (-1)%Q with (inject_Z (-1)). rewrite <- inject_Z_mult.
      rewrite <- Zle_Qle. lia.
    + apply Qle_shift_div_r; [exact Hq|]. rewrite Qmult_1_l.
      rewrite <- Zle_Qle. exact H.
Qed.

(** X3: only a token made of lower-case ASCII letters alone can score.
    A word of the two sets that carries a punctuation mark, a digit or
    any other character (as in "great!" or "clean,") counts as a token
    and adds nothing to the sum. *)
Theorem X3_only_plain_words_score (w : pystr) :
  token_value w <> 0 ->
  forallb (fun c => (97 <=? c)%N && (c <=? 122)%N) w = true.
Proof.
  intros H.
  assert (I : In w positive_words \/ In w negative_words).
  { unfold token_value in H.
    destruct (str_in w positive_words) eqn:P;
      [left; now apply str_in_In|].
    destruct (str_in w negative_words) eqn:Q;
      [right; now apply str_in_In | contradiction H; reflexivity]. }
  destruct I as [I|I]; unfold positive_words, negative_words in I;
    cbn [List.map In] in I;
    repeat (destruct I as [<- | I]; [vm_compute; reflexivity|]);
    contradiction.
Qed.

Lemma lower_ascii (r : pystr) :
  forallb is_ascii r = true ->
  lower unicode_lower r = List.map ascii_lower r.
Proof. intros H. unfold lower. now rewrite H. Qed.

(** X4: on ASCII text the score does not see the case of the letters:
    two lists of ASCII reviews that agree once lower-cased score the
    same, whatever table is used outside ASCII. *)
Theorem X4_score_ignores_ascii_case (reviews reviews' : list pystr) :
  Forall (fun r => forallb is_ascii r = true) reviews ->
  Forall (fun r => forallb is_ascii r = true) reviews' ->
  List.map (List.map ascii_lower) reviews
  = List.map (List.map ascii_lower) reviews' ->
  calculate_sentiment_score unicode_lower reviews
  = calculate_sentiment_score unicode_lower reviews'.
Proof.
  intros A A' E.
  assert (T : tokens unicode_lower reviews = tokens unicode_lower reviews').
  { revert reviews' A' E. induction A as [|r rs Hr _ IH];
      intros [|r' rs'] A' E; try discriminate E; [reflexivity|].
    inversion A' as [|? ? Hr' Hrs']; subst. inversion E as [[E1 E2]].
    cbn [tokens flat_map]. unfold words_of.
    rewrite (lower_ascii r Hr), (lower_ascii r' Hr'), E1.
    f_equal. apply IH; assumption. }
  rewrite !score_of_tokens, T. reflexivity.
Qed.

End SentimentLaws.

(** ** The numeric pass over a record *)

Section NumericLaws.
Variable unicode_lower : pystr -> pystr.
Variable nd_value : N -> option N.

Lemma with_derived_own (h : HotelData) :
  with_derived h (price_numeric h) (review_count_numeric h) (rating_numeric h)
    (star_rating_numeric h) (avg_sentiment_score h) = h.
Proof. destruct h; reflexivity. Qed.

Lemma extract_numeric_features_again (h : HotelData) :
  extract_numeric_features unicode_lower nd_value
    (extract_numeric_features unicode_lower nd_value h)
  = extract_numeric_features unicode_lower nd_value h.
Proof.
  rewrite !extract_numeric_features_eq.
  destruct h; cbn [review_count].
  destruct (count_within_limit nd_value review_count0) eqn:W;
    cbn [review_count with_derived]; rewrite W; cbn;
    try destruct star_rating0; reflexivity.
Qed.

(** X5: [extract_numeric_features] writes the five derived fields and
    nothing else (putting their old values back gives the record it was
    given), and running it a second time changes nothing. *)
Theorem X5_numeric_pass_is_idempotent (h : HotelData) :
  let h' := extract_numeric_features unicode_lower nd_value h in
  extract_numeric_features unicode_lower nd_value h' = h'
  /\ with_derived h' (price_numeric h) (review_count_numeric h)
       (rating_numeric h) (star_rating_numeric h) (avg_sentiment_score h) = h.
Proof.
  cbv zeta. split; [apply extract_numeric_features_again|].
  rewrite extract_numeric_features_eq.
  destruct (count_within_limit nd_value (review_count h));
    destruct h; reflexivity.
Qed.

(** X6: the star count and the one way the numeric pass stops short.
    When [int] converts the first run of digits of the review count (a
    run of at most 4300 digits, or none), the pass reaches the star
    rating: if the star marker is not empty the star count is the number
    of characters of the marker, whatever they are (a marker "5" counts
    1), and with an empty marker the count is left as it was.  When the
    run is longer, [int] raises and the pass stops there: the review
    count, the rating, the star count and the sentiment keep the values
    they had. *)
Theorem X6_star_count_is_marker_length (h : HotelData) :
  let h' := extract_numeric_features unicode_lower nd_value h in
  (count_within_limit nd_value (review_count h) = true ->
   star_rating_numeric h'
   = match star_rating h with
     | [] => star_rating_numeric h
     | _ => Some (Z.of_nat (List.length (star_rating h)))
     end
   /\ (star_rating h <> [] ->
       exists n, (0 < n)%Z /\ star_rating_numeric h' = Some n))
  /\ (count_within_limit nd_value (review_count h) = false ->
      review_count_numeric h' = review_count_numeric h
      /\ rating_numeric h' = rating_numeric h
      /\ star_rating_numeric h' = star_rating_numeric h
      /\ avg_sentiment_score h' = avg_sentiment_score h).
Proof.
  cbv zeta. rewrite extract_numeric_features_eq. split; intros W; rewrite W.
  - cbn [star_rating_numeric with_derived]. split; [reflexivity|]. intros H.
    destruct (star_rating h) as [|c s]; [contradiction|].
    eexists. split; [|reflexivity]. cbn [List.length]. lia.
  - repeat split.
Qed.

Lemma runs_from_prefix (keep : N -> bool) (ip : pystr) (c : N) (rest cur : pystr) :
  Forall (fun x => keep x = true) ip -> keep c = false ->
  rev cur ++ ip <> [] ->
  runs_from keep cur (ip ++ c :: rest)
  = (rev cur ++ ip) :: runs_from keep [] rest.
Proof.
  intros H K. revert cur. induction H as [|x ip Hx _ IH]; intros cur Hne.
  - cbn [app runs_from]. rewrite K. rewrite app_nil_r in *.
    destruct cur as [|y cur]; [contradiction Hne; reflexivity | reflexivity].
  - cbn [app runs_from]. rewrite Hx. rewrite (IH (x :: cur)).
    + cbn [rev]. now rewrite <- app_assoc.
    + cbn [rev]. rewrite <- app_assoc. cbn. intros E.
      apply app_eq_nil in E. destruct E as [_ E]. discriminate E.
Qed.

Lemma remove_comma_digits (ip : pystr) :
  Forall (fun x => is_digit nd_value x = true) ip -> remove_char comma ip = ip.
Proof.
  induction 1 as [|x ip Hx _ IH]; [reflexivity|].
  unfold remove_char in *. cbn [filter].
  destruct (N.eqb x comma) eqn:E.
  - apply N.eqb_eq in E. subst x. vm_compute in Hx. discriminate Hx.
  - cbn [negb]. now rewrite IH.
Qed.

(** The price is assigned whether or not the pass completes. *)
Lemma extract_numeric_features_price (h : HotelData) :
  price_numeric (extract_numeric_features unicode_lower nd_value h)
  = option_map (fun m => inject_Z (run_value nd_value m))
      (head (findall_digits nd_value (remove_char comma (price h)))).
Proof.
  rewrite extract_numeric_features_eq.
  destruct (count_within_limit nd_value (review_count h)); reflexivity.
Qed.

(** X7: the numeric price never has a fractional part.  It is absent
    or a whole number, and a price written with decimals, digits then a
    dot then anything, gives the number before the dot: the pattern
    [[\d,]+] stops at the dot. *)
Theorem X7_price_drops_decimals (h : HotelData) (ip rest : pystr) :
  let h' := extract_numeric_features unicode_lower nd_value h in
  (price_numeric h' = None
   \/ exists z, (0 <= z)%Z /\ price_numeric h' = Some (inject_Z z))
  /\ (ip <> [] -> Forall (fun x => is_digit nd_value x = true) ip ->
      price h = ip ++ dot :: rest ->
      price_numeric h' = Some (inject_Z (run_value nd_value ip))).
Proof.
  cbv zeta. rewrite extract_numeric_features_price. split.
  - destruct (head _) as [m|]; [right | left; reflexivity].
    exists (run_value nd_value m). split; [|reflexivity].
    unfold run_value. destruct (digits_value nd_value 0 m); lia.
  - intros Hne Hd E. rewrite E. unfold remove_char. rewrite filter_app.
    fold (remove_char comma ip). rewrite (remove_comma_digits Hd).
    cbn [filter]. replace (N.eqb dot comma) with false by reflexivity.
    cbn [negb]. unfold findall_digits, runs.
    rewrite runs_from_prefix; [reflexivity | exact Hd | reflexivity|].
    cbn [rev app]. exact Hne.
Qed.

End NumericLaws.

(** ** Numbers written in decimal *)

Section DecimalTexts.
Variable nd_value : N -> option N.

Local Open Scope nat_scope.

Lemma py_inj (a a' : string) : py a = py a' -> a = a'.
Proof.
  unfold py. intros E.
  rewrite <- (string_of_list_ascii_of_string a),
          <- (string_of_list_ascii_of_string a').
  f_equal. revert E. generalize (list_ascii_of_string a) as l.
  generalize (list_ascii_of_string a') as l'.
  induction l' as [|x l' IH]; intros [|y l]; cbn [List.map];
    try discriminate; [reflexivity|].
  intros [= E1 E2]. f_equal; [|apply IH; exact E2].
  rewrite <- (ascii_N_embedding y), <- (ascii_N_embedding x). now rewrite E1.
Qed.

Lemma unorm_not_nil (d : Decimal.uint) : Decimal.unorm d <> Decimal.Nil.
Proof.
  unfold Decimal.unorm. destruct (Decimal.nzhead d); discriminate.
Qed.

Lemma to_uint_not_nil (n : nat) : Nat.to_uint n <> Decimal.Nil.
Proof.
  rewrite <- (DecimalNat.Unsigned.of_to n) at 1.
  rewrite DecimalNat.Unsigned.to_of. apply unorm_not_nil.
Qed.

Lemma str_of_nat_inj (n n' : nat) : str_of_nat n = str_of_nat n' -> n = n'.
Proof.
  unfold str_of_nat. intros E. apply py_inj in E.
  apply DecimalNat.Unsigned.to_uint_inj.
  pose proof (NilZero.usu _ (to_uint_not_nil n)) as U.
  pose proof (NilZero.usu _ (to_uint_not_nil n')) as U'.
  rewrite E in U. rewrite U in U'. now injection U'.
Qed.

Lemma digits_no_underscore (d : Decimal.uint) :
  ~ In 95%N (py (NilEmpty.string_of_uint d)).
Proof.
  induction d; cbn; intros H; try contradiction;
    destruct H as [H|H]; try discriminate H; auto.
Qed.

Lemma str_of_nat_no_underscore (n : nat) : ~ In 95%N (str_of_nat n).
Proof.
  unfold str_of_nat, NilZero.string_of_uint.
  destruct (Nat.to_uint n) eqn:E; try (rewrite <- E; apply digits_no_underscore).
  cbn. intros [H|[]]. discriminate H.
Qed.

Lemma str_of_nat_digits (n : nat) :
  str_of_nat n = py (NilEmpty.string_of_uint (Nat.to_uint n)).
Proof.
  unfold str_of_nat, NilZero.string_of_uint.
  pose proof (to_uint_not_nil n) as N.
  destruct (Nat.to_uint n); try reflexivity. contradiction N. reflexivity.
Qed.

Lemma digits_text_length (d : Decimal.uint) :
  List.length (py (NilEmpty.string_of_uint d)) = Decimal.nb_digits d.
Proof.
  unfold py.
  induction d;
    cbn [NilEmpty.string_of_uint list_ascii_of_string List.map List.length
         Decimal.nb_digits];
    congruence.
Qed.

Lemma nb_digits_succ (d : Decimal.uint) :
  Decimal.nb_digits d <= Decimal.nb_digits (Decimal.Little.succ d).
Proof. induction d; cbn [Decimal.Little.succ Decimal.nb_digits]; lia. Qed.

Lemma nb_digits_to_lu (n m : nat) :
  n <= m ->
  Decimal.nb_digits (DecimalNat.Unsigned.to_lu n)
  <= Decimal.nb_digits (DecimalNat.Unsigned.to_lu m).
Proof.
  induction 1 as [|m _ IH]; [lia|].
  rewrite DecimalNat.Unsigned.to_lu_succ.
  pose proof (nb_digits_succ (DecimalNat.Unsigned.to_lu m)). lia.
Qed.

(** A number below ten thousand is written with one to four digits. *)
Lemma str_of_nat_length (n : nat) :
  n <= 99 * 101 -> 1 <= List.length (str_of_nat n) <= 4.
Proof.
  intros H. rewrite str_of_nat_digits, digits_text_length.
  rewrite DecimalNat.Unsigned.to_uint_alt, DecimalFacts.nb_digits_rev.
  pose proof (@nb_digits_to_lu n (99 * 101) H) as U.
  pose proof (@nb_digits_to_lu 0 n (Nat.le_0_l n)) as L.
  replace (Decimal.nb_digits (DecimalNat.Unsigned.to_lu (99 * 101))) with 4
    in U by (vm_compute; reflexivity).
  replace (Decimal.nb_digits (DecimalNat.Unsigned.to_lu 0)) with 1
    in L by (vm_compute; reflexivity).
  lia.
Qed.

(** Reading the digits written for a number gives the number back. *)
Lemma digits_text_value (d : Decimal.uint) (acc : N) :
  digits_value nd_value acc (py (NilEmpty.string_of_uint d))
  = Some (N.of_nat (Nat.of_uint_acc d (N.to_nat acc))).
Proof.
  unfold py. revert acc.
  induction d; intros acc;
    cbn [NilEmpty.string_of_uint list_ascii_of_string List.map digits_value
         Nat.of_uint_acc];
    [now rewrite N2Nat.id|..];
    match goal with
    | |- context [digit_value ?nd (N_of_ascii ?c)] =>
        let v := eval vm_compute in (digit_value nd (N_of_ascii c)) in
        change (digit_value nd (N_of_ascii c)) with v
    end;
    cbv beta iota; rewrite IHd, Nat.tail_mul_spec;
    apply f_equal, f_equal, f_equal; lia.
Qed.

Lemma digits_value_zeros (k : nat) (s : pystr) :
  digits_value nd_value 0 (repeat 48%N k ++ s) = digits_value nd_value 0 s.
Proof.
  induction k as [|k IH]; [reflexivity|].
  cbn [repeat app digits_value]. exact IH.
Qed.

(** A year of the calendar is written with exactly four characters,
    which read back as the year. *)
Lemma year_text (y : Z) :
  (0 <= y <= 9999)%Z ->
  exists a b c e,
    zero_padded 4 y = [a; b; c; e]
    /\ digits_value nd_value 0 [a; b; c; e] = Some (Z.to_N y).
Proof.
  intros R.
  assert (L : List.length (zero_padded 4 y) = 4).
  { unfold zero_padded. rewrite length_app, repeat_length.
    pose proof (@str_of_nat_length (Z.to_nat y)). lia. }
  assert (V : digits_value nd_value 0 (zero_padded 4 y) = Some (Z.to_N y)).
  { unfold zero_padded.
    rewrite digits_value_zeros, str_of_nat_digits, digits_text_value.
    change (Nat.of_uint_acc (Nat.to_uint (Z.to_nat y)) (N.to_nat 0))
      with (Nat.of_uint (Nat.to_uint (Z.to_nat y))).
    rewrite DecimalNat.Unsigned.of_to. f_equal. lia. }
  destruct (zero_padded 4 y) as [|a [|b [|c [|e [|x l]]]]]; try discriminate L.
  exists a, b, c, e. split; [reflexivity | exact V].
Qed.

(** From one thousand on a year takes four digits; below, at most
    three. *)
Lemma str_of_nat_four (n : nat) :
  10 * 100 <= n <= 99 * 101 -> List.length (str_of_nat n) = 4.
Proof.
  intros [L U]. pose proof (@str_of_nat_length n U) as B. revert B.
  rewrite str_of_nat_digits, digits_text_length.
  rewrite DecimalNat.Unsigned.to_uint_alt, DecimalFacts.nb_digits_rev.
  pose proof (@nb_digits_to_lu (10 * 100) n L) as A.
  replace (Decimal.nb_digits (DecimalNat.Unsigned.to_lu (10 * 100))) with 4
    in A by (vm_compute; reflexivity).
  lia.
Qed.

Lemma str_of_nat_short (n : nat) :
  n <= 999 -> 1 <= List.length (str_of_nat n) <= 3.
Proof.
  intros U. rewrite str_of_nat_digits, digits_text_length.
  rewrite DecimalNat.Unsigned.to_uint_alt, DecimalFacts.nb_digits_rev.
  pose proof (@nb_digits_to_lu n 999 U) as A.
  pose proof (@nb_digits_to_lu 0 n (Nat.le_0_l n)) as L.
  replace (Decimal.nb_digits (DecimalNat.Unsigned.to_lu 999)) with 3
    in A by (vm_compute; reflexivity).
  replace (Decimal.nb_digits (DecimalNat.Unsigned.to_lu 0)) with 1
    in L by (vm_compute; reflexivity).
  lia.
Qed.

End DecimalTexts.

(** ** Dates: reading and writing *)

Section TemporalLaws.
Variable nd_value : N -> option N.
Variable percent_decode : pystr -> pystr.
Variable netloc_rejected : pystr -> bool.
Variable pads_year : bool.

Local Open Scope Z_scope.

Lemma lit_step (c : N) (fmt : list directive) (rest : pystr)
  (f : fields) (remaining : pystr) :
  match_format nd_value fmt rest = Some (f, remaining) ->
  match_format nd_value (DirLit c :: fmt) (c :: rest) = Some (f, remaining).
Proof.
  intros H. cbn [match_format candidates]. rewrite N.eqb_refl, H. reflexivity.
Qed.

Lemma month_step (m : Z) (fmt : list directive) (rest : pystr)
  (f : fields) (remaining : pystr) :
  1 <= m <= 12 ->
  match_format nd_value fmt rest = Some (f, remaining) ->
  match_format nd_value (DirM :: fmt) (zero_padded 2 m ++ rest)
  = Some (put DirM m f, remaining).
Proof.
  intros R H. destruct m as [|p|p]; try lia.
  do 4 (try (destruct p as [p|p|]; try lia));
    cbn [match_format];
    match goal with
    | |- context [candidates ?nd ?d ?s] =>
        let t := eval vm_compute in (candidates nd d s) in
        change (candidates nd d s) with t
    end;
    cbv beta iota fix; rewrite H; reflexivity.
Qed.

Lemma day_step (d : Z) (fmt : list directive) (rest : pystr)
  (f : fields) (remaining : pystr) :
  1 <= d <= 31 ->
  match_format nd_value fmt rest = Some (f, remaining) ->
  match_format nd_value (DirD :: fmt) (zero_padded 2 d ++ rest)
  = Some (put DirD d f, remaining).
Proof.
  intros R H. destruct d as [|p|p]; try lia.
  do 5 (try (destruct p as [p|p|]; try lia));
    cbn [match_format];
    match goal with
    | |- context [candidates ?nd ?d ?s] =>
        let t := eval vm_compute in (candidates nd d s) in
        change (candidates nd d s) with t
    end;
    cbv beta iota fix; rewrite H; reflexivity.
Qed.

Lemma year_step (y : Z) (fmt : list directive) (rest : pystr)
  (f : fields) (remaining : pystr) :
  1 <= y <= 9999 ->
  match_format nd_value fmt rest = Some (f, remaining) ->
  match_format nd_value (DirY :: fmt) (zero_padded 4 y ++ rest)
  = Some (put DirY y f, remaining).
Proof.
  intros R H.
  destruct (@year_text nd_value y) as (a & b & c & e & E & V); [lia|].
  rewrite E. cbn [app match_format candidates]. rewrite V, H.
  rewrite Z2N.id by lia. reflexivity.
Qed.

Lemma days_in_month_le (y m : Z) : days_in_month y m <= 31.
Proof.
  unfold days_in_month.
  destruct (m =? 2); [destruct (is_leap y); lia|].
  destruct ((m =? 4) || (m =? 6) || (m =? 9) || (m =? 11))%bool; lia.
Qed.

Lemma make_date_ok (y m d : Z) (dt : date) :
  make_date y m d = Ok dt ->
  dt = {| year := y; month := m; day := d |}
  /\ 1 <= y <= 9999 /\ 1 <= m <= 12 /\ 1 <= d <= 31.
Proof.
  unfold make_date.
  destruct ((1 <=? y) && (y <=? 9999) && (1 <=? m) && (m <=? 12)
            && (1 <=? d) && (d <=? days_in_month y m))%bool eqn:E;
    [|discriminate].
  intros [= <-]. rewrite !andb_true_iff, !Z.leb_le in E.
  pose proof (days_in_month_le y m). repeat split; lia.
Qed.

Lemma strptime_mdY_padded (y m d : Z) (dt : date) :
  make_date y m d = Ok dt ->
  strptime nd_value format_mdY
    (zero_padded 2 m ++ zero_padded 2 d ++ zero_padded 4 y) = Ok dt.
Proof.
  intros H. pose proof H as B. apply make_date_ok in B.
  destruct B as (_ & Ry & Rm & Rd).
  unfold strptime, format_mdY.
  rewrite <- (app_nil_r (zero_padded 4 y)).
  erewrite month_step;
    [| exact Rm
     | apply day_step; [exact Rd | apply year_step; [exact Ry | reflexivity]]].
  cbn [put fY fM fD]. exact H.
Qed.

(** The year as written takes four digits when the platform pads it
    and from the year 1000 on. *)
Lemma strftime_Y_four (y : Z) :
  1 <= y <= 9999 -> pads_year = true \/ 1000 <= y ->
  strftime_Y pads_year y = zero_padded 4 y.
Proof.
  intros R H. unfold strftime_Y.
  destruct pads_year; [reflexivity|].
  destruct H as [H|H]; [discriminate H|].
  unfold zero_padded. rewrite str_of_nat_four by lia. reflexivity.
Qed.

(** A year written with fewer than four digits is not read as a year:
    the hyphen that follows is among the four characters [%Y] takes. *)
Lemma year_unread (y : Z) (fmt : list directive) (rest : pystr) :
  y < 1000 ->
  match_format nd_value (DirY :: fmt)
    (str_of_nat (Z.to_nat y) ++ 45%N :: rest) = None.
Proof.
  intros R. pose proof (@str_of_nat_short (Z.to_nat y)) as L.
  cbn [match_format].
  replace (candidates nd_value DirY (str_of_nat (Z.to_nat y) ++ 45%N :: rest))
    with (@nil (Z * pystr)); [reflexivity|].
  destruct (str_of_nat (Z.to_nat y)) as [|a [|b [|c [|e l]]]];
    cbn [List.length] in L; try lia; cbn [app candidates].
  - destruct rest as [|x [|z r]]; try reflexivity.
    cbn [digits_value]. destruct (digit_value nd_value a); reflexivity.
  - destruct rest as [|x r]; try reflexivity.
    cbn [digits_value]. destruct (digit_value nd_value a); [|reflexivity].
    destruct (digit_value nd_value b); reflexivity.
  - cbn [digits_value]. destruct (digit_value nd_value a); [|reflexivity].
    destruct (digit_value nd_value b); [|reflexivity].
    destruct (digit_value nd_value c); reflexivity.
Qed.

Lemma strptime_Ymd_unpadded (dt : date) :
  year dt < 1000 ->
  strptime nd_value format_Ymd (strftime_ymd false dt) = Raise OtherException.
Proof.
  intros R. unfold strptime, format_Ymd, strftime_ymd, strftime_Y.
  change (py "-") with [45%N]. cbn [app].
  rewrite year_unread by exact R. reflexivity.
Qed.

Lemma strptime_Ymd_strftime (dt : date) :
  make_date (year dt) (month dt) (day dt) = Ok dt ->
  pads_year = true \/ 1000 <= year dt ->
  strptime nd_value format_Ymd (strftime_ymd pads_year dt) = Ok dt.
Proof.
  intros H W. pose proof H as B. apply make_date_ok in B.
  destruct B as (_ & Ry & Rm & Rd).
  unfold strptime, format_Ymd, strftime_ymd.
  rewrite strftime_Y_four by assumption.
  rewrite <- (app_nil_r (zero_padded 2 (day dt))).
  change (py "-") with [45%N]. cbn [app].
  erewrite year_step;
    [| exact Ry
     | apply lit_step, month_step;
       [exact Rm | apply lit_step, day_step; [exact Rd | reflexivity]]].
  cbn [put fY fM fD]. exact H.
Qed.

Lemma strptime_valid (fmt : list directive) (s : pystr) (dt : date) :
  strptime nd_value fmt s = Ok dt ->
  make_date (year dt) (month dt) (day dt) = Ok dt.
Proof.
  unfold strptime.
  destruct (match_format nd_value fmt s) as [[f [|x r]]|]; try discriminate.
  intros H. pose proof H as B. apply make_date_ok in B.
  destruct B as (E & _). rewrite E at 1 2 3.
  cbn [year month day]. exact H.
Qed.

(** X8: a day of the calendar written as the URL writes it (two digits
    of month, two of day, four of year) is read back by
    [strptime(..., '%m%d%Y')] as that day.  The text
    [strftime('%Y-%m-%d')] writes for a day is read back by
    [strptime(..., '%Y-%m-%d')] as the same day when the year is
    written with four digits: on a platform that pads the year, and on
    every platform from the year 1000 on.  Where the year is written
    without padding, the text written for a day before the year 1000 is
    not read back: [strptime] raises. *)
Theorem X8_written_dates_read_back (y m d : Z) (dt : date) :
  make_date y m d = Ok dt ->
  strptime nd_value format_mdY
    (zero_padded 2 m ++ zero_padded 2 d ++ zero_padded 4 y) = Ok dt
  /\ (pads_year = true \/ 1000 <= y ->
      strptime nd_value format_Ymd (strftime_ymd pads_year dt) = Ok dt)
  /\ (pads_year = false -> y < 1000 ->
      strptime nd_value format_Ymd (strftime_ymd pads_year dt)
      = Raise OtherException).
Proof.
  intros H. split; [apply strptime_mdY_padded; exact H|].
  pose proof H as B. apply make_date_ok in B.
  destruct B as (E & _). subst dt. cbn [year] in *. split.
  - intros W. apply strptime_Ymd_strftime; [exact H | exact W].
  - intros -> W. apply strptime_Ymd_unpadded. exact W.
Qed.

Lemma strptime_mdY_nonempty (s : pystr) (dt : date) :
  strptime nd_value format_mdY s = Ok dt -> s <> [].
Proof. intros H E. subst s. discriminate H. Qed.

Lemma strftime_ymd_nonempty (dt : date) : strftime_ymd pads_year dt <> [].
Proof.
  unfold strftime_ymd. intros E. apply app_eq_nil in E.
  destruct E as [_ E]. discriminate E.
Qed.

(** X9: when [urlparse] accepts the URL and the [checkin] and
    [checkout] parameters both parse, the result is determined by the
    two days read and the clock.  If the check-in year is written with
    four digits (the platform pads the year, or the year is 1000 or
    later), both dates are rewritten as YYYY-MM-DD, the weekday and
    season are those of the check-in day, and the lead time is the whole
    days from the clock reading to the midnight that starts the
    check-in day; the check-out day is not compared with the check-in
    day, and the clock of the handler is not consulted.  If the
    check-in year is written with fewer digits, the rewritten date is
    not read back and the handler gives the defaults, with the search
    date of its own clock. *)
Theorem X9_parsed_dates_determine_the_result
  (now later : datetime) (url query : pystr) (ci co : date) :
  url_query netloc_rejected url = Ok query ->
  let params := parse_qsl percent_decode query in
  strptime nd_value format_mdY (first_value (py "checkin") params) = Ok ci ->
  strptime nd_value format_mdY (first_value (py "checkout") params) = Ok co ->
  (pads_year = true \/ 1000 <= year ci ->
   extract_temporal_features nd_value percent_decode netloc_rejected
     pads_year now later url
   = {| t_search_date := strftime_ymd pads_year (on now);
        t_checkin_date := strftime_ymd pads_year ci;
        t_checkout_date := strftime_ymd pads_year co;
        t_days_ahead := days_between (midnight ci) now;
        t_day_of_week := strftime_A ci;
        t_season := season_of (month ci) |})
  /\ (pads_year = false -> year ci < 1000 ->
      extract_temporal_features nd_value percent_decode netloc_rejected
        pads_year now later url
      = {| t_search_date := strftime_ymd pads_year (on later);
           t_checkin_date := []; t_checkout_date := [];
           t_days_ahead := 0; t_day_of_week := []; t_season := [] |}).
Proof.
  cbv zeta. intros Q H1 H2.
  pose proof (strptime_mdY_nonempty H1) as N1.
  pose proof (strptime_mdY_nonempty H2) as N2.
  pose proof (strftime_ymd_nonempty ci) as N3.
  unfold extract_temporal_features, temporal_try.
  rewrite Q. cbn [bind].
  destruct (first_value (py "checkin") _) as [|a s]; [contradiction|].
  destruct (first_value (py "checkout") _) as [|b t]; [contradiction|].
  rewrite H1, H2. cbn [bind].
  destruct (strftime_ymd pads_year ci) as [|c u] eqn:E; [contradiction|].
  rewrite <- E. split.
  - intros W. rewrite strptime_Ymd_strftime.
    + reflexivity.
    + eapply strptime_valid. exact H1.
    + exact W.
  - intros P W. rewrite P in *. rewrite strptime_Ymd_unpadded by exact W.
    reflexivity.
Qed.

(** X10: the lead time counts whole days up to the midnight that
    starts the check-in day: it is the difference of the two calendar
    days when the clock reads exactly midnight and one less at any other
    time of the day.  So a check-in on the day of the search has lead
    time -1 except at midnight, and the lead time of tomorrow's check-in
    is 0. *)
Theorem X10_lead_time_counts_whole_days (checkin : date) (now : datetime) :
  0 <= micros now < microseconds_per_day ->
  days_between (midnight checkin) now
  = toordinal checkin - toordinal (on now)
    - (if micros now =? 0 then 0 else 1).
Proof.
  intros R. unfold days_between, midnight. cbn [on micros].
  unfold microseconds_per_day in *.
  destruct (micros now =? 0) eqn:E.
  - apply Z.eqb_eq in E. rewrite E. symmetry.
    apply Z.div_unique with (r := 0); lia.
  - apply Z.eqb_neq in E. symmetry.
    apply Z.div_unique with (r := 86400 * 1000000 - micros now); lia.
Qed.

Lemma after_absent (c : N) (s : pystr) : ~ In c s -> after c s = None.
Proof.
  unfold after. induction s as [|x r IH]; [reflexivity|]. intros H.
  destruct (N.eqb x c) eqn:E.
  - apply N.eqb_eq in E. subst x. contradiction H. now left.
  - apply IH. intros I. apply H. now right.
Qed.

Lemma before_incl (c x : N) (s : pystr) : In x (before c s) -> In x s.
Proof.
  unfold before. induction s as [|y r IH]; [intros []|].
  destruct (N.eqb y c); [intros []|].
  intros [E|I]; [now left | right; exact (IH I)].
Qed.

Lemma after_incl (c x : N) (s r : pystr) :
  after c s = Some r -> In x r -> In x s.
Proof.
  unfold after. induction s as [|y t IH]; [discriminate|].
  destruct (N.eqb y c).
  - intros [= <-] I. now right.
  - intros E I. right. exact (IH E I).
Qed.

Lemma lstrip_c0_incl (x : N) (s : pystr) : In x (lstrip_c0 s) -> In x s.
Proof.
  induction s as [|c r IH]; [intros []|]. cbn [lstrip_c0].
  destruct (N.leb c 32); [|exact (fun I => I)].
  intros I. right. exact (IH I).
Qed.

Lemma after_scheme_incl (x : N) (s : pystr) :
  In x (after_scheme s) -> In x s.
Proof.
  unfold after_scheme. destruct s as [|c r]; [intros []|].
  destruct (ascii_letter c && forallb scheme_char (before 58 (c :: r)))%bool;
    [|exact (fun I => I)].
  destruct (after 58 (c :: r)) as [rest|] eqn:E; [|exact (fun I => I)].
  intros I. eapply after_incl; [exact E | exact I].
Qed.

Lemma span_netloc_incl (x : N) (s netloc rest : pystr) :
  span_netloc s = (netloc, rest) ->
  (In x netloc -> In x s) /\ (In x rest -> In x s).
Proof.
  revert netloc rest. induction s as [|c r IH]; intros netloc rest.
  - intros [= <- <-]. split; intros [].
  - cbn [span_netloc].
    destruct (N.eqb c 47 || N.eqb c 63 || N.eqb c 35)%bool.
    + intros [= <- <-]. split; [intros [] | exact (fun I => I)].
    + destruct (span_netloc r) as [n t]. intros [= <- <-].
      destruct (IH n t eq_refl) as [A B]. split.
      * intros [E|I]; [now left | right; exact (A I)].
      * intros I. right. exact (B I).
Qed.

(** What [urlparse] makes of a URL: a network location and a rest,
    both cut from the URL, the first deciding whether it raises and the
    second holding the query. *)
Lemma url_query_parts (url : pystr) :
  exists netloc rest,
    (forall x, In x netloc -> In x url)
    /\ (forall x, In x rest -> In x url)
    /\ url_query netloc_rejected url
       = if netloc_raises netloc_rejected netloc then Raise OtherException
         else Ok (match after 63%N (before 35%N rest) with
                  | Some q => q
                  | None => []
                  end).
Proof.
  assert (C : forall x, In x (after_scheme (url_cleaned url)) -> In x url).
  { intros x I. apply after_scheme_incl in I. unfold url_cleaned in I.
    apply filter_In in I. destruct I as [I _].
    exact (lstrip_c0_incl _ _ I). }
  unfold url_query.
  destruct (startswith (after_scheme (url_cleaned url)) (py "//")).
  - destruct (span_netloc (skipn 2 (after_scheme (url_cleaned url))))
      as [netloc rest] eqn:E.
    exists netloc, rest.
    assert (K : forall x, In x (skipn 2 (after_scheme (url_cleaned url)))
                          -> In x url).
    { intros x I. apply C.
      rewrite <- (firstn_skipn 2 (after_scheme (url_cleaned url))).
      apply in_or_app. right. exact I. }
    split; [|split; [|reflexivity]]; intros x I; apply K;
      destruct (@span_netloc_incl x _ _ _ E) as [A B]; auto.
  - exists [], (after_scheme (url_cleaned url)).
    split; [intros x []|]. split; [exact C | reflexivity].
Qed.

Lemma existsb_absent (c : N) (s : pystr) :
  ~ In c s -> existsb (N.eqb c) s = false.
Proof.
  intros H. destruct (existsb (N.eqb c) s) eqn:E; [|reflexivity].
  apply existsb_exists in E. destruct E as (x & I & E).
  apply N.eqb_eq in E. subst x. contradiction.
Qed.

(** X11: the all-default result.  If [urlparse] raises on the URL (a
    square bracket without its partner in the network location, or a
    network location the library rejects), the handler gives the
    defaults with the search date read from its own clock.  If it
    accepts the URL and either parameter is missing or empty, the result
    holds only the search date, read from the clock of the body; if
    both are present and one of them does not parse, the handler gives
    the defaults with the search date read from its own clock; neither
    date survives alone.  A URL without a [?] that [urlparse] accepts
    has no parameters and gets the defaults of the body; and a URL of
    ASCII characters without square brackets is always accepted. *)
Theorem X11_defaults_without_both_dates
  (now later : datetime) (url : pystr) :
  let defaults (clock : datetime) :=
    {| t_search_date := strftime_ymd pads_year (on clock);
       t_checkin_date := []; t_checkout_date := [];
       t_days_ahead := 0; t_day_of_week := []; t_season := [] |} in
  let result :=
    extract_temporal_features nd_value percent_decode netloc_rejected
      pads_year now later url in
  (forall e, url_query netloc_rejected url = Raise e -> result = defaults later)
  /\ (forall query, url_query netloc_rejected url = Ok query ->
      let params := parse_qsl percent_decode query in
      let checkin := first_value (py "checkin") params in
      let checkout := first_value (py "checkout") params in
      (checkin = [] \/ checkout = [] -> result = defaults now)
      /\ (checkin <> [] -> checkout <> [] ->
          (forall ci, strptime nd_value format_mdY checkin <> Ok ci)
          \/ (forall co, strptime nd_value format_mdY checkout <> Ok co) ->
          result = defaults later)
      /\ (~ In 63%N url -> result = defaults now))
  /\ (forallb is_ascii url = true -> ~ In 91%N url -> ~ In 93%N url ->
      exists query, url_query netloc_rejected url = Ok query).
Proof.
  cbv zeta. unfold extract_temporal_features, temporal_try.
  split; [|split].
  - intros e Q. rewrite Q. reflexivity.
  - intros query Q. rewrite Q. cbn [bind]. split; [|split].
    + intros [E|E]; rewrite E.
      * reflexivity.
      * destruct (first_value (py "checkin") _); reflexivity.
    + intros N1 N2 H.
      destruct (first_value (py "checkin") _) as [|a s]; [contradiction|].
      destruct (first_value (py "checkout") _) as [|b t]; [contradiction|].
      destruct (strptime nd_value format_mdY (a :: s)) as [ci|e] eqn:E1;
        [|reflexivity].
      destruct (strptime nd_value format_mdY (b :: t)) as [co|e] eqn:E2;
        [|reflexivity].
      destruct H as [H|H]; [destruct (H ci) | destruct (H co)]; reflexivity.
    + intros H.
      destruct (url_query_parts url) as (netloc & rest & _ & R & E).
      rewrite Q in E. destruct (netloc_raises netloc_rejected netloc);
        [discriminate E|].
      rewrite after_absent in E.
      * injection E as ->. reflexivity.
      * intros I. apply H, R. exact (before_incl _ _ _ I).
  - intros A O C.
    destruct (url_query_parts url) as (netloc & rest & L & _ & E).
    rewrite E. unfold netloc_raises.
    rewrite (@existsb_absent 91 netloc), (@existsb_absent 93 netloc).
    + replace (forallb is_ascii netloc) with true; [cbn; eauto|].
      symmetry. apply forallb_forall. intros x I.
      rewrite forallb_forall in A. apply A, L, I.
    + intros I. apply C, L, I.
    + intros I. apply O, L, I.
Qed.

End TemporalLaws.

(** ** The location line of a row *)

Section LocationLaws.

Local Open Scope nat_scope.

Lemma contains_char (c : N) (s : pystr) :
  contains s [c] = true <-> In c s.
Proof.
  induction s as [|x r IH]; cbn [contains startswith In].
  - split; [discriminate | intros []].
  - rewrite orb_true_iff, andb_true_r, N.eqb_eq, IH. reflexivity.
Qed.

Lemma split_on_absent (c : N) (s cur : pystr) :
  ~ In c s -> split_on c cur s = [rev cur ++ s].
Proof.
  revert cur. induction s as [|x r IH]; intros cur H; cbn [split_on].
  - now rewrite app_nil_r.
  - destruct (N.eqb x c) eqn:E.
    + apply N.eqb_eq in E. subst x. contradiction H. now left.
    + rewrite IH by (intros I; apply H; now right).
      cbn [rev]. now rewrite <- app_assoc.
Qed.

Lemma split_on_first (c : N) (a r cur : pystr) :
  ~ In c a ->
  split_on c cur (a ++ c :: r) = (rev cur ++ a) :: split_on c [] r.
Proof.
  revert cur. induction a as [|x a IH]; intros cur H; cbn [app split_on].
  - now rewrite N.eqb_refl, app_nil_r.
  - destruct (N.eqb x c) eqn:E.
    + apply N.eqb_eq in E. subst x. contradiction H. now left.
    + rewrite IH by (intros I; apply H; now right).
      cbn [rev]. now rewrite <- app_assoc.
Qed.

Lemma startswith_self (p r : pystr) : startswith (p ++ r) p = true.
Proof.
  induction p as [|y p IH]; [reflexivity|].
  cbn [app startswith]. now rewrite N.eqb_refl, IH.
Qed.

Lemma startswith_long (p u v : pystr) :
  List.length p <= List.length u -> startswith (u ++ v) p = startswith u p.
Proof.
  revert u. induction p as [|y p IH]; intros u H; [reflexivity|].
  destruct u as [|x u]; [cbn in H; lia|].
  cbn [app startswith]. rewrite IH by (cbn in H; lia). reflexivity.
Qed.

Lemma contains_occurrence (p a r : pystr) : contains (a ++ p ++ r) p = true.
Proof.
  induction a as [|x a IH].
  - cbn [app]. destruct (p ++ r) eqn:E; cbn [contains]; rewrite <- E;
      now rewrite startswith_self.
  - cbn [app contains]. rewrite IH. apply orb_true_r.
Qed.

Lemma split_by_absent (sep s cur : pystr) :
  contains s sep = false -> split_by sep 0 cur s = [rev cur ++ s].
Proof.
  revert cur. induction s as [|x r IH]; intros cur H; cbn [split_by].
  - now rewrite app_nil_r.
  - cbn [contains] in H. apply orb_false_iff in H. destruct H as [H1 H2].
    rewrite H1, IH by exact H2. cbn [rev]. now rewrite <- app_assoc.
Qed.

Lemma split_by_skip (sep a r cur : pystr) :
  split_by sep (List.length a) cur (a ++ r) = split_by sep 0 cur r.
Proof.
  induction a as [|x a IH]; [reflexivity|].
  cbn [List.length app split_by]. exact IH.
Qed.

Lemma split_by_first (p : pystr) (z : N) (a r cur : pystr) :
  contains (a ++ p) (p ++ [z]) = false ->
  split_by (p ++ [z]) 0 cur (a ++ (p ++ [z]) ++ r)
  = (rev cur ++ a) :: split_by (p ++ [z]) 0 [] r.
Proof.
  revert cur. induction a as [|x a IH]; intros cur H.
  - cbn [app]. destruct ((p ++ [z]) ++ r) as [|c t] eqn:E.
    + destruct p; discriminate E.
    + cbn [split_by]. rewrite <- E, startswith_self, app_nil_r. f_equal.
      destruct p as [|y p]; cbn [app] in E; injection E as _ <-.
      * reflexivity.
      * replace (List.length ((y :: p) ++ [z]) - 1)
          with (List.length (p ++ [z]))
          by (cbn [app List.length]; lia).
        apply split_by_skip.
  - cbn [app contains] in H. apply orb_false_iff in H. destruct H as [H1 H2].
    cbn [app split_by].
    replace (x :: a ++ (p ++ [z]) ++ r) with ((x :: a ++ p) ++ z :: r)
      by (cbn [app]; now rewrite <- !app_assoc).
    rewrite startswith_long, H1
      by (cbn [List.length]; rewrite !length_app; cbn [List.length]; lia).
    replace ((x :: a ++ p) ++ z :: r) with (x :: a ++ (p ++ [z]) ++ r)
      by (cbn [app]; now rewrite <- !app_assoc).
    rewrite IH by exact H2. cbn [rev]. now rewrite <- app_assoc.
Qed.

Lemma contains_bar_first (a r : pystr) : contains (a ++ bar :: r) [bar] = true.
Proof. apply contains_char, in_or_app. right. now left. Qed.

(** X12: the shapes of the location line.  Without a bar the whole
    stripped text is the location; "place | note", with no "from" in
    the note, gives the note as landmark and no distance; "place |
    distance from landmark" gives the text before the first "from" as
    the distance and, as the landmark, the text from there to the next
    "from" or, without one, to the end of the note, each stripped.
    What follows a second "from" is in neither field. *)
Theorem X12_location_line_shapes
  (text loc second dist land mid more : pystr) :
  (~ In bar (strip text) ->
   extract_location_info (Ok text) = Ok (strip text, [], []))
  /\ (strip text = loc ++ bar :: second ->
      ~ In bar loc -> ~ In bar second ->
      contains second from_word = false ->
      extract_location_info (Ok text) = Ok (strip loc, strip second, []))
  /\ (strip text = loc ++ bar :: dist ++ from_word ++ land ->
      ~ In bar loc -> ~ In bar dist -> ~ In bar land ->
      contains (dist ++ py "fro") from_word = false ->
      (contains land from_word = false ->
       extract_location_info (Ok text)
       = Ok (strip loc, strip land, strip dist))
      /\ (land = mid ++ from_word ++ more ->
          contains (mid ++ py "fro") from_word = false ->
          extract_location_info (Ok text)
          = Ok (strip loc, strip mid, strip dist))).
Proof.
  unfold extract_location_info, location_of_text. split; [|split].
  - intros H. destruct (contains (strip text) [bar]) eqn:E; [|reflexivity].
    apply contains_char in E. contradiction.
  - intros -> Hl Hs Hf. rewrite contains_bar_first.
    rewrite split_on_first, split_on_absent by assumption.
    cbn [rev app nth nth_error]. rewrite Hf. reflexivity.
  - intros -> Hl Hd Hn Hf. rewrite contains_bar_first.
    assert (Hs : ~ In bar (dist ++ from_word ++ land)).
    { intros I. apply in_app_or in I. destruct I as [I|I]; [contradiction|].
      apply in_app_or in I. destruct I as [I|I]; [|contradiction].
      vm_compute in I. intuition discriminate. }
    rewrite split_on_first, split_on_absent by assumption.
    cbn [rev app nth nth_error]. rewrite contains_occurrence.
    unfold split_str. change from_word with (py "fro" ++ [109%N]).
    rewrite split_by_first by exact Hf.
    split.
    + intros Hg. rewrite split_by_absent by exact Hg. reflexivity.
    + intros -> Hg. rewrite split_by_first by exact Hg. reflexivity.
Qed.

(** X13: only the first two fields of the location line are read:
    whatever follows a second bar changes nothing. *)
Theorem X13_location_ignores_later_fields (loc second more : pystr) :
  ~ In bar loc -> ~ In bar second ->
  location_of_text (loc ++ bar :: second ++ bar :: more)
  = location_of_text (loc ++ bar :: second).
Proof.
  intros Hl Hs. unfold location_of_text. rewrite !contains_bar_first.
  rewrite (@split_on_first bar loc (second ++ bar :: more) [] Hl).
  rewrite (@split_on_first bar second more [] Hs).
  rewrite (@split_on_first bar loc second [] Hl).
  rewrite (@split_on_absent bar second [] Hs).
  reflexivity.
Qed.

End LocationLaws.

(** ** Assertions kept by a computation *)

Section KeepsRules.

Lemma keeps_ret {S A} (I : S -> Prop) (a : A) : keeps I (@ret S A a).
Proof. intros s H. exact H. Qed.

Lemma keeps_lift {S A} (I : S -> Prop) (o : outcome A) : keeps I (@lift S A o).
Proof. intros s H. exact H. Qed.

Lemma keeps_bind {S A B} (I : S -> Prop) (c : stateful S A)
    (k : A -> stateful S B) :
  keeps I c -> (forall a, keeps I (k a)) -> keeps I (mbind c k).
Proof.
  intros Hc Hk s H. unfold mbind. specialize (Hc s H).
  destruct (c s) as [s' [a|e]]; [apply Hk; exact Hc | exact Hc].
Qed.

Lemma keeps_try {S A} (I : S -> Prop) (c : stateful S A)
    (h : exn -> stateful S A) :
  keeps I c -> (forall e, keeps I (h e)) -> keeps I (try_catch c h).
Proof.
  intros Hc Hh s H. unfold try_catch. specialize (Hc s H).
  destruct (c s) as [s' [a|e]]; [exact Hc | apply Hh; exact Hc].
Qed.

Lemma NoDup_snoc {A} (l : list A) (x : A) :
  NoDup l -> ~ In x l -> NoDup (l ++ [x]).
Proof.
  induction 1 as [|y l Hy Hl IH]; intros Hx; cbn [app].
  - constructor; [intros [] | constructor].
  - constructor.
    + intros I. apply in_app_or in I. destruct I as [I|[I|[]]].
      * contradiction.
      * apply Hx. now left.
    + apply IH. intros I. apply Hx. now right.
Qed.

End KeepsRules.

(** ** The excerpts of the detail page *)

Section DetailLaws.
Variable hotel_id : pystr.

Local Open Scope nat_scope.

Lemma numbered_snoc (reviews : list pystr) (t : pystr) (r : ReviewData) :
  numbered hotel_id reviews r -> numbered hotel_id (reviews ++ [t]) r.
Proof.
  intros (Hh & n & Hi & Hn). split; [exact Hh|]. exists n. split; [exact Hi|].
  rewrite nth_error_app1; [exact Hn|]. apply nth_error_Some. now rewrite Hn.
Qed.

Lemma numbered_text (reviews : list pystr) (r : ReviewData) :
  numbered hotel_id reviews r -> In (review_text r) reviews.
Proof. intros (_ & n & _ & Hn). exact (nth_error_In _ _ Hn). Qed.

Lemma first_text_total (find : pystr -> outcome pystr) (selectors : list pystr)
    (default : pystr) :
  forall e, first_text find selectors default = Raise e ->
            is_no_such_element e = false.
Proof.
  induction selectors as [|x l IH]; intros e; cbn [first_text];
    [discriminate|].
  destruct (find x) as [t|e']; [discriminate|].
  destruct (is_no_such_element e') eqn:E; [apply IH|].
  intros [= <-]. exact E.
Qed.

Lemma with_metadata_fields (elem : DetailElement) (r r' : ReviewData) :
  with_metadata elem r = Ok r' ->
  review_id r' = review_id r /\ review_text r' = review_text r
  /\ review_hotel_id r' = review_hotel_id r.
Proof.
  unfold with_metadata. destruct (el_parent elem) as [u|e].
  - destruct (first_text _ rating_selectors _); [|discriminate].
    destruct (first_text _ date_selectors _); [|discriminate].
    destruct (first_text _ name_selectors _); [|discriminate].
    destruct (first_text _ helpful_selectors _); [|discriminate].
    cbn [bind]. intros [= <-]. auto.
  - destruct (is_no_such_element e); [|discriminate].
    intros [= <-]. auto.
Qed.

Lemma collected_ok_text (s : pstate) (t : pystr) :
  collected_ok hotel_id s -> keep_review t = true -> ~ In t (dp_reviews s) ->
  collected_ok hotel_id
    {| dp_reviews := dp_reviews s ++ [t]; dp_all_reviews := dp_all_reviews s |}.
Proof.
  intros (H1 & H2 & H3 & H4) K N. unfold collected_ok. cbn [dp_reviews dp_all_reviews].
  split; [apply NoDup_snoc; assumption|]. split.
  - apply Forall_app. split; [exact H2|]. constructor; [|constructor].
    unfold keep_review in K. apply Nat.ltb_lt in K. exact K.
  - split; [exact H3|]. eapply Forall_impl; [|exact H4].
    intros r. apply numbered_snoc.
Qed.

Lemma collected_ok_record (s : pstate) (t : pystr) (r : ReviewData) :
  collected_ok hotel_id s -> keep_review t = true -> ~ In t (dp_reviews s) ->
  review_id r
  = hotel_id ++ py "_review_" ++ str_of_nat (S (List.length (dp_reviews s))) ->
  review_text r = t -> review_hotel_id r = hotel_id ->
  collected_ok hotel_id
    {| dp_reviews := dp_reviews s ++ [t];
       dp_all_reviews := dp_all_reviews s ++ [r] |}.
Proof.
  intros H K N Hi Ht Hh.
  destruct (@collected_ok_text s t H K N) as (H1 & H2 & H3 & H4).
  cbn [dp_reviews dp_all_reviews] in *.
  destruct H as (_ & _ & _ & H5).
  unfold collected_ok. cbn [dp_reviews dp_all_reviews].
  split; [exact H1|]. split; [exact H2|]. split.
  - rewrite map_app. cbn [List.map]. apply NoDup_snoc; [exact H3|].
    rewrite Ht. intros I. apply in_map_iff in I. destruct I as (x & E & I).
    rewrite Forall_forall in H5. apply N. rewrite <- E.
    exact (@numbered_text _ _ (H5 x I)).
  - apply Forall_app. split; [exact H4|]. constructor; [|constructor].
    split; [exact Hh|]. exists (List.length (dp_reviews s)).
    split; [exact Hi|]. rewrite Ht, nth_error_app2, Nat.sub_diag by lia.
    reflexivity.
Qed.

Lemma collect_element_keeps (metadata : bool) (elem : DetailElement) :
  keeps (collected_ok hotel_id) (collect_element metadata hotel_id elem).
Proof.
  intros s H. unfold collect_element.
  destruct (el_text elem) as [text|e]; [|exact H].
  destruct (keep_review (strip text)
            && negb (str_in (strip text) (dp_reviews s))) eqn:C; [|exact H].
  apply andb_true_iff in C. destruct C as [K N].
  assert (N' : ~ In (strip text) (dp_reviews s)).
  { intros I. apply str_in_In in I. rewrite I in N. discriminate N. }
  assert (L : List.length (dp_reviews s ++ [strip text])
              = S (List.length (dp_reviews s)))
    by (rewrite length_app; cbn [List.length]; lia).
  destruct metadata.
  - destruct (with_metadata elem _) as [r|e] eqn:E; cbn [fst].
    + apply with_metadata_fields in E. destruct E as (E1 & E2 & E3).
      cbn [detail_record review_id review_text review_hotel_id] in E1, E2, E3.
      apply collected_ok_record; try assumption. now rewrite E1, L.
    + now apply collected_ok_text.
  - cbn [fst]. apply collected_ok_record; try assumption; try reflexivity.
    cbn [detail_record review_id]. now rewrite L.
Qed.

Lemma collect_elements_keeps (metadata : bool) (elems : list DetailElement) :
  keeps (collected_ok hotel_id) (collect_elements metadata hotel_id elems).
Proof.
  induction elems as [|elem rest IH]; cbn [collect_elements].
  - apply keeps_ret.
  - apply keeps_bind; [apply collect_element_keeps | intros _; exact IH].
Qed.

Lemma collect_selectors_keeps (first : bool)
    (find : pystr -> outcome (list DetailElement)) (selectors : list pystr) :
  keeps (collected_ok hotel_id)
    (collect_selectors first hotel_id find selectors).
Proof.
  induction selectors as [|selector rest IH]; cbn [collect_selectors].
  - apply keeps_ret.
  - intros s H. unfold mbind, lift.
    destruct (find selector) as [elems|e].
    + pose proof (@collect_elements_keeps first
                    (if first then firstn (min_reviews * 2) elems
                     else skipn (List.length (dp_reviews s))
                            (firstn (min_reviews * 2) elems)) s H) as K.
      destruct (collect_elements _ _ _ s) as [s' [u|e]]; cbn [fst] in K.
      * destruct (min_reviews <=? List.length (dp_reviews s'));
          [exact K | apply IH; exact K].
      * destruct (is_no_such_element e); [apply IH; exact K | exact K].
    + destruct (is_no_such_element e); [apply IH; exact H | exact H].
Qed.

Lemma show_more_rounds_keeps (P : DetailPage) (n k : nat) :
  keeps (collected_ok hotel_id) (show_more_rounds hotel_id P k n).
Proof.
  revert k. induction n as [|n IH]; intros k; cbn [show_more_rounds].
  - apply keeps_ret.
  - intros s H.
    destruct (min_reviews <=? List.length (dp_reviews s)); [exact H|].
    pose proof (@keeps_bind _ _ _ (collected_ok hotel_id)
                  (lift (click_show_more (show_more P k) show_more_selectors))
                  (fun _ => collect_selectors false hotel_id
                              (page_elements P (S k)) detail_review_selectors)
                  (keeps_lift _ _)
                  (fun _ => @collect_selectors_keeps false _ _) s H) as K.
    destruct (mbind _ _ s) as [s' [u|e]]; cbn [fst] in K.
    + apply IH. exact K.
    + destruct (is_absent_or_timeout e); exact K.
Qed.

Lemma detailed_try_keeps (P : DetailPage) :
  keeps (collected_ok hotel_id) (detailed_try hotel_id P).
Proof.
  unfold detailed_try. apply keeps_bind; [apply keeps_lift|]. intros _.
  apply keeps_bind; [apply collect_selectors_keeps|]. intros _.
  apply show_more_rounds_keeps.
Qed.

Lemma collected_ok_start :
  collected_ok hotel_id {| dp_reviews := []; dp_all_reviews := [] |}.
Proof.
  unfold collected_ok. cbn. repeat split; constructor.
Qed.

Lemma framed_ret {A} (a : A) : framed (ret a).
Proof. intros all s. reflexivity. Qed.

Lemma framed_lift {A} (o : outcome A) : framed (lift o).
Proof. intros all s. reflexivity. Qed.

Lemma framed_bind {A B} (c : stateful pstate A) (k : A -> stateful pstate B) :
  framed c -> (forall a, framed (k a)) -> framed (mbind c k).
Proof.
  intros Hc Hk all s. unfold mbind. rewrite Hc.
  destruct (c s) as [s' [a|e]]; cbn [fst snd]; [apply Hk | reflexivity].
Qed.

Lemma collect_element_framed (metadata : bool) (elem : DetailElement) :
  framed (collect_element metadata hotel_id elem).
Proof.
  intros all s. unfold collect_element. cbn [shift dp_reviews dp_all_reviews].
  destruct (el_text elem) as [text|e]; [|reflexivity].
  destruct (keep_review (strip text)
            && negb (str_in (strip text) (dp_reviews s))); [|reflexivity].
  destruct (if metadata then with_metadata elem _ else Ok _) as [r|e];
    cbn [fst snd]; unfold shift; cbn [dp_reviews dp_all_reviews];
    rewrite <- ?app_assoc; reflexivity.
Qed.

Lemma collect_elements_framed (metadata : bool) (elems : list DetailElement) :
  framed (collect_elements metadata hotel_id elems).
Proof.
  induction elems as [|elem rest IH]; cbn [collect_elements].
  - apply framed_ret.
  - apply framed_bind; [apply collect_element_framed | intros _; exact IH].
Qed.

Lemma collect_selectors_framed (first : bool)
    (find : pystr -> outcome (list DetailElement)) (selectors : list pystr) :
  framed (collect_selectors first hotel_id find selectors).
Proof.
  induction selectors as [|selector rest IH]; cbn [collect_selectors].
  - apply framed_ret.
  - intros all s. unfold mbind, lift.
    destruct (find selector) as [elems|e].
    + rewrite collect_elements_framed. cbn [shift dp_reviews].
      destruct (collect_elements _ _ _ s) as [s' [u|e]];
        cbn [fst snd shift dp_reviews].
      * destruct (min_reviews <=? List.length (dp_reviews s'));
          [reflexivity | apply IH].
      * destruct (is_no_such_element e); [apply IH | reflexivity].
    + destruct (is_no_such_element e); [apply IH | reflexivity].
Qed.

Lemma show_more_rounds_framed (P : DetailPage) (n k : nat) :
  framed (show_more_rounds hotel_id P k n).
Proof.
  revert k. induction n as [|n IH]; intros k; cbn [show_more_rounds].
  - apply framed_ret.
  - intros all s. cbn [shift dp_reviews].
    destruct (min_reviews <=? List.length (dp_reviews s)); [reflexivity|].
    rewrite (@framed_bind _ _
               (lift (click_show_more (show_more P k) show_more_selectors))
               (fun _ => collect_selectors false hotel_id
                           (page_elements P (S k)) detail_review_selectors)
               (framed_lift _)
               (fun _ => @collect_selectors_framed false _ _)).
    destruct (mbind _ _ s) as [s' [u|e]]; cbn [fst snd].
    + apply IH.
    + destruct (is_absent_or_timeout e); reflexivity.
Qed.

Lemma detailed_try_framed (P : DetailPage) : framed (detailed_try hotel_id P).
Proof.
  unfold detailed_try. apply framed_bind; [apply framed_lift|]. intros _.
  apply framed_bind; [apply collect_selectors_framed|]. intros _.
  apply show_more_rounds_framed.
Qed.

Lemma detailed_state_shift (P : DetailPage) (all_reviews : list ReviewData) :
  detailed_state hotel_id P all_reviews
  = shift all_reviews (detailed_state hotel_id P []).
Proof.
  unfold detailed_state.
  rewrite <- (app_nil_r all_reviews) at 1.
  change {| dp_reviews := []; dp_all_reviews := all_reviews ++ [] |}
    with (shift all_reviews {| dp_reviews := []; dp_all_reviews := [] |}).
  now rewrite detailed_try_framed.
Qed.

Lemma detailed_state_ok (P : DetailPage) :
  collected_ok hotel_id (detailed_state hotel_id P []).
Proof. apply detailed_try_keeps, collected_ok_start. Qed.

(** X14: what [_extract_detailed_reviews] returns, whatever the page
    answers and whichever exception ends the collection: at most five
    excerpts, no two the same, each of more than twenty characters.  If
    the page body never appears it returns the empty list and appends
    no record. *)
Theorem X14_detail_excerpts_are_distinct_and_long
  (P : DetailPage) (all_reviews : list ReviewData) :
  let texts := fst (_extract_detailed_reviews hotel_id P all_reviews) in
  List.length texts <= min_reviews
  /\ NoDup texts
  /\ Forall (fun t => 20 < List.length t) texts
  /\ (forall e, body_wait P = Raise e ->
      _extract_detailed_reviews hotel_id P all_reviews = ([], all_reviews)).
Proof.
  cbv zeta. unfold _extract_detailed_reviews. cbn [fst].
  rewrite detailed_state_shift. cbn [shift dp_reviews].
  destruct (detailed_state_ok P) as (H1 & H2 & _).
  rewrite <- (firstn_skipn min_reviews) in H1, H2.
  split; [apply firstn_le_length|].
  split; [exact (NoDup_app_remove_r _ _ H1)|].
  split; [apply Forall_app in H2; exact (proj1 H2)|].
  intros e E. rewrite <- detailed_state_shift.
  unfold detailed_state, detailed_try, mbind, lift. rewrite E. reflexivity.
Qed.

(** X15: the records the call appends.  Each carries the hotel id,
    and its id is the hotel id, "_review_" and the position, counted
    from 1, that its text has among the excerpts collected; no two
    records hold the same text, so there are at most as many records as
    excerpts. *)
Theorem X15_detail_records_number_the_excerpts (P : DetailPage) :
  let added := snd (_extract_detailed_reviews hotel_id P []) in
  let texts := dp_reviews (detailed_state hotel_id P []) in
  NoDup (List.map review_text added)
  /\ Forall (numbered hotel_id texts) added
  /\ List.length added <= List.length texts.
Proof.
  cbv zeta. unfold _extract_detailed_reviews. cbn [snd].
  destruct (detailed_state_ok P) as (_ & _ & H3 & H4).
  split; [exact H3|]. split; [exact H4|].
  rewrite <- (length_map review_text). apply NoDup_incl_length; [exact H3|].
  intros t I. apply in_map_iff in I. destruct I as (r & <- & I).
  rewrite Forall_forall in H4. exact (@numbered_text _ _ (H4 r I)).
Qed.

(** X16: the records collected before the call are a frame.  The call
    returns the same excerpts whatever [self.all_reviews] holds, leaves
    the records it holds in place, and appends after them the records
    it would append to an empty collection. *)
Theorem X16_detail_collection_only_grows
  (P : DetailPage) (all_reviews : list ReviewData) :
  _extract_detailed_reviews hotel_id P all_reviews
  = (fst (_extract_detailed_reviews hotel_id P []),
     all_reviews ++ snd (_extract_detailed_reviews hotel_id P [])).
Proof.
  unfold _extract_detailed_reviews. rewrite detailed_state_shift. reflexivity.
Qed.

End DetailLaws.

(** ** The harvester: what navigation leaves alone *)

Section HarvesterLaws.
Variable unicode_lower : pystr -> pystr.
Variable driver_args : outcome (list pystr).

Local Open Scope nat_scope.

Lemma keeps_throw {A} (I : hstate -> Prop) (e : exn) : keeps I (@throw hstate A e).
Proof. intros s H. exact H. Qed.

Lemma keeps_driver_call (I : hstate -> Prop) (fault : bool) :
  keeps I (driver_call fault).
Proof. intros s H. unfold driver_call. destruct (_ || _); exact H. Qed.

Lemma keeps_driver_move (I : hstate -> Prop) (fault : bool)
    (f : browser -> outcome browser) :
  stable I -> keeps I (driver_move fault f).
Proof.
  intros (Hb & _) s H. unfold driver_move. destruct fault; [exact H|].
  destruct (f (st_browser s)) as [b|e]; [apply Hb; exact H | exact H].
Qed.

Lemma keeps_read_main_window (I : hstate -> Prop) : keeps I read_main_window.
Proof.
  intros s H. unfold read_main_window. destruct (st_main_window s); exact H.
Qed.

Lemma keeps_switch_to_main (I : hstate -> Prop) (fault : bool) :
  stable I -> keeps I (switch_to_main fault).
Proof.
  intros St. unfold switch_to_main.
  apply keeps_bind; [apply keeps_read_main_window|].
  intros h. apply keeps_driver_move, St.
Qed.

Lemma keeps_store_main_window (I : hstate -> Prop) (A : AttemptWorld) :
  stable I -> keeps I (store_main_window A).
Proof.
  intros (_ & Hm & _) s H. unfold store_main_window.
  destruct (handle_fault A); [exact H|].
  destruct (current_window_handle (st_browser s)) as [h|e];
    [apply Hm; exact H | exact H].
Qed.

Lemma keeps_captcha_check (I : hstate -> Prop) (A : AttemptWorld) :
  stable I -> keeps I (captcha_check unicode_lower driver_args A).
Proof.
  intros St. unfold captcha_check.
  apply keeps_try; [|intros _; apply keeps_ret].
  apply keeps_bind; [apply keeps_driver_call|]. intros _.
  apply keeps_bind; [apply keeps_lift|]. intros source.
  destruct (existsb _ captcha_keywords); [|apply keeps_ret].
  apply keeps_bind; [apply keeps_lift|]. intros args.
  destruct (Nat.eqb _ 0); [apply keeps_ret|].
  apply keeps_bind; [apply keeps_driver_move, St|]. intros _.
  apply keeps_bind; [apply keeps_switch_to_main, St|]. intros _.
  apply keeps_ret.
Qed.

Lemma keeps_click_reviews_tab (I : hstate -> Prop) (A : AttemptWorld)
    (selectors : list pystr) :
  keeps I (click_reviews_tab A selectors).
Proof.
  induction selectors as [|x l IH]; cbn [click_reviews_tab].
  - apply keeps_ret.
  - apply keeps_try.
    + apply keeps_bind; [apply keeps_driver_call|]. intros _. apply keeps_lift.
    + intros e. destruct (is_absent_or_timeout e);
        [exact IH | apply keeps_throw].
Qed.

Lemma keeps_scroll (I : hstate -> Prop) (A : AttemptWorld) (n k : nat) :
  keeps I (scroll A k n).
Proof.
  revert k. induction n as [|n IH]; intros k; cbn [scroll].
  - apply keeps_ret.
  - apply keeps_bind; [apply keeps_driver_call | intros _; apply IH].
Qed.

Lemma keeps_extract_detailed_reviews (I : hstate -> Prop) (A : AttemptWorld) :
  stable I -> keeps I (extract_detailed_reviews A).
Proof.
  intros (_ & _ & Ha & _) s H. unfold extract_detailed_reviews.
  destruct (alive (st_browser s)); [apply Ha; exact H | exact H].
Qed.

Lemma keeps_extend_recent (I : hstate -> Prop) (detailed : list pystr) :
  stable I -> keeps I (extend_recent detailed).
Proof. intros (_ & _ & _ & Hr) s H. apply Hr. exact H. Qed.

Lemma keeps_attempt (I : hstate -> Prop) (A : AttemptWorld) :
  stable I -> keeps I (attempt unicode_lower driver_args A).
Proof.
  intros St. unfold attempt. apply keeps_try.
  - unfold attempt_try. apply keeps_bind; [apply keeps_lift|].
    intros [[|c url]|]; try apply keeps_ret.
    apply keeps_bind; [apply keeps_store_main_window, St|]. intros _.
    apply keeps_bind.
    { unfold open_detail. apply keeps_bind; [apply keeps_driver_call|].
      intros _. apply keeps_driver_move, St. }
    intros _.
    apply keeps_bind; [apply keeps_driver_move, St|]. intros _.
    apply keeps_bind; [apply keeps_captcha_check, St|]. intros returned.
    destruct returned; [apply keeps_ret|].
    apply keeps_bind.
    { destruct (contains _ _);
        [apply keeps_click_reviews_tab | apply keeps_ret]. }
    intros _.
    apply keeps_bind; [apply keeps_scroll|]. intros _.
    apply keeps_bind; [apply keeps_extract_detailed_reviews, St|].
    intros detailed.
    apply keeps_bind; [apply keeps_extend_recent, St|]. intros _.
    apply keeps_bind; [apply keeps_driver_move, St|]. intros _.
    apply keeps_bind; [apply keeps_switch_to_main, St|]. intros _.
    intros s H. exact H.
  - intros _. unfold attempt_handler.
    apply keeps_bind.
    { intros s H. destruct (handler_handle_fault A); exact H. }
    intros cur.
    apply keeps_bind; [apply keeps_read_main_window|]. intros main.
    apply keeps_bind; [|intros _; apply keeps_ret].
    destruct (negb _); [|apply keeps_ret].
    apply keeps_bind; [apply keeps_driver_move, St|]. intros _.
    apply keeps_switch_to_main, St.
Qed.

Lemma keeps_attempts (I : hstate -> Prop) (W : nat -> AttemptWorld)
    (n k : nat) :
  stable I -> keeps I (attempts unicode_lower driver_args W k n).
Proof.
  intros St. revert k. induction n as [|n IH]; intros k; cbn [attempts].
  - apply keeps_ret.
  - apply keeps_bind; [apply keeps_attempt, St|].
    intros [| |]; [apply IH | apply keeps_ret | apply keeps_ret].
Qed.

Lemma take_texts_inv (keep : pystr -> bool) (elems : list (outcome pystr))
    (acc : list pystr) :
  NoDup acc -> Forall (fun t => keep t = true) acc ->
  NoDup (fst (take_texts keep elems acc))
  /\ Forall (fun t => keep t = true) (fst (take_texts keep elems acc)).
Proof.
  revert acc. induction elems as [|[t|e] rest IH]; intros acc N F;
    cbn [take_texts]; [split; assumption | | split; assumption].
  destruct (keep (strip t) && negb (str_in (strip t) acc)) eqn:C;
    [|apply IH; assumption].
  apply andb_true_iff in C. destruct C as [K M]. apply IH.
  - apply NoDup_snoc; [exact N|]. intros I. apply str_in_In in I.
    rewrite I in M. discriminate M.
  - apply Forall_app. split; [exact F|]. constructor; [exact K | constructor].
Qed.

Lemma collect_inv (find : pystr -> outcome (list (outcome pystr)))
    (keep : pystr -> bool) (enough : list pystr -> bool)
    (selectors : list pystr) (acc : list pystr) :
  NoDup acc -> Forall (fun t => keep t = true) acc ->
  NoDup (fst (collect find keep enough selectors acc))
  /\ Forall (fun t => keep t = true)
       (fst (collect find keep enough selectors acc)).
Proof.
  revert acc. induction selectors as [|x l IH]; intros acc N F;
    cbn [collect]; [split; assumption|].
  destruct (find x) as [elems|e].
  - destruct (take_texts_inv keep (firstn 5 elems) N F) as [N' F'].
    destruct (take_texts keep (firstn 5 elems) acc) as [acc' [e|]];
      cbn [fst] in N', F'.
    + destruct (is_no_such_element e); [apply IH; assumption|].
      split; assumption.
    + destruct (enough acc'); [split; assumption | apply IH; assumption].
  - destruct (is_no_such_element e); [apply IH; assumption|].
    split; assumption.
Qed.

Lemma stable_grown (all_reviews : list ReviewData) : stable (grown all_reviews).
Proof.
  unfold stable, grown. repeat split; intros s x [added E];
    try (exists added; exact E).
  exists (added ++ x). cbn [set_all_reviews st_all_reviews].
  now rewrite E, app_assoc.
Qed.

Lemma harvest_grown (scrape_reviews : bool) (R : RowWorld)
    (all_reviews : list ReviewData) :
  keeps (grown all_reviews)
    (harvest unicode_lower driver_args scrape_reviews R).
Proof.
  unfold harvest. apply keeps_bind.
  { intros s H. unfold collect_inline_reviews.
    destruct (collect _ _ _ _ _) as [acc escaped]. exact H. }
  intros _. apply keeps_bind.
  { intros s H. unfold collect_highlights.
    destruct (collect _ _ _ _ _) as [acc escaped]. exact H. }
  intros _ s H. destruct (scrape_reviews && _); [|exact H].
  apply keeps_attempts; [apply stable_grown | exact H].
Qed.

Lemma stamped_prefix (hotel_id : pystr) (q : Q) (l : list ReviewData) :
  Forall2 (kept_or_stamped hotel_id) l
    (List.map (fun review =>
                 if str_eqb (review_hotel_id review) hotel_id
                 then set_sentiment q review else review) l).
Proof.
  induction l as [|r l IH]; cbn [List.map]; constructor; [|exact IH].
  destruct (str_eqb (review_hotel_id r) hotel_id) eqn:E; [|now left].
  right. apply str_eqb_eq in E. split; [exact E | now exists q].
Qed.

Lemma kept_prefix (hotel_id : pystr) (l : list ReviewData) :
  Forall2 (kept_or_stamped hotel_id) l l.
Proof. induction l; constructor; [now left | assumption]. Qed.

Lemma firstn_prefix {A} (l more : list A) :
  firstn (List.length l) (l ++ more) = l.
Proof.
  rewrite firstn_app, Nat.sub_diag, firstn_all. cbn [firstn].
  apply app_nil_r.
Qed.

(** X19: the review collection only grows.  Whatever the pages answer
    and however the call ends, the records [self.all_reviews] held
    before [extract_hotel_reviews] are still there afterwards, at the
    same positions; a record of another hotel is unchanged, and a record
    carrying the hotel id of the call is unchanged but for its sentiment
    score. *)
Theorem X19_review_collection_only_grows (scrape_reviews : bool)
    (hotel_id : pystr) (R : RowWorld) (b : browser)
    (all_reviews : list ReviewData) :
  let after :=
    snd (snd (extract_hotel_reviews unicode_lower driver_args scrape_reviews
                hotel_id R b all_reviews)) in
  List.length all_reviews <= List.length after
  /\ Forall2 (kept_or_stamped hotel_id) all_reviews
       (firstn (List.length all_reviews) after).
Proof.
  cbv zeta. unfold extract_hotel_reviews.
  pose proof (@harvest_grown scrape_reviews R all_reviews
                {| st_browser := b; st_all_reviews := all_reviews;
                   st_recent := []; st_highlights := [];
                   st_main_window := None |}) as G.
  destruct (harvest _ _ _ R _) as [s o]. cbn [fst] in G.
  destruct G as [added E]; [exists []; cbn; now rewrite app_nil_r|].
  assert (F : let after :=
                st_all_reviews (finalize unicode_lower hotel_id s) in
              List.length all_reviews <= List.length after
              /\ Forall2 (kept_or_stamped hotel_id) all_reviews
                   (firstn (List.length all_reviews) after)).
  { cbv zeta. rewrite finalize_all_reviews, E, <- app_assoc, map_app.
    split; [rewrite length_app, length_map; lia|].
    rewrite <- (length_map
                  (fun review =>
                     if str_eqb (review_hotel_id review) hotel_id
                     then set_sentiment
                            (calculate_sentiment_score unicode_lower
                               (valid_reviews_of (st_recent s))) review
                     else review) all_reviews) at 1.
    rewrite firstn_prefix. apply stamped_prefix. }
  destruct o as [[| |]|e]; cbn [snd]; try exact F.
  rewrite E. split; [rewrite length_app; lia|].
  rewrite firstn_prefix. apply kept_prefix.
Qed.

Lemma stable_tags_ok : stable tags_ok.
Proof. unfold stable. split; [|split; [|split]]; intros s x H; exact H. Qed.

Lemma harvest_tags_ok (scrape_reviews : bool) (R : RowWorld) :
  keeps tags_ok (harvest unicode_lower driver_args scrape_reviews R).
Proof.
  unfold harvest. apply keeps_bind.
  { intros s H. unfold collect_inline_reviews.
    destruct (collect _ _ _ _ _) as [acc escaped]. exact H. }
  intros _. apply keeps_bind.
  { intros s [N F]. unfold collect_highlights.
    pose proof (collect_inv (find_elements R) keep_highlight
                  (fun acc => match acc with [] => false | _ => true end)
                  highlight_selectors N F) as C.
    destruct (collect _ _ _ _ _) as [acc escaped]. exact C. }
  intros _ s H. destruct (scrape_reviews && _); [|exact H].
  apply keeps_attempts; [apply stable_tags_ok | exact H].
Qed.

Lemma finalize_highlights (hotel_id : pystr) (s : hstate) :
  st_highlights (finalize unicode_lower hotel_id s) = st_highlights s.
Proof.
  unfold finalize. destruct (_ <? min_reviews); reflexivity.
Qed.

(** X18: the highlight tags returned for a row, however the call ends:
    no tag occurs twice, none is empty and each is shorter than fifty
    characters. *)
Theorem X18_highlights_are_distinct_short_tags (scrape_reviews : bool)
    (hotel_id : pystr) (R : RowWorld) (b : browser)
    (all_reviews : list ReviewData) :
  let tags :=
    snd (fst (extract_hotel_reviews unicode_lower driver_args scrape_reviews
                hotel_id R b all_reviews)) in
  NoDup tags /\ Forall (fun t => t <> [] /\ List.length t < 50) tags.
Proof.
  cbv zeta. unfold extract_hotel_reviews.
  pose proof (@harvest_tags_ok scrape_reviews R
                {| st_browser := b; st_all_reviews := all_reviews;
                   st_recent := []; st_highlights := [];
                   st_main_window := None |}) as G.
  destruct (harvest _ _ _ R _) as [s o]. cbn [fst] in G.
  destruct G as [N F]; [split; constructor|].
  assert (T : NoDup (st_highlights s)
              /\ Forall (fun t => t <> [] /\ List.length t < 50)
                   (st_highlights s)).
  { split; [exact N|]. eapply Forall_impl; [|exact F].
    intros t K. unfold keep_highlight in K.
    destruct t as [|c t]; [discriminate K|].
    apply Nat.ltb_lt in K. split; [discriminate | exact K]. }
  destruct o as [[| |]|e]; cbn [fst snd];
    rewrite ?finalize_highlights; exact T.
Qed.

(** X17: no window is touched without need.  When review scraping is
    switched off, when the row itself shows five excerpts, or when
    reading the row fails with an exception other than a missing
    element, the call leaves the browser exactly as it found it. *)
Theorem X17_no_navigation_without_need (scrape_reviews : bool)
    (hotel_id : pystr) (R : RowWorld) (b : browser)
    (all_reviews : list ReviewData) :
  let inline :=
    collect (find_elements R) keep_review
      (fun acc => min_reviews <=? List.length acc) review_selectors [] in
  scrape_reviews = false \/ min_reviews <= List.length (fst inline)
  \/ snd inline = true ->
  fst (snd (extract_hotel_reviews unicode_lower driver_args scrape_reviews
              hotel_id R b all_reviews)) = b.
Proof.
  cbv zeta. intros H.
  unfold extract_hotel_reviews, harvest, mbind, collect_inline_reviews,
    collect_highlights.
  cbn [st_recent st_highlights].
  destruct (collect (find_elements R) keep_review _ review_selectors [])
    as [acc escaped].
  cbn [fst snd] in H.
  destruct escaped; cbn [snd fst set_recent st_highlights];
    [now rewrite finalize_browser|].
  destruct (collect (find_elements R) keep_highlight _ highlight_selectors [])
    as [tags escaped].
  destruct escaped; cbn [snd fst set_recent set_highlights st_recent];
    [now rewrite finalize_browser|].
  replace (scrape_reviews && (List.length acc <? min_reviews)) with false.
  - cbn [snd fst]. now rewrite finalize_browser.
  - symmetry. destruct H as [H|[H|H]]; [now rewrite H | | discriminate H].
    apply andb_false_iff. right. apply Nat.ltb_ge. exact H.
Qed.

End HarvesterLaws.

(** ** The harvester: the windows it opens *)

Section WindowLaws.
Variable unicode_lower : pystr -> pystr.
Variable driver_args : outcome (list pystr).
(** The browser as the call finds it, focused on an open window. *)
Variable b : browser.
Hypothesis focused : alive b = true.

Local Open Scope nat_scope.

Lemma frame_listing_at : frame (listing_at b).
Proof. intros s s' B W. unfold listing_at. now rewrite B, W. Qed.

Lemma frame_detail_at : frame (detail_at b).
Proof. intros s s' B W. unfold detail_at. now rewrite B, W. Qed.

Lemma bound_listing_at (s : hstate) : listing_bound_at b s -> listing_at b s.
Proof. intros [B W]. split; [exact B | now right]. Qed.

Lemma fresh_not_focused : fresh_handle b <> current b.
Proof.
  intros E. apply (fresh_handle_closed b). rewrite E.
  apply is_open_In. exact focused.
Qed.

Lemma detail_alive :
  alive {| handles := handles b ++ [fresh_handle b];
           current := fresh_handle b |} = true.
Proof.
  unfold alive. cbn [current]. apply is_open_In. cbn [handles].
  apply in_or_app. right. now left.
Qed.

Lemma close_detail :
  close {| handles := handles b ++ [fresh_handle b];
           current := fresh_handle b |}
  = Ok {| handles := handles b; current := fresh_handle b |}.
Proof.
  unfold close. rewrite detail_alive. cbn [handles current].
  rewrite remove_app, (notin_remove _ _ _ (fresh_handle_closed b)).
  cbn [remove]. destruct (Nat.eq_dec _ _) as [_|N]; [|contradiction N; reflexivity].
  now rewrite app_nil_r.
Qed.

Lemma switch_back :
  switch_to_window (current b)
    {| handles := handles b; current := fresh_handle b |} = Ok b.
Proof.
  unfold switch_to_window.
  change (is_open (current b) {| handles := handles b;
                                 current := fresh_handle b |})
    with (alive b).
  rewrite focused. destruct b; reflexivity.
Qed.

Lemma triple_store_at (A : AttemptWorld) :
  triple (listing_at b) (store_main_window A)
    (fun _ => listing_bound_at b) (listing_at b).
Proof.
  intros s [B W]. unfold store_main_window.
  destruct (handle_fault A); [split; assumption|].
  unfold current_window_handle. rewrite B, focused. split; [exact B | reflexivity].
Qed.

Lemma triple_open_at (A : AttemptWorld) :
  triple (listing_bound_at b) (open_detail A)
    (fun _ => opened_at b) (listing_at b).
Proof.
  intros s H. unfold open_detail, mbind, driver_call, driver_move.
  destruct (open_fault A || negb (alive (st_browser s)));
    [apply bound_listing_at; exact H|].
  destruct H as [B W]. split; cbn; [now rewrite B | exact W].
Qed.

Lemma triple_switch_at (A : AttemptWorld) :
  switch_fault A = false ->
  triple (opened_at b) (switch_to_detail A)
    (fun _ => detail_at b) (fun _ => False).
Proof.
  intros NF s [B W]. unfold switch_to_detail, driver_move. rewrite NF, B.
  rewrite open_tab_last. cbn [bind].
  rewrite (switch_open _ _ (open_tab_fresh_open b)).
  split; [reflexivity | exact W].
Qed.

Lemma triple_close_at (fault : bool) :
  triple (detail_at b) (driver_move fault close)
    (fun _ => closed_at b) (detail_at b).
Proof.
  intros s [B W]. unfold driver_move.
  destruct fault; [split; assumption|].
  rewrite B, close_detail. split; [reflexivity | exact W].
Qed.

Lemma triple_switch_main_at :
  triple (closed_at b) (switch_to_main false)
    (fun _ => listing_bound_at b) (fun _ => False).
Proof.
  intros s [B W]. unfold switch_to_main, mbind, read_main_window, driver_move.
  rewrite W, B, switch_back. split; [reflexivity | exact W].
Qed.

Lemma triple_captcha_at (A : AttemptWorld) :
  abort_switch_fault A = false ->
  triple (detail_at b) (captcha_check unicode_lower driver_args A)
    (fun returned s => if returned then listing_at b s else detail_at b s)
    (fun _ => False).
Proof.
  intros NF. unfold captcha_check.
  apply triple_try with (E' := detail_at b);
    [|intros e; apply triple_ret; auto].
  eapply triple_bind with (R := fun _ => detail_at b);
    [apply triple_driver_call|]. intros _.
  eapply triple_bind with (R := fun _ => detail_at b);
    [apply triple_lift; auto|]. intros source.
  cbv zeta.
  destruct (existsb _ captcha_keywords); [|apply triple_ret; auto].
  eapply triple_bind with (R := fun _ => detail_at b);
    [apply triple_lift; auto|]. intros args.
  destruct (Nat.eqb _ 0); [apply triple_ret; auto|].
  eapply triple_bind with (R := fun _ => closed_at b);
    [apply triple_close_at|]. intros _.
  rewrite NF.
  eapply triple_bind with (R := fun _ => listing_at b).
  - eapply triple_weaken with (P' := closed_at b);
      [apply triple_switch_main_at | auto | | intros s []].
    intros a s H. apply bound_listing_at; exact H.
  - intros _. apply triple_ret. auto.
Qed.

Lemma triple_attempt_try_at (A : AttemptWorld) :
  restores A -> switch_fault A = false ->
  triple (listing_at b) (attempt_try unicode_lower driver_args A)
    (fun _ => listing_at b) (fun s => listing_at b s \/ detail_at b s).
Proof.
  intros (N272 & N313 & _) N260. unfold attempt_try.
  pose (E := fun s => listing_at b s \/ detail_at b s).
  assert (EL : forall s, listing_at b s -> E s) by (intros s H; now left).
  assert (ED : forall s, detail_at b s -> E s) by (intros s H; now right).
  fold E.
  eapply triple_bind with (R := fun _ => listing_at b);
    [apply triple_lift; auto|].
  intros [[|c url]|]; try (apply triple_ret; auto).
  eapply triple_bind with (R := fun _ => listing_bound_at b).
  { eapply triple_exn; [apply triple_store_at | auto]. }
  intros _. eapply triple_bind with (R := fun _ => opened_at b).
  { eapply triple_exn; [apply triple_open_at | auto]. }
  intros _. eapply triple_bind with (R := fun _ => detail_at b).
  { eapply triple_exn; [apply (triple_switch_at A N260) | intros s []]. }
  intros _.
  eapply triple_bind
    with (R := fun (returned : bool) s =>
                 if returned then listing_at b s else detail_at b s).
  { eapply triple_exn; [apply (triple_captcha_at A N272) | intros s []]. }
  intros [|]; [apply triple_ret; auto|].
  eapply triple_bind with (R := fun _ => detail_at b).
  { eapply triple_exn with (E' := detail_at b); [|auto].
    destruct (contains _ _);
      [apply triple_click_reviews_tab | apply triple_ret; auto]. }
  intros _. eapply triple_bind with (R := fun _ => detail_at b).
  { eapply triple_exn; [apply triple_scroll | auto]. }
  intros _. eapply triple_bind with (R := fun _ => detail_at b).
  { eapply triple_exn;
      [apply (triple_extract_detailed_reviews A frame_detail_at) | auto]. }
  intros detailed. eapply triple_bind with (R := fun _ => detail_at b).
  { eapply triple_exn;
      [apply (triple_extend_recent detailed frame_detail_at) | auto]. }
  intros _. eapply triple_bind with (R := fun _ => closed_at b).
  { eapply triple_exn; [apply triple_close_at | auto]. }
  intros _. rewrite N313.
  eapply triple_bind with (R := fun _ => listing_at b).
  { eapply triple_weaken with (P' := closed_at b);
      [apply triple_switch_main_at | auto | | intros s []].
    intros a s H; apply bound_listing_at; exact H. }
  intros _ s H. exact H.
Qed.

Lemma triple_attempt_handler_at (A : AttemptWorld) :
  restores A ->
  triple (fun s => listing_at b s \/ detail_at b s) (attempt_handler A)
    (fun _ => listing_at b) (listing_at b).
Proof.
  intros (_ & _ & N321 & N322 & N323). unfold attempt_handler.
  rewrite N321, N322, N323.
  intros s H. unfold mbind, read_main_window, current_window_handle.
  destruct H as [[B W] | [B W]]; rewrite B.
  - rewrite focused. destruct W as [W|W]; rewrite W.
    + split; [exact B | now left].
    + rewrite Nat.eqb_refl. cbn. split; [exact B | now right].
  - rewrite detail_alive, W. cbn [current].
    replace (Nat.eqb (fresh_handle b) (current b)) with false
      by (symmetry; apply Nat.eqb_neq, fresh_not_focused).
    cbn [negb]. unfold driver_move at 1. rewrite B, close_detail.
    assert (C : closed_at b
                  (set_browser {| handles := handles b;
                                  current := fresh_handle b |} s))
      by (split; [reflexivity | exact W]).
    pose proof (@triple_switch_main_at _ C) as R.
    destruct (switch_to_main false _) as [s2 [[]|e]]; [|contradiction].
    cbn. apply bound_listing_at; exact R.
Qed.

Lemma triple_attempts_at (W : nat -> AttemptWorld) (n k : nat) :
  (forall i, restores (W i) /\ switch_fault (W i) = false) ->
  triple (listing_at b) (attempts unicode_lower driver_args W k n)
    (fun _ => listing_at b) (listing_at b).
Proof.
  intros R. revert k; induction n as [|n IH]; intros k; cbn [attempts].
  - apply triple_ret; auto.
  - eapply triple_bind with (R := fun _ => listing_at b).
    + unfold attempt. eapply triple_try.
      * apply triple_attempt_try_at; apply R.
      * intros _. apply triple_attempt_handler_at; apply R.
    + intros [| |]; [apply IH | apply triple_ret; auto | apply triple_ret; auto].
Qed.

(** X20: no tab is left behind.  From a browser focused on an open
    window, if in every attempt the switch to the new tab (l.260) and
    the restoring calls (l.272, l.313, l.321-323) do not fail, the call
    leaves the browser exactly as it found it, the same windows in the
    same order and the same one focused, whatever fails on the detail
    page. *)
Theorem X20_no_tab_left_behind (scrape_reviews : bool) (hotel_id : pystr)
    (R : RowWorld) (all_reviews : list ReviewData) :
  (forall i, restores (attempt_world R i)
             /\ switch_fault (attempt_world R i) = false) ->
  fst (snd (extract_hotel_reviews unicode_lower driver_args scrape_reviews
              hotel_id R b all_reviews)) = b.
Proof.
  intros HR.
  assert (T : triple (listing_at b)
                (harvest unicode_lower driver_args scrape_reviews R)
                (fun _ => listing_at b) (listing_at b)).
  { unfold harvest.
    eapply triple_bind with (R := fun _ => listing_at b).
    { intros s H. unfold collect_inline_reviews.
      destruct (collect _ _ _ _ _) as [acc escaped].
      destruct escaped; exact H. }
    intros _. eapply triple_bind with (R := fun _ => listing_at b).
    { intros s H. unfold collect_highlights.
      destruct (collect _ _ _ _ _) as [acc escaped].
      destruct escaped; exact H. }
    intros _ s H. destruct (scrape_reviews && _); [|exact H].
    apply (@triple_attempts_at (attempt_world R) max_attempts 0 HR s H). }
  unfold extract_hotel_reviews.
  specialize (T {| st_browser := b; st_all_reviews := all_reviews;
                   st_recent := []; st_highlights := [];
                   st_main_window := None |}).
  destruct (harvest _ _ _ R _) as [s o].
  assert (B : st_browser s = b).
  { destruct o as [f|e]; apply T; split; [reflexivity | now left | reflexivity | now left]. }
  destruct o as [[| |]|e]; cbn [fst snd];
    rewrite ?finalize_browser; exact B.
Qed.

End WindowLaws.

Section SwitchFailure.
Variable unicode_lower : pystr -> pystr.
Variable driver_args : outcome (list pystr).

(** X21: a failed switch leaves the new tab open.  In an attempt that
    finds a link, reads the window handle and opens the tab, if the
    switch to the tab (l.260) raises then the handler finds the driver
    on the listing and closes nothing: the attempt ends with the window
    it opened still open, last in the window list, and the focus where
    it was. *)
Theorem X21_failed_switch_leaves_the_tab_open
    (A : AttemptWorld) (s : hstate) (c : N) (url : pystr) :
  alive (st_browser s) = true ->
  find_review_url (find_link A) link_selectors = Ok (Some (c :: url)) ->
  handle_fault A = false -> open_fault A = false -> switch_fault A = true ->
  st_browser (fst (attempt unicode_lower driver_args A s))
  = open_tab (st_browser s).
Proof.
  intros Ha Hu N255 N258 F260.
  assert (Ho : alive (open_tab (st_browser s)) = true).
  { unfold alive. cbn [current open_tab]. apply open_tab_keeps. exact Ha. }
  unfold attempt, try_catch, attempt_try, mbind, lift. rewrite Hu.
  unfold store_main_window. rewrite N255.
  unfold current_window_handle. rewrite Ha.
  unfold open_detail, mbind, driver_call. rewrite N258.
  cbn [set_main_window st_browser orb]. rewrite Ha. cbn [negb].
  unfold driver_move at 1. cbn [st_browser set_browser set_main_window].
  unfold switch_to_detail, driver_move. rewrite F260.
  unfold attempt_handler, mbind, read_main_window.
  cbn [st_browser st_main_window].
  destruct (handler_handle_fault A); [reflexivity|].
  cbn [st_browser st_main_window set_browser set_main_window].
  unfold current_window_handle. rewrite Ho. cbn [current open_tab].
  rewrite Nat.eqb_refl. reflexivity.
Qed.

End SwitchFailure.

(** ** The walk over the listing *)

Section DriverLaws.
Variable unicode_lower : pystr -> pystr.
Variable nd_value : N -> option N.
Variable percent_decode : pystr -> pystr.
Variable netloc_rejected : pystr -> bool.
Variable pads_year : bool.

Local Open Scope nat_scope.

Lemma first_field {A} (c : A) (a a' x x' : list A) :
  ~ In c a -> ~ In c a' -> a ++ c :: x = a' ++ c :: x' -> a = a'.
Proof.
  revert a'. induction a as [|y a IH]; intros [|y' a'] N N' E;
    cbn [app] in E.
  - reflexivity.
  - injection E as E _. contradiction N'. left. now symmetry.
  - injection E as E _. contradiction N. now left.
  - injection E as E1 E2. f_equal; [exact E1|].
    apply IH with (a' := a'); [| |exact E2]; intros I;
      [apply N | apply N']; now right.
Qed.

Lemma position_id_inj (i i' : nat) (e e' : N) :
  position_id i e = position_id i' e' -> i = i'.
Proof.
  unfold position_id. intros E. apply app_inv_head in E.
  apply str_of_nat_inj.
  change (py "_" ++ str_of_N e) with (95%N :: str_of_N e) in E.
  change (py "_" ++ str_of_N e') with (95%N :: str_of_N e') in E.
  eapply first_field; [| |exact E]; apply str_of_nat_no_underscore.
Qed.

Lemma assemble_record (driver_args : outcome (list pystr))
    (scrape_reviews : bool) (i : nat) (row : ListingRow) (T : temporal)
    (s s1 : dstate) (h : HotelData) :
  assemble unicode_lower driver_args scrape_reviews i row T s = (s1, Ok h) ->
  hotel_id h = position_id i (epoch row)
  /\ recent_reviews h
     = fst (fst (extract_hotel_reviews unicode_lower driver_args scrape_reviews
                   (position_id i (epoch row)) (reviews_world row)
                   (d_browser s) (d_all_reviews s)))
  /\ availability_status h = py "Available"
  /\ (currency h = py "INR" \/ currency h = [])
  /\ search_date h = t_search_date T
  /\ checkin_date h = t_checkin_date T
  /\ checkout_date h = t_checkout_date T
  /\ days_ahead h = t_days_ahead T
  /\ day_of_week h = t_day_of_week T
  /\ season h = t_season T
  /\ review_count_numeric h = None /\ rating_numeric h = None
  /\ star_rating_numeric h = None /\ avg_sentiment_score h = None.
Proof.
  unfold assemble, position_id.
  destruct (bind _ _)
    as [[[[[[[[name rating] reviews] desc] [[lo la] di]] shown] tax_v] star]|e];
    [|discriminate].
  assert (C : snd (price_and_currency shown) = py "INR"
              \/ snd (price_and_currency shown) = []).
  { unfold price_and_currency. destruct (startswith _ _); [now left | now right]. }
  destruct (price_and_currency shown) as [pv cv]. cbn [snd] in C.
  destruct (extract_hotel_reviews _ _ _ _ _ _ _)
    as [[recent highlights] [b' all']].
  intros [= _ <-]. cbn. repeat split; try reflexivity. exact C.
Qed.

Lemma row_pass_step (driver_args : outcome (list pystr))
    (scrape_reviews : bool) (i : nat) (row : ListingRow) (T : temporal)
    (s : dstate) :
  let s' := fst (row_pass unicode_lower nd_value driver_args scrape_reviews
                   i row T s) in
  hotels_data s' = hotels_data s
  \/ exists s0 s1 h,
       assemble unicode_lower driver_args scrape_reviews i row T s0 = (s1, Ok h)
       /\ hotels_data s'
          = hotels_data s ++ [extract_numeric_features unicode_lower nd_value h].
Proof.
  cbv zeta. unfold row_pass, try_catch, row_try.
  destruct (if alive (d_browser s) then locate row else Raise OtherException)
    as [[]|[| |]]; cbn [fst ret]; try (left; reflexivity).
  assert (K : hotels_data
                (fst (assemble unicode_lower driver_args scrape_reviews
                        i row T s)) = hotels_data s).
  { unfold assemble.
    destruct (bind _ _)
      as [[[[[[[[name rating] reviews] desc] [[lo la] di]] shown] tax_v] star]|e];
      [|reflexivity].
    destruct (price_and_currency shown) as [pv cv].
    destruct (extract_hotel_reviews _ _ _ _ _ _ _)
      as [[recent highlights] [b' all']]. reflexivity. }
  destruct (assemble _ _ _ i row T s) as [s1 [h|e]] eqn:E; cbn [fst] in K.
  - right. exists s, s1, h. split; [exact E|].
    destruct (row_scroll_fault row || _); cbn; now rewrite K.
  - left. exact K.
Qed.

Lemma walk_invariant (driver_args : outcome (list pystr))
    (scrape_reviews : bool) (P : PageWorld) (T : temporal)
    (I : nat -> list HotelData -> Prop) :
  (forall i l, I i l -> I (S i) l) ->
  (forall i l s s1 h,
     I i l ->
     assemble unicode_lower driver_args scrape_reviews i (rows P i) T s
     = (s1, Ok h) ->
     I (S i) (l ++ [extract_numeric_features unicode_lower nd_value h])) ->
  forall n i s,
    I i (hotels_data s) ->
    I (i + n)
      (hotels_data
         (fst (walk unicode_lower nd_value driver_args scrape_reviews
                 P T i n s))).
Proof.
  intros Mono Step.
  assert (Up : forall k i l, I i l -> I (i + k) l).
  { induction k as [|k IH]; intros i l H.
    - now rewrite Nat.add_0_r.
    - rewrite Nat.add_succ_r. apply Mono, IH, H. }
  induction n as [|n IH]; intros i s H; cbn [walk].
  - rewrite Nat.add_0_r. exact H.
  - unfold mbind.
    pose proof (row_pass_step driver_args scrape_reviews i (rows P i) T s) as R.
    cbv zeta in R.
    assert (H' : I (S i)
                   (hotels_data
                      (fst (row_pass unicode_lower nd_value driver_args
                              scrape_reviews i (rows P i) T s)))).
    { destruct R as [R|(s0 & s1 & h & E & R)]; rewrite R.
      - apply Mono, H.
      - eapply Step; [exact H | exact E]. }
    destruct (row_pass _ _ _ _ i (rows P i) T s) as [s' [[|]|e]];
      cbn [fst] in H'; rewrite Nat.add_succ_r.
    + apply (IH (S i)). exact H'.
    + apply (Up n (S i)). exact H'.
    + apply (Up n (S i)). exact H'.
Qed.

Lemma ids_below_step (i : nat) (l : list HotelData) (h : HotelData) (e : N) :
  ids_below i l -> hotel_id h = position_id i e ->
  ids_below (S i) (l ++ [h]).
Proof.
  intros [N F] E. split.
  - rewrite map_app. cbn [List.map]. apply NoDup_snoc; [exact N|].
    intros I. apply in_map_iff in I. destruct I as (x & Ex & Ix).
    rewrite Forall_forall in F. destruct (F x Ix) as (j & e' & Lt & Ej).
    rewrite E, Ej in Ex. apply position_id_inj in Ex. lia.
  - apply Forall_app. split.
    + eapply Forall_impl; [|exact F].
      intros x (j & e' & Lt & Ej). exists j, e'. split; [lia | exact Ej].
    + constructor; [|constructor]. exists i, e. split; [lia | exact E].
Qed.

(** X22: one run gives at most one record per position.  The list
    [scrape_hotel_data] returns holds at most [max_hotels] records, the
    id of each is "hotel_", a position below [max_hotels], "_" and a
    clock reading, and no two records of the list share an id. *)
Theorem X22_one_record_per_position (driver_args : outcome (list pystr))
    (scrape_reviews : bool) (P : PageWorld) (mmt_url : pystr)
    (max_hotels : nat) (b : browser) (all_reviews : list ReviewData) :
  exists l,
    snd (scrape_hotel_data unicode_lower nd_value percent_decode netloc_rejected
           pads_year driver_args
           scrape_reviews P mmt_url max_hotels b all_reviews) = Ok l
    /\ List.length l <= max_hotels
    /\ NoDup (List.map hotel_id l)
    /\ Forall (fun h => exists j e,
                 j < max_hotels /\ hotel_id h = position_id j e) l.
Proof.
  rewrite scrape_hotel_data_eq. cbv zeta. cbn [snd].
  eexists. split; [reflexivity|].
  destruct (if alive b then load P else Raise OtherException) as [[]|e];
    [|cbn; repeat split; [lia | constructor | constructor]].
  pose proof (@walk_invariant driver_args scrape_reviews P
                (extract_temporal_features nd_value percent_decode netloc_rejected
                   pads_year
                   (now P) (later P) mmt_url)
                (fun i l => List.length l <= i /\ ids_below i l)) as W.
  cbn [Nat.add] in W. apply W; clear W.
  - intros i l [L [N F]]. split; [lia|]. split; [exact N|].
    eapply Forall_impl; [|exact F].
    intros x (j & e' & Lt & Ej). exists j, e'. split; [lia | exact Ej].
  - intros i l s s1 h [L B] E. apply assemble_record in E.
    destruct E as (E & _). split.
    + rewrite length_app. cbn [List.length]. lia.
    + apply ids_below_step with (e := epoch (rows P i)); [exact B|].
      rewrite extract_numeric_features_eq.
      destruct (count_within_limit nd_value _); exact E.
  - cbn. split; [lia|]. split; constructor.
Qed.

(** X23: every record of the list [scrape_hotel_data] returns is
    finished.  With the driver the scraper builds, each record holds
    exactly five excerpts; it holds a sentiment score between -1 and 1,
    unless the first run of digits of its review count is longer than
    [int] converts, and then it holds no review count, no rating, no
    star count and no sentiment; its derived fields are those the
    numeric pass computes from its own texts; it is marked "Available",
    its currency is "INR" or empty, and its six temporal fields are the
    ones computed once for the run. *)
Theorem X23_returned_records_are_finished (headless exposed : bool)
    (scrape_reviews : bool) (P : PageWorld) (mmt_url : pystr)
    (max_hotels : nat) (b : browser) (all_reviews : list ReviewData) :
  exists l,
    snd (scrape_hotel_data unicode_lower nd_value percent_decode netloc_rejected
           pads_year
           (options_args headless exposed) scrape_reviews P mmt_url
           max_hotels b all_reviews) = Ok l
    /\ Forall (finished_record unicode_lower nd_value
                 (extract_temporal_features nd_value percent_decode netloc_rejected
                    pads_year
                    (now P) (later P) mmt_url)) l.
Proof.
  rewrite scrape_hotel_data_eq. cbv zeta. cbn [snd].
  eexists. split; [reflexivity|].
  destruct (if alive b then load P else Raise OtherException) as [[]|e];
    [|constructor].
  pose proof (@walk_invariant (options_args headless exposed) scrape_reviews P
                (extract_temporal_features nd_value percent_decode netloc_rejected
                   pads_year
                   (now P) (later P) mmt_url)
                (fun _ l =>
                   Forall (finished_record unicode_lower nd_value
                             (extract_temporal_features nd_value percent_decode netloc_rejected
                                pads_year
                                (now P) (later P) mmt_url)) l)) as W.
  apply W; clear W.
  - intros _ l H. exact H.
  - intros i l s s1 h H E. apply Forall_app. split; [exact H|].
    constructor; [|constructor].
    apply assemble_record in E.
    destruct E as (_ & E2 & E3 & E4 & E5 & E6 & E7 & E8 & E9 & E10
                     & N1 & N2 & N3 & N4).
    assert (L : List.length (recent_reviews h) = min_reviews).
    { rewrite E2, extract_hotel_reviews_finalized. cbn [fst].
      apply finalize_length. }
    unfold finished_record.
    rewrite extract_numeric_features_again, extract_numeric_features_eq.
    destruct (count_within_limit nd_value (review_count h)) eqn:C;
      cbn [with_derived recent_reviews review_count avg_sentiment_score
           review_count_numeric rating_numeric star_rating_numeric
           availability_status currency search_date checkin_date
           checkout_date days_ahead day_of_week season];
      rewrite C; (split; [exact L|]); (split; [|repeat split; assumption]).
    + eexists. split; [reflexivity|].
      apply calculate_sentiment_score_bounds.
    + repeat split; assumption.
  - constructor.
Qed.

End DriverLaws.

(** ** The tax line and the good path of the detail page *)

Section RowLaws.

Local Open Scope nat_scope.

(** X24: the tax of a row is the third field of the tax line cut at
    single spaces, as it stands and whatever follows it; a line of fewer
    than three fields, or no tax line at all, gives the empty string. *)
Theorem X24_tax_is_the_third_field (a b c more : pystr) :
  ~ In 32%N a -> ~ In 32%N b -> ~ In 32%N c ->
  tax_of (Ok (a ++ 32%N :: b ++ 32%N :: c ++ 32%N :: more)) = Ok c
  /\ tax_of (Ok (a ++ 32%N :: b ++ 32%N :: c)) = Ok c
  /\ tax_of (Ok (a ++ 32%N :: b)) = Ok []
  /\ tax_of (Ok a) = Ok []
  /\ tax_of (Raise NoSuchElementException) = Ok [].
Proof.
  intros Ha Hb Hc. unfold tax_of.
  rewrite (@split_on_first 32%N a (b ++ 32%N :: c ++ 32%N :: more) [] Ha).
  rewrite (@split_on_first 32%N b (c ++ 32%N :: more) [] Hb).
  rewrite (@split_on_first 32%N c more [] Hc).
  rewrite (@split_on_first 32%N a (b ++ 32%N :: c) [] Ha).
  rewrite (@split_on_first 32%N b c [] Hb).
  rewrite (@split_on_absent 32%N c [] Hc).
  rewrite (@split_on_first 32%N a b [] Ha).
  rewrite (@split_on_absent 32%N b [] Hb).
  rewrite (@split_on_absent 32%N a [] Ha).
  repeat split; reflexivity.
Qed.

Lemma collect_elements_good (hotel_id : pystr) (elems : list DetailElement) :
  forall (raw : list pystr) (s : pstate),
    List.map el_text elems = List.map Ok raw ->
    (forall e r, In e elems -> exists r', with_metadata e r = Ok r') ->
    NoDup (dp_reviews s ++ List.map strip raw) ->
    Forall (fun t => 20 < List.length (strip t)) raw ->
    exists added,
      collect_elements true hotel_id elems s
      = ({| dp_reviews := dp_reviews s ++ List.map strip raw;
            dp_all_reviews := dp_all_reviews s ++ added |}, Ok tt)
      /\ List.map review_text added = List.map strip raw.
Proof.
  induction elems as [|e elems IH]; intros [|t raw] s E M N L;
    try discriminate E; cbn [collect_elements List.map].
  - exists []. rewrite !app_nil_r. destruct s; split; reflexivity.
  - cbn [List.map] in E. injection E as Et E.
    inversion L as [|? ? Lt Lr]; subst.
    unfold mbind, collect_element at 1. rewrite Et.
    assert (K : keep_review (strip t) = true)
      by (unfold keep_review; apply Nat.ltb_lt; exact Lt).
    assert (F : str_in (strip t) (dp_reviews s) = false).
    { destruct (str_in (strip t) (dp_reviews s)) eqn:I; [|reflexivity].
      apply str_in_In in I. cbn [List.map] in N.
      apply NoDup_remove_2 in N. contradiction N.
      apply in_or_app. now left. }
    rewrite K, F. cbn [andb negb].
    destruct (M e (detail_record hotel_id
                     (List.length (dp_reviews s ++ [strip t])) (strip t))
                (or_introl eq_refl)) as [r' Er].
    rewrite Er.
    destruct (IH raw {| dp_reviews := dp_reviews s ++ [strip t];
                        dp_all_reviews := dp_all_reviews s ++ [r'] |} E)
      as (added & Ec & Ea).
    + intros e' r I. apply M. now right.
    + cbn [dp_reviews]. rewrite <- app_assoc. exact N.
    + exact Lr.
    + exists (r' :: added). cbn [dp_reviews dp_all_reviews] in Ec.
      rewrite Ec, <- !app_assoc. split; [reflexivity|].
      cbn [List.map]. f_equal; [|exact Ea].
      apply with_metadata_fields in Er. destruct Er as (_ & Er & _).
      exact Er.
Qed.

(** X25: the good path of the detail page.  When the body appears and
    the first review selector finds elements whose first ten texts are
    read without failure, are pairwise distinct after stripping and
    longer than twenty characters, and are at least five, the call
    returns the first five of them in page order, and appends one record
    for each of the texts read, those beyond the fifth included. *)
Theorem X25_detail_page_good_path (hotel_id : pystr) (P : DetailPage)
    (all_reviews : list ReviewData) (elems : list DetailElement)
    (raw : list pystr) :
  body_wait P = Ok tt ->
  page_elements P 0 (py ".userReviewCard__text") = Ok elems ->
  List.map el_text (firstn (min_reviews * 2) elems) = List.map Ok raw ->
  (forall e r, In e elems -> exists r', with_metadata e r = Ok r') ->
  NoDup (List.map strip raw) ->
  Forall (fun t => 20 < List.length (strip t)) raw ->
  min_reviews <= List.length raw ->
  exists added,
    _extract_detailed_reviews hotel_id P all_reviews
    = (firstn min_reviews (List.map strip raw), all_reviews ++ added)
    /\ List.map review_text added = List.map strip raw.
Proof.
  intros Hb Hp Ht Hm Hn Hl H5.
  destruct (@collect_elements_good hotel_id (firstn (min_reviews * 2) elems)
              raw {| dp_reviews := []; dp_all_reviews := all_reviews |} Ht)
    as (added & Ec & Ea).
  - intros e r I. apply Hm. rewrite <- (firstn_skipn (min_reviews * 2) elems).
    apply in_or_app. now left.
  - exact Hn.
  - exact Hl.
  - exists added. split; [|exact Ea].
    assert (G : (min_reviews <=? List.length (List.map strip raw)) = true)
      by (apply Nat.leb_le; rewrite length_map; exact H5).
    unfold _extract_detailed_reviews, detailed_state, detailed_try, mbind, lift.
    rewrite Hb.
    change detail_review_selectors
      with (py ".userReviewCard__text" :: tl detail_review_selectors).
    cbn [collect_selectors]. unfold mbind, lift. rewrite Hp, Ec.
    cbn [dp_reviews app]. rewrite G.
    cbn [show_more_rounds dp_reviews]. rewrite G. reflexivity.
Qed.

End RowLaws.

(** ** The laws at example inputs *)

(** X1, for a blank review, two reviews exchanged and two words
    exchanged. *)
Lemma X1_score_depends_on_tokens_only_witness :
  calculate_sentiment_score ascii_only_lower
    [py "great room"; py "   "; py "bad lift"]
  = calculate_sentiment_score ascii_only_lower [py "great room"; py "bad lift"]
  /\ calculate_sentiment_score ascii_only_lower [py "great room"; py "bad lift"]
     = calculate_sentiment_score ascii_only_lower
         [py "bad lift"; py "great room"]
  /\ calculate_sentiment_score ascii_only_lower [py "great room"]
     = calculate_sentiment_score ascii_only_lower [py "room great"].
Proof.
  split; [|split].
  - apply (proj2 (proj2 (X1_score_depends_on_tokens_only ascii_only_lower
                           [] [] [py "great room"] [py "bad lift"] (py "   ")))).
    reflexivity.
  - apply (proj1 (proj2 (X1_score_depends_on_tokens_only ascii_only_lower
                           [py "great room"; py "bad lift"]
                           [py "bad lift"; py "great room"] [] [] []))).
    apply perm_swap.
  - apply (proj1 (X1_score_depends_on_tokens_only ascii_only_lower
                    [py "great room"] [py "room great"] [] [] [])).
    vm_compute. apply perm_swap.
Defined.

(** X2, for a review of praise, one of blame and a balanced one. *)
Lemma X2_score_saturates_witness :
  (calculate_sentiment_score ascii_only_lower [py "great clean room"] == 1
   /\ calculate_sentiment_score ascii_only_lower [py "dirty noisy room"] == -1
   /\ calculate_sentiment_score ascii_only_lower [py "good room bad lift"]
      == inject_Z 0 / inject_Z 4)%Q.
Proof.
  split; [|split].
  - apply (proj1 (X2_score_saturates ascii_only_lower [py "great clean room"]
                    ltac:(vm_compute; discriminate))).
    vm_compute. discriminate.
  - apply (proj1 (proj2 (X2_score_saturates ascii_only_lower
                           [py "dirty noisy room"]
                           ltac:(vm_compute; discriminate)))).
    vm_compute. discriminate.
  - apply (proj2 (proj2 (X2_score_saturates ascii_only_lower
                           [py "good room bad lift"]
                           ltac:(vm_compute; discriminate)))).
    vm_compute. split; discriminate.
Defined.

(** X3, for the word "great". *)
Lemma X3_only_plain_words_score_witness :
  forallb (fun c => (97 <=? c)%N && (c <=? 122)%N) (py "great") = true.
Proof.
  apply X3_only_plain_words_score. vm_compute. discriminate.
Defined.

(** X4, for a review in capitals. *)
Lemma X4_score_ignores_ascii_case_witness :
  calculate_sentiment_score ascii_only_lower [py "GREAT Room, Bad LIFT"]
  = calculate_sentiment_score ascii_only_lower [py "great room, bad lift"].
Proof.
  apply X4_score_ignores_ascii_case.
  - constructor; [reflexivity | constructor].
  - constructor; [reflexivity | constructor].
  - reflexivity.
Defined.

(** X6, for the star marker "5", beside a review count that [int]
    converts and beside one of 4301 digits. *)
Lemma X6_star_count_is_marker_length_witness :
  (exists n, (0 < n)%Z
             /\ star_rating_numeric
                  (extract_numeric_features ascii_only_lower ascii_only_digits
                     decimal_price_record) = Some n)
  /\ star_rating_numeric
       (extract_numeric_features ascii_only_lower ascii_only_digits
          overlong_count_record) = None.
Proof.
  split.
  - apply (proj1 (X6_star_count_is_marker_length ascii_only_lower
                    ascii_only_digits decimal_price_record)).
    + vm_compute. reflexivity.
    + discriminate.
  - apply (proj2 (X6_star_count_is_marker_length ascii_only_lower
                    ascii_only_digits overlong_count_record)).
    vm_compute. reflexivity.
Defined.

(** X7, for the price "5499.50". *)
Lemma X7_price_drops_decimals_witness :
  price_numeric
    (extract_numeric_features ascii_only_lower ascii_only_digits
       decimal_price_record)
  = Some (inject_Z (run_value ascii_only_digits (py "5499"))).
Proof.
  apply (proj2 (X7_price_drops_decimals ascii_only_lower ascii_only_digits
                  decimal_price_record (py "5499") (py "50"))).
  - discriminate.
  - repeat constructor.
  - reflexivity.
Defined.

(** X8, for 2 August 2025 on a platform that writes years without
    padding, and for 2 August 999 there. *)
Lemma X8_written_dates_read_back_witness :
  (strptime ascii_only_digits format_mdY (py "08022025") = Ok august_second
   /\ strptime ascii_only_digits format_Ymd (py "2025-08-02")
      = Ok august_second)
  /\ (strptime ascii_only_digits format_mdY (py "08020999")
      = Ok {| year := 999; month := 8; day := 2 |}
      /\ strftime_ymd unpadded_years {| year := 999; month := 8; day := 2 |}
         = py "999-08-02"
      /\ strptime ascii_only_digits format_Ymd (py "999-08-02")
         = Raise OtherException).
Proof.
  split.
  - destruct (@X8_written_dates_read_back ascii_only_digits unpadded_years
                2025%Z 8%Z 2%Z august_second eq_refl) as (A & B & _).
    split; [exact A|]. apply B. right. vm_compute. discriminate.
  - destruct (@X8_written_dates_read_back ascii_only_digits unpadded_years
                999%Z 8%Z 2%Z {| year := 999; month := 8; day := 2 |} eq_refl)
      as (A & _ & C).
    split; [exact A|]. split; [reflexivity|].
    apply C; reflexivity.
Defined.

(** X9, for the listing URL of the scenario read at noon on 1 July
    2025, for a check-in in the year 999 where years are written
    without padding, and for a URL with a TAB inside the check-in
    date, which [urlparse] deletes. *)
Lemma X9_parsed_dates_determine_the_result_witness :
  extract_temporal_features ascii_only_digits ascii_only_lower
    every_host_accepted unpadded_years
    {| on := july_first; micros := 12 * 3600 * 1000000 |}
    {| on := july_first; micros := 12 * 3600 * 1000000 |} scenario_url
  = {| t_search_date := py "2025-07-01";
       t_checkin_date := py "2025-08-02";
       t_checkout_date := py "2025-08-03";
       t_days_ahead := 31;
       t_day_of_week := py "Saturday";
       t_season := py "Summer" |}
  /\ extract_temporal_features ascii_only_digits ascii_only_lower
       every_host_accepted unpadded_years
       {| on := july_first; micros := 12 * 3600 * 1000000 |}
       {| on := august_second; micros := 0 |}
       (py "https://mmt.test/list?checkin=08020999&checkout=08032025")
     = {| t_search_date := py "2025-08-02";
          t_checkin_date := []; t_checkout_date := [];
          t_days_ahead := 0; t_day_of_week := []; t_season := [] |}
  /\ t_checkin_date
       (extract_temporal_features ascii_only_digits ascii_only_lower
          every_host_accepted unpadded_years
          {| on := july_first; micros := 12 * 3600 * 1000000 |}
          {| on := august_second; micros := 0 |}
          (py "https://mmt.test/list?checkin=0802" ++ 9%N
           :: py "2025&checkout=08032025"))
     = py "2025-08-02".
Proof.
  split; [|split]; cycle 2.
  - rewrite (proj1 (@X9_parsed_dates_determine_the_result ascii_only_digits
                      ascii_only_lower every_host_accepted unpadded_years
                      {| on := july_first; micros := 12 * 3600 * 1000000 |}
                      {| on := august_second; micros := 0 |}
                      (py "https://mmt.test/list?checkin=0802" ++ 9%N
                       :: py "2025&checkout=08032025")
                      (py "checkin=08022025&checkout=08032025")
                      august_second august_third
                      eq_refl eq_refl eq_refl)).
    + vm_compute. reflexivity.
    + right. vm_compute. discriminate.
  - rewrite (proj1 (@X9_parsed_dates_determine_the_result ascii_only_digits
                      ascii_only_lower every_host_accepted unpadded_years
                      {| on := july_first; micros := 12 * 3600 * 1000000 |}
                      {| on := july_first; micros := 12 * 3600 * 1000000 |}
                      scenario_url
                      (py "checkin=08022025&city=CTCCU&checkout=08032025&roomStayQualifier=2e0e&locusId=CTCCU&country=IN&locusType=city&searchText=Kolkata")
                      august_second august_third
                      eq_refl eq_refl eq_refl)).
    + vm_compute. reflexivity.
    + right. vm_compute. discriminate.
  - rewrite (proj2 (@X9_parsed_dates_determine_the_result ascii_only_digits
                      ascii_only_lower every_host_accepted unpadded_years
                      {| on := july_first; micros := 12 * 3600 * 1000000 |}
                      {| on := august_second; micros := 0 |}
                      (py "https://mmt.test/list?checkin=08020999&checkout=08032025")
                      (py "checkin=08020999&checkout=08032025")
                      {| year := 999; month := 8; day := 2 |} august_third
                      eq_refl eq_refl eq_refl)).
    + vm_compute. reflexivity.
    + reflexivity.
    + reflexivity.
Defined.

(** X10, one microsecond after the midnight of 1 July 2025. *)
Lemma X10_lead_time_counts_whole_days_witness :
  days_between (midnight august_second) {| on := july_first; micros := 1 |}
  = (toordinal august_second - toordinal july_first - 1)%Z.
Proof.
  apply (@X10_lead_time_counts_whole_days august_second
           {| on := july_first; micros := 1 |}).
  unfold microseconds_per_day. cbn [micros]. lia.
Defined.

(** X11, for a URL with an unclosed bracket in its host, one with one
    date only, one with a month 13 and one without query. *)
Lemma X11_defaults_without_both_dates_witness :
  let noon := {| on := july_first; micros := 12 * 3600 * 1000000 |} in
  let evening := {| on := august_second; micros := 0 |} in
  let defaults (clock : datetime) :=
    {| t_search_date := strftime_ymd unpadded_years (on clock);
       t_checkin_date := []; t_checkout_date := [];
       t_days_ahead := 0%Z; t_day_of_week := []; t_season := [] |} in
  extract_temporal_features ascii_only_digits ascii_only_lower
    every_host_accepted unpadded_years noon evening
    (py "http://[x/?checkin=08022025&checkout=08032025") = defaults evening
  /\ extract_temporal_features ascii_only_digits ascii_only_lower
       every_host_accepted unpadded_years noon evening
       (py "https://mmt.test/list?checkin=08022025&city=CTCCU") = defaults noon
  /\ extract_temporal_features ascii_only_digits ascii_only_lower
       every_host_accepted unpadded_years noon evening
       (py "https://mmt.test/list?checkin=13022025&checkout=08032025")
     = defaults evening
  /\ extract_temporal_features ascii_only_digits ascii_only_lower
       every_host_accepted unpadded_years noon evening
       (py "hotels") = defaults noon
  /\ exists query,
       url_query every_host_accepted (py "https://mmt.test/list") = Ok query.
Proof.
  cbv zeta. split; [|split; [|split; [|split]]].
  - apply (proj1 (@X11_defaults_without_both_dates ascii_only_digits
                    ascii_only_lower every_host_accepted unpadded_years
                    {| on := july_first; micros := 12 * 3600 * 1000000 |}
                    {| on := august_second; micros := 0 |}
                    (py "http://[x/?checkin=08022025&checkout=08032025"))
             OtherException).
    reflexivity.
  - apply (proj1 (proj1 (proj2 (@X11_defaults_without_both_dates
                                  ascii_only_digits ascii_only_lower
                                  every_host_accepted unpadded_years
                                  {| on := july_first; micros := 12 * 3600 * 1000000 |}
                                  {| on := august_second; micros := 0 |}
                                  (py "https://mmt.test/list?checkin=08022025&city=CTCCU")))
                    (py "checkin=08022025&city=CTCCU") eq_refl)).
    right. reflexivity.
  - apply (proj1 (proj2 (proj1 (proj2 (@X11_defaults_without_both_dates
                                         ascii_only_digits ascii_only_lower
                                         every_host_accepted unpadded_years
                                         {| on := july_first; micros := 12 * 3600 * 1000000 |}
                                         {| on := august_second; micros := 0 |}
                                         (py "https://mmt.test/list?checkin=13022025&checkout=08032025")))
                           (py "checkin=13022025&checkout=08032025") eq_refl))).
    + vm_compute. discriminate.
    + vm_compute. discriminate.
    + left. intros ci. vm_compute. discriminate.
  - apply (proj2 (proj2 (proj1 (proj2 (@X11_defaults_without_both_dates
                                         ascii_only_digits ascii_only_lower
                                         every_host_accepted unpadded_years
                                         {| on := july_first; micros := 12 * 3600 * 1000000 |}
                                         {| on := august_second; micros := 0 |}
                                         (py "hotels")))
                           [] eq_refl))).
    vm_compute. intuition discriminate.
  - apply (proj2 (proj2 (@X11_defaults_without_both_dates ascii_only_digits
                           ascii_only_lower every_host_accepted unpadded_years
                           {| on := july_first; micros := 0 |}
                           {| on := july_first; micros := 0 |}
                           (py "https://mmt.test/list"))));
      vm_compute; [reflexivity | intuition discriminate ..].
Defined.

(** X12, for the shapes of the line; in the last one the note holds
    "from" twice. *)
Lemma X12_location_line_shapes_witness :
  extract_location_info (Ok (py " Park Street, Kolkata "))
  = Ok (py "Park Street, Kolkata", [], [])
  /\ extract_location_info (Ok (py "Park Street | Near Airport"))
     = Ok (py "Park Street", py "Near Airport", [])
  /\ extract_location_info (Ok (py "Park Street | 2.5 km from City Center"))
     = Ok (py "Park Street", py "City Center", py "2.5 km")
  /\ extract_location_info
       (Ok (py "Park Street | 2.5 km from City Center, 9 km from Airport"))
     = Ok (py "Park Street", py "City Center, 9 km", py "2.5 km").
Proof.
  split; [|split; [|split]].
  - apply (proj1 (X12_location_line_shapes (py " Park Street, Kolkata ")
                    [] [] [] [] [] [])).
    vm_compute. intuition discriminate.
  - apply (proj1 (proj2 (X12_location_line_shapes
                           (py "Park Street | Near Airport")
                           (py "Park Street ") (py " Near Airport")
                           [] [] [] []))).
    + reflexivity.
    + vm_compute. intuition discriminate.
    + vm_compute. intuition discriminate.
    + reflexivity.
  - apply (proj2 (proj2 (X12_location_line_shapes
                           (py "Park Street | 2.5 km from City Center")
                           (py "Park Street ") [] (py " 2.5 km ")
                           (py " City Center") [] []))).
    + reflexivity.
    + vm_compute. intuition discriminate.
    + vm_compute. intuition discriminate.
    + vm_compute. intuition discriminate.
    + reflexivity.
    + reflexivity.
  - apply (proj2 (proj2 (X12_location_line_shapes
                           (py "Park Street | 2.5 km from City Center, 9 km from Airport")
                           (py "Park Street ") [] (py " 2.5 km ")
                           (py " City Center, 9 km from Airport")
                           (py " City Center, 9 km ") (py " Airport")))).
    + reflexivity.
    + vm_compute. intuition discriminate.
    + vm_compute. intuition discriminate.
    + vm_compute. intuition discriminate.
    + reflexivity.
    + reflexivity.
    + reflexivity.
Defined.

(** X13, for a line of three fields. *)
Lemma X13_location_ignores_later_fields_witness :
  location_of_text (py "Park Street | Near Airport | 4 star")
  = location_of_text (py "Park Street | Near Airport ").
Proof.
  apply (@X13_location_ignores_later_fields (py "Park Street ")
           (py " Near Airport ") (py " 4 star"));
    vm_compute; intuition discriminate.
Defined.

(** X14, for a detail page whose body never appears. *)
Lemma X14_detail_excerpts_are_distinct_and_long_witness :
  _extract_detailed_reviews (py "hotel_0_1762160000") no_body_page []
  = ([], []).
Proof.
  apply (proj2 (proj2 (proj2 (X14_detail_excerpts_are_distinct_and_long
                                (py "hotel_0_1762160000") no_body_page [])))
           TimeoutException).
  reflexivity.
Defined.

(** X17, with review scraping switched off. *)
Lemma X17_no_navigation_without_need_witness :
  fst (snd (extract_hotel_reviews ascii_only_lower (options_args false true)
              false (py "hotel_0_1762160000")
              (row_of [] (detail_attempt plain_page five_reviews false))
              listing_only [])) = listing_only.
Proof.
  apply X17_no_navigation_without_need. left. reflexivity.
Defined.

(** X20, for a row whose five excerpts are all on the detail page. *)
Lemma X20_no_tab_left_behind_witness :
  fst (snd (extract_hotel_reviews ascii_only_lower (options_args false true)
              true (py "hotel_0_1762160000")
              (row_of [] (detail_attempt plain_page five_reviews false))
              listing_only [])) = listing_only.
Proof.
  apply X20_no_tab_left_behind.
  - reflexivity.
  - intros i. repeat split; reflexivity.
Defined.

(** X21, from the listing alone. *)
Lemma X21_failed_switch_leaves_the_tab_open_witness :
  st_browser (fst (attempt ascii_only_lower (options_args false true)
                     failing_switch listing_state))
  = open_tab listing_only.
Proof.
  apply (@X21_failed_switch_leaves_the_tab_open ascii_only_lower
           (options_args false true) failing_switch listing_state 104%N
           (py "ttps://www.makemytrip.com/hotels/reviews?id=42"));
    reflexivity.
Defined.

(** X24, for the line "+ Rs 500 taxes & fees". *)
Lemma X24_tax_is_the_third_field_witness :
  tax_of (Ok (py "+ Rs 500 taxes & fees")) = Ok (py "500").
Proof.
  apply (proj1 (@X24_tax_is_the_third_field (py "+") (py "Rs") (py "500")
                  (py "taxes & fees")
                  ltac:(vm_compute; intuition discriminate)
                  ltac:(vm_compute; intuition discriminate)
                  ltac:(vm_compute; intuition discriminate))).
Defined.

(** X25, for a detail page showing five excerpts. *)
Lemma X25_detail_page_good_path_witness :
  exists added,
    _extract_detailed_reviews (py "hotel_0_1762160000")
      (detail_page_of five_reviews) []
    = (firstn min_reviews (List.map strip five_reviews), [] ++ added)
    /\ List.map review_text added = List.map strip five_reviews.
Proof.
  apply (@X25_detail_page_good_path (py "hotel_0_1762160000")
           (detail_page_of five_reviews) []
           (List.map bare_element five_reviews) five_reviews).
  - reflexivity.
  - reflexivity.
  - reflexivity.
  - intros e r I. cbn in I.
    repeat (destruct I as [<-|I]; [eexists; reflexivity|]). contradiction.
  - vm_compute. repeat constructor; cbn; intuition discriminate.
  - repeat constructor; apply Nat.ltb_lt; reflexivity.
  - apply Nat.leb_le. reflexivity.
Defined.

